(** * Dutch Parliament attendance backend: query builder and record flattener

    A shallow embedding of [server.js]: the OData query builder
    [buildQuery], the record flattener [processAttendanceData] and the
    request handlers that call them, over a small model of the JavaScript
    values that travel through them (parsed JSON bodies and parsed query
    strings). *)

From Stdlib Require Import String Ascii List ZArith Lia Bool.
From Stdlib Require Import DecimalString.
Import ListNotations.
Local Open Scope list_scope.
Local Open Scope string_scope.

(** ** JavaScript values and exceptions *)

(** The values the program handles come out of [JSON.parse] (upstream
    bodies) and out of the query-string parser (request parameters), plus
    the number and string literals of the program itself.  [Num z] is the
    integer-valued number [z], of a size that prints without an exponent
    (other numbers are not represented); an object is the list of its own
    properties, in enumeration order, each name once. *)
#[warnings="-register-all"]
Inductive value : Type :=
| Undefined
| Null
| Bool (b : bool)
| Num (z : Z)
| Str (s : string)
| Arr (items : list value)
| Obj (props : list (string * value)).

(** What a [throw] carries: [TypeError] is raised by the engine (reading a
    property of [null]/[undefined], calling something that is not a
    function, converting an object that cannot be converted); [Error] is
    an error object with its [message]. *)
Inductive error : Type :=
| TypeError
| Error (message : string).

Inductive result (A : Type) : Type :=
| Ok (a : A)
| Throw (e : error).
Arguments Ok {A} a.
Arguments Throw {A} e.

Definition bind {A B} (m : result A) (k : A -> result B) : result B :=
  match m with
  | Ok a => k a
  | Throw e => Throw e
  end.

Declare Scope js_scope.
Delimit Scope js_scope with js.
Notation "x <- m ;; k" := (bind m (fun x => k))
  (at level 61, m at next level, right associativity) : js_scope.
Notation "m ;;; k" := (bind m (fun _ => k))
  (at level 61, right associativity) : js_scope.
Local Open Scope js_scope.

Definition is_ok {A} (m : result A) : bool :=
  match m with Ok _ => true | Throw _ => false end.

(** [try { body } catch (e) { handler }] *)
Definition try_catch {A} (body : result A) (handler : error -> result A) : result A :=
  match body with
  | Ok a => Ok a
  | Throw e => handler e
  end.

(** ** Primitive operations *)

(** ToBoolean: what [if (v)], [!v], [v || d], [v ? a : b] and
    [filter(Boolean)] test. *)
Definition truthy (v : value) : bool :=
  match v with
  | Undefined | Null => false
  | Bool b => b
  | Num z => negb (Z.eqb z 0)
  | Str s => negb (String.eqb s "")
  | Arr _ | Obj _ => true
  end.

(** [a || b] on already evaluated operands (both operands of every [||]
    in the program are property reads or literals). *)
Definition or_else (a b : value) : value := if truthy a then a else b.

Fixpoint lookup (k : string) (props : list (string * value)) : option value :=
  match props with
  | [] => None
  | (k', v) :: rest => if String.eqb k k' then Some v else lookup k rest
  end.

Definition has_key (k : string) (props : list (string * value)) : bool :=
  match lookup k props with Some _ => true | None => false end.

(** Property read [v.k], for the property names the program reads
    ([Id], [Onderwerp], [ActiviteitActor], [length], ...): none of them is
    an array index or a member of a built-in prototype other than
    [length].  The length of a string is the length of its representation
    here; the program only compares it with 0. *)
Definition get (v : value) (k : string) : result value :=
  match v with
  | Undefined | Null => Throw TypeError
  | Bool _ | Num _ => Ok Undefined
  | Str s => Ok (if String.eqb k "length" then Num (Z.of_nat (String.length s)) else Undefined)
  | Arr l => Ok (if String.eqb k "length" then Num (Z.of_nat (List.length l)) else Undefined)
  | Obj ps => Ok (match lookup k ps with Some x => x | None => Undefined end)
  end.

(** [v === w] against a primitive literal [w]. *)
Definition strict_eq_prim (v w : value) : bool :=
  match v, w with
  | Undefined, Undefined => true
  | Null, Null => true
  | Bool a, Bool b => Bool.eqb a b
  | Num a, Num b => Z.eqb a b
  | Str a, Str b => String.eqb a b
  | _, _ => false
  end.

Definition string_of_Z (z : Z) : string := NilZero.string_of_int (Z.to_int z).

(** ToString, as applied by template literals and by [join].  An object
    built from data has no callable [toString] of its own: if it has an
    own property of that name the conversion throws, otherwise the
    inherited one answers ["[object Object]"].  An array converts through
    [join(',')], where [null] and [undefined] elements give the empty
    string. *)
Fixpoint to_string (v : value) : result string :=
  match v with
  | Undefined => Ok "undefined"
  | Null => Ok "null"
  | Bool true => Ok "true"
  | Bool false => Ok "false"
  | Num z => Ok (string_of_Z z)
  | Str s => Ok s
  | Arr l =>
      (fix go (l : list value) : result string :=
         match l with
         | [] => Ok ""
         | x :: rest =>
             s <- match x with Undefined | Null => Ok "" | _ => to_string x end ;;
             match rest with
             | [] => Ok s
             | _ => r <- go rest ;; Ok (s ++ "," ++ r)
             end
         end) l
  | Obj ps => if has_key "toString" ps then Throw TypeError else Ok "[object Object]"
  end.

(** The element conversion of [Array.prototype.join]. *)
Definition join_elem (x : value) : result string :=
  match x with
  | Undefined | Null => Ok ""
  | _ => to_string x
  end.

(** [l.join(sep)] *)
Fixpoint join (sep : string) (l : list value) : result string :=
  match l with
  | [] => Ok ""
  | x :: rest =>
      s <- join_elem x ;;
      match rest with
      | [] => Ok s
      | _ => r <- join sep rest ;; Ok (s ++ sep ++ r)
      end
  end.

(** [l.join(sep)] for an array of strings. *)
Definition join_strings (sep : string) (l : list string) : string := String.concat sep l.

(** [l.forEach(f)]: the receiver must be an array. *)
Definition array_items (v : value) : result (list value) :=
  match v with
  | Arr l => Ok l
  | Undefined | Null => Throw TypeError
  | _ => Throw TypeError
  end.


(** [a.push(x)] *)
Definition push {A} (a : list A) (x : A) : list A := (a ++ [x])%list.

(** ** The query builder *)

Definition BASE_API_URL : string := "https://gegevensmagazijn.tweedekamer.nl/OData/v4/2.0".

(** [Object.keys(o)] *)
Definition Object_keys (props : list (string * value)) : list string := map fst props.

(** [Object.keys(options).forEach(key => { if (options[key] !== undefined
    && options[key] !== null) params.push(`$${key}=${options[key]}`) })],
    threading the array [params]. *)
Fixpoint push_options (options : list (string * value)) (ks : list string)
         (params : list string) : result (list string) :=
  match ks with
  | [] => Ok params
  | key :: rest =>
      v <- get (Obj options) key ;;
      if negb (strict_eq_prim v Undefined) && negb (strict_eq_prim v Null) then
        s <- to_string v ;;
        push_options options rest (push params ("$" ++ key ++ "=" ++ s))
      else
        push_options options rest params
  end.

(** The array [params] of [buildQuery] when the function reaches its last
    statement. *)
Definition query_params (filters expands : list string)
           (options : list (string * value)) : result (list string) :=
  let params : list string := [] in
  let params :=
    if (0 <? List.length filters)%nat
    then push params ("$filter=" ++ join_strings " and " filters)
    else params in
  let params :=
    if (0 <? List.length expands)%nat
    then push params ("$expand=" ++ join_strings "," expands)
    else params in
  params <- push_options options (Object_keys options) params ;;
  Ok (push params "$format=json").

(** [buildQuery(endpoint, filters = [], expands = [], options = {})]; a
    caller that leaves an argument out passes the default here. *)
Definition buildQuery (endpoint : string) (filters expands : list string)
           (options : list (string * value)) : result string :=
  let query := BASE_API_URL ++ "/" ++ endpoint in
  params <- query_params filters expands options ;;
  let query :=
    if (0 <? List.length params)%nat
    then query ++ "?" ++ join_strings "&" params
    else query in
  Ok query.

(** *** The clauses, as the specification words them *)

Definition filter_clause (filters : list string) : list string :=
  match filters with
  | [] => []
  | _ => ["$filter=" ++ String.concat " and " filters]
  end.

Definition expand_clause (expands : list string) : list string :=
  match expands with
  | [] => []
  | _ => ["$expand=" ++ String.concat "," expands]
  end.

Definition is_nullish (v : value) : bool :=
  match v with Undefined | Null => true | _ => false end.

Definition defined_options (options : list (string * value)) : list (string * value) :=
  filter (fun kv => negb (is_nullish (snd kv))) options.

Definition option_clause (kv : string * value) : result string :=
  s <- to_string (snd kv) ;; Ok ("$" ++ fst kv ++ "=" ++ s).

Fixpoint mapM {A B} (f : A -> result B) (l : list A) : result (list B) :=
  match l with
  | [] => Ok []
  | x :: rest => y <- f x ;; ys <- mapM f rest ;; Ok (y :: ys)
  end.

(** Reading a URL back: the part after the first ['?'], cut at every ['&']. *)
Fixpoint split_on (c : ascii) (s : string) : list string :=
  match s with
  | EmptyString => [EmptyString]
  | String a rest =>
      if Ascii.eqb a c then EmptyString :: split_on c rest
      else match split_on c rest with
           | [] => [String a EmptyString]
           | w :: ws => String a w :: ws
           end
  end.

Fixpoint after_first (c : ascii) (s : string) : string :=
  match s with
  | EmptyString => EmptyString
  | String a rest => if Ascii.eqb a c then rest else after_first c rest
  end.

Definition url_parameters (url : string) : list string :=
  split_on "&"%char (after_first "?"%char url).

Definition count_named (name : string) (params : list string) : nat :=
  List.length (filter (String.prefix (name ++ "=")) params).

(** [s] occurs in [t]. *)
Fixpoint includes (s t : string) : bool :=
  String.prefix s t ||
  match t with
  | EmptyString => false
  | String _ rest => includes s rest
  end.

(** ** The host: dates *)

(** What the program asks of the JavaScript host and of its locale data.
    [Date_parse s] is the time value (milliseconds since the epoch) that
    [Date.parse(s)] gives, [None] for [NaN]; the two formatters are
    [toLocaleDateString('nl-NL', {year: 'numeric', month: '2-digit', day:
    '2-digit'})] and [toLocaleTimeString('nl-NL', {hour: '2-digit',
    minute: '2-digit', hour12: false})] on a valid date, in the time zone
    of the host. *)
Record Runtime : Type := {
  Date_parse : string -> option Z;
  toLocaleDateString : Z -> string;
  toLocaleTimeString : Z -> string;
  (** [ToNumber(s) > 0] for a string [s] *)
  string_exceeds_zero : string -> bool;
  (** [parseInt(s)], [None] for [NaN] *)
  parseInt_string : string -> option Z
}.

(** A [Date] object: its time value, or the invalid date. *)
Inductive Date : Type :=
| ValidDate (t : Z)
| InvalidDate.

Definition TimeClip (t : Z) : Date :=
  if (Z.abs t <=? 8640000000000000)%Z then ValidDate t else InvalidDate.

Definition date_of_parse (o : option Z) : Date :=
  match o with Some t => TimeClip t | None => InvalidDate end.

(** [new Date(v)]: a string is parsed, an object or array is first
    converted to a string, anything else is converted to a number. *)
Definition new_Date (rt : Runtime) (v : value) : result Date :=
  match v with
  | Str s => Ok (date_of_parse (Date_parse rt s))
  | Arr _ | Obj _ => s <- to_string v ;; Ok (date_of_parse (Date_parse rt s))
  | Num z => Ok (TimeClip z)
  | Bool b => Ok (ValidDate (if b then 1 else 0))
  | Null => Ok (ValidDate 0)
  | Undefined => Ok InvalidDate
  end.

(** [isNaN(d.getTime())] *)
Definition isNaN_getTime (d : Date) : bool :=
  match d with ValidDate _ => false | InvalidDate => true end.

(** The two formatting methods; on the invalid date both answer
    ["Invalid Date"]. *)
Definition Date_toLocaleDateString (rt : Runtime) (d : Date) : string :=
  match d with ValidDate t => toLocaleDateString rt t | InvalidDate => "Invalid Date" end.

Definition Date_toLocaleTimeString (rt : Runtime) (d : Date) : string :=
  match d with ValidDate t => toLocaleTimeString rt t | InvalidDate => "Invalid Date" end.

(** [s.replace(/-/g, r)] *)
Fixpoint replace_dashes (r : string) (s : string) : string :=
  match s with
  | EmptyString => EmptyString
  | String c rest =>
      if Ascii.eqb c "-"%char then r ++ replace_dashes r rest
      else String c (replace_dashes r rest)
  end.

(** ** The record flattener *)

Record AttendanceRecord : Type := {
  activityId : value;
  activityTitle : value;
  activityDate : string;
  activityTime : string;
  activityDateTime : value;
  personId : value;
  personName : string;
  personInitials : value;
  personFirstName : value;
  personLastName : string;
  fraction : value;
  fractionId : value;
  role : value;
  actorId : value;
  hasValidDate : bool
}.

(** The lines [processAttendanceData] writes to the console, by the
    statement that writes them. *)
Inductive console_line : Type :=
| LogProcessing (count : string)
| LogSkipping (id title : string)
| WarnDate (id : string) (e : error)
| LogProcessed (records : nat)
| LogSkippedActivities (count : nat).

(** The variables of [processAttendanceData] that its callbacks update. *)
Record FlattenState : Type := {
  attendanceData : list AttendanceRecord;
  skippedActivities : nat;
  activitiesWithoutActors : nat;
  console : list console_line
}.

Definition console_log (st : FlattenState) (l : console_line) : FlattenState :=
  {| attendanceData := attendanceData st;
     skippedActivities := skippedActivities st;
     activitiesWithoutActors := activitiesWithoutActors st;
     console := push (console st) l |}.

Definition count_activity_without_actors (st : FlattenState) : FlattenState :=
  {| attendanceData := attendanceData st;
     skippedActivities := skippedActivities st;
     activitiesWithoutActors := S (activitiesWithoutActors st);
     console := console st |}.

Definition push_record (st : FlattenState) (r : AttendanceRecord) : FlattenState :=
  {| attendanceData := push (attendanceData st) r;
     skippedActivities := skippedActivities st;
     activitiesWithoutActors := activitiesWithoutActors st;
     console := console st |}.

(** The three variables set by the date block of one activity. *)
Record StartInfo : Type := {
  startTime : option Date;
  start_activityDate : string;
  start_activityTime : string
}.

Definition unknown_start : StartInfo :=
  {| startTime := None; start_activityDate := "Unknown"; start_activityTime := "Unknown" |}.

(** [l.forEach((x, index) => ...)] with the callback's effect on the
    enclosing variables threaded through. *)
Fixpoint forEach_from {St A} (f : St -> nat -> A -> result St) (l : list A)
         (index : nat) (st : St) : result St :=
  match l with
  | [] => Ok st
  | x :: rest => st' <- f st index x ;; forEach_from f rest (S index) st'
  end.

Definition forEach {St A} (f : St -> A -> result St) (l : list A) (st : St) : result St :=
  forEach_from (fun st _ x => f st x) l 0 st.

Section Flattener.
Context (rt : Runtime).

(** [activity.Aanvangstijd || activity.Datum] *)
Definition date_field (activity : value) : result value :=
  a <- get activity "Aanvangstijd" ;;
  if truthy a then Ok a else get activity "Datum".

(** The [try] block of the date handling. *)
Definition try_parse_start (activity : value) : result StartInfo :=
  dateStr <- date_field activity ;;
  if truthy dateStr then
    d <- new_Date rt dateStr ;;
    if negb (isNaN_getTime d) then
      Ok {| startTime := Some d;
            start_activityDate := replace_dashes "-" (Date_toLocaleDateString rt d);
            start_activityTime := Date_toLocaleTimeString rt d |}
    else
      Ok {| startTime := Some d;
            start_activityDate := "Unknown";
            start_activityTime := "Unknown" |}
  else Ok unknown_start.

(** The date handling of one activity: the [try] block, and the [catch]
    block that leaves the three variables as initialised and warns. *)
Definition parse_start (activity : value) (st : FlattenState)
  : result (StartInfo * FlattenState) :=
  match try_parse_start activity with
  | Ok d => Ok (d, st)
  | Throw e =>
      id <- get activity "Id" ;;
      ids <- to_string id ;;
      Ok (unknown_start, console_log st (WarnDate ids e))
  end.

(** The object pushed for one actor whose [Persoon] is [persoon]. *)
Definition attendance_record (activity actor persoon : value) (d : StartInfo)
  : result AttendanceRecord :=
  voornamen <- get persoon "Voornamen" ;;
  tussenvoegsel <- get persoon "Tussenvoegsel" ;;
  achternaam <- get persoon "Achternaam" ;;
  fullName <- join " " (filter truthy [voornamen; tussenvoegsel; achternaam]) ;;
  fractie <- get actor "Fractie" ;;
  fractionName <- (if truthy fractie then get fractie "NaamNL" else Ok (Str "Unknown")) ;;
  id <- get activity "Id" ;;
  onderwerp <- get activity "Onderwerp" ;;
  dateTime <- date_field activity ;;
  pid <- get persoon "Id" ;;
  initialen <- get persoon "Initialen" ;;
  lastName <- join " " (filter truthy [tussenvoegsel; achternaam]) ;;
  fid <- (if truthy fractie then get fractie "Id" else Ok Null) ;;
  functie <- get actor "Functie" ;;
  aid <- get actor "Id" ;;
  Ok {| activityId := id;
        activityTitle := or_else onderwerp (Str "Unknown Activity");
        activityDate := start_activityDate d;
        activityTime := start_activityTime d;
        activityDateTime := dateTime;
        personId := pid;
        personName := fullName;
        personInitials := or_else initialen (Str "");
        personFirstName := or_else voornamen (Str "");
        personLastName := lastName;
        fraction := fractionName;
        fractionId := fid;
        role := or_else functie (Str "Participant");
        actorId := aid;
        hasValidDate := match startTime d with Some _ => true | None => false end |}.

(** The callback of [activity.ActiviteitActor.forEach]. *)
Definition process_actor (activity : value) (d : StartInfo)
           (st : FlattenState) (actor : value) : result FlattenState :=
  persoon <- get actor "Persoon" ;;
  if truthy persoon then
    r <- attendance_record activity actor persoon d ;;
    Ok (push_record st r)
  else Ok st.

(** [!activity.ActiviteitActor || activity.ActiviteitActor.length === 0] *)
Definition has_no_actors (activity : value) : result bool :=
  actors <- get activity "ActiviteitActor" ;;
  if negb (truthy actors) then Ok true
  else len <- get actors "length" ;; Ok (strict_eq_prim len (Num 0)).

(** The callback of [activities.forEach]. *)
Definition process_activity (st : FlattenState) (index : nat)
           (activity : value) : result FlattenState :=
  none <- has_no_actors activity ;;
  if none then
    let st := count_activity_without_actors st in
    if (index <? 5)%nat then
      id <- get activity "Id" ;;
      ids <- to_string id ;;
      onderwerp <- get activity "Onderwerp" ;;
      title <- to_string onderwerp ;;
      Ok (console_log st (LogSkipping ids title))
    else Ok st
  else
    ds <- parse_start activity st ;;
    let '(d, st) := ds in
    actors <- get activity "ActiviteitActor" ;;
    items <- array_items actors ;;
    forEach (process_actor activity d) items st.

Definition initial_state : FlattenState :=
  {| attendanceData := []; skippedActivities := 0;
     activitiesWithoutActors := 0; console := [] |}.

(** [processAttendanceData], with the final value of every variable. *)
Definition processAttendanceData_run (activities : value) : result FlattenState :=
  let st := initial_state in
  len <- get activities "length" ;;
  count <- to_string len ;;
  let st := console_log st (LogProcessing count) in
  items <- array_items activities ;;
  st <- forEach_from process_activity items 0 st ;;
  let st := console_log st (LogProcessed (List.length (attendanceData st))) in
  let st :=
    if (0 <? activitiesWithoutActors st)%nat
    then console_log st (LogSkippedActivities (activitiesWithoutActors st))
    else st in
  Ok st.

Definition processAttendanceData (activities : value) : result (list AttendanceRecord) :=
  st <- processAttendanceData_run activities ;;
  Ok (attendanceData st).

End Flattener.

(** ** The data model of the upstream records *)

(** The record shapes of the specification's data model, as predicates
    on parsed values: identifiers, texts and dates are primitive values
    (possibly missing), [Persoon] and [Fractie] are objects or missing,
    and [ActiviteitActor] is an array of actors or missing. *)

Definition is_primitive (v : value) : bool :=
  match v with Arr _ | Obj _ => false | _ => true end.

Definition is_object (v : value) : bool :=
  match v with Obj _ => true | _ => false end.

(** The member [k] of an object, [undefined] when it has none. *)
Definition field (k : string) (v : value) : value :=
  match v with
  | Obj ps => match lookup k ps with Some x => x | None => Undefined end
  | _ => Undefined
  end.

Definition primitive_fields (ks : list string) (v : value) : bool :=
  forallb (fun k => is_primitive (field k v)) ks.

Definition optional (shape : value -> bool) (v : value) : bool :=
  is_nullish v || shape v.

Definition is_Persoon (p : value) : bool :=
  is_object p
  && primitive_fields ["Id"; "Voornamen"; "Tussenvoegsel"; "Achternaam"; "Initialen"] p.

Definition is_Fractie (f : value) : bool :=
  is_object f && primitive_fields ["Id"; "NaamNL"] f.

Definition is_Actor (c : value) : bool :=
  is_object c
  && primitive_fields ["Id"; "Functie"] c
  && optional is_Persoon (field "Persoon" c)
  && optional is_Fractie (field "Fractie" c).

Definition is_actor_collection (v : value) : bool :=
  match v with
  | Undefined | Null => true
  | Arr l => forallb is_Actor l
  | _ => false
  end.

Definition is_Activity (a : value) : bool :=
  is_object a
  && primitive_fields ["Id"; "Onderwerp"; "Aanvangstijd"; "Datum"] a
  && is_actor_collection (field "ActiviteitActor" a).

(** An actor collection that is absent or empty. *)
Definition no_actor_collection (v : value) : bool :=
  match v with
  | Undefined | Null | Arr [] => true
  | _ => false
  end.

(** The actors of an activity, none when the collection is absent. *)
Definition actors_of (a : value) : list value :=
  match field "ActiviteitActor" a with
  | Arr l => l
  | _ => []
  end.

Definition has_person (c : value) : bool := truthy (field "Persoon" c).

(** The number of (activity, actor with a person) pairs. *)
Definition attendance_pairs (acts : list value) : nat :=
  list_sum (map (fun a => List.length (filter has_person (actors_of a))) acts).

(** The non-empty texts among name parts that are strings or missing. *)
Definition is_text_or_absent (v : value) : bool :=
  match v with Undefined | Null | Str _ => true | _ => false end.

Definition texts (parts : list value) : list string :=
  flat_map (fun v => match v with
                     | Str s => if String.eqb s "" then [] else [s]
                     | _ => []
                     end) parts.

(** ** What the flattener does, as relations *)

(** The date variables an activity ends up with. *)
Definition start_of (rt : Runtime) (activity : value) : StartInfo :=
  match try_parse_start rt activity with
  | Ok d => d
  | Throw _ => unknown_start
  end.

(** [actor_rows a d cs rs]: the actors [cs] of activity [a] contribute
    the records [rs], one for each actor with a person, in order. *)
Inductive actor_rows (a : value) (d : StartInfo) : list value -> list AttendanceRecord -> Prop :=
| rows_done : actor_rows a d [] []
| rows_skip c cs rs p :
    get c "Persoon" = Ok p -> truthy p = false ->
    actor_rows a d cs rs -> actor_rows a d (c :: cs) rs
| rows_emit c cs rs p r :
    get c "Persoon" = Ok p -> truthy p = true ->
    attendance_record a c p d = Ok r ->
    actor_rows a d cs rs -> actor_rows a d (c :: cs) (r :: rs).

(** [activity_rows rt as rs n]: the activities [as] contribute the
    records [rs], and [n] of them have no actors. *)
Inductive activity_rows (rt : Runtime) : list value -> list AttendanceRecord -> nat -> Prop :=
| acts_done : activity_rows rt [] [] 0
| acts_skip a acts rs n :
    has_no_actors a = Ok true ->
    activity_rows rt acts rs n -> activity_rows rt (a :: acts) rs (S n)
| acts_flatten a acts items rs rs' n :
    has_no_actors a = Ok false ->
    get a "ActiviteitActor" = Ok (Arr items) ->
    actor_rows a (start_of rt a) items rs ->
    activity_rows rt acts rs' n ->
    activity_rows rt (a :: acts) (rs ++ rs')%list n.

(** [st'] differs from [st] by the records [rs] pushed and by [n] more
    activities counted as having no actors. *)
Definition advanced (st st' : FlattenState) (rs : list AttendanceRecord) (n : nat) : Prop :=
  attendanceData st' = (attendanceData st ++ rs)%list
  /\ activitiesWithoutActors st' = (activitiesWithoutActors st + n)%nat
  /\ skippedActivities st' = skippedActivities st.

(** What the fields of the record pushed for actor [c] with person [p] of
    activity [a] are, in terms of the members of the three objects. *)
Definition record_fields (a c p : value) (d : StartInfo) (r : AttendanceRecord) : Prop :=
  activityId r = field "Id" a
  /\ activityTitle r = or_else (field "Onderwerp" a) (Str "Unknown Activity")
  /\ activityDate r = start_activityDate d
  /\ activityTime r = start_activityTime d
  /\ activityDateTime r = or_else (field "Aanvangstijd" a) (field "Datum" a)
  /\ personId r = field "Id" p
  /\ join " " (filter truthy [field "Voornamen" p; field "Tussenvoegsel" p;
                               field "Achternaam" p]) = Ok (personName r)
  /\ personInitials r = or_else (field "Initialen" p) (Str "")
  /\ personFirstName r = or_else (field "Voornamen" p) (Str "")
  /\ join " " (filter truthy [field "Tussenvoegsel" p; field "Achternaam" p])
     = Ok (personLastName r)
  /\ fraction r = (if truthy (field "Fractie" c)
                   then field "NaamNL" (field "Fractie" c) else Str "Unknown")
  /\ fractionId r = (if truthy (field "Fractie" c)
                     then field "Id" (field "Fractie" c) else Null)
  /\ role r = or_else (field "Functie" c) (Str "Participant")
  /\ actorId r = field "Id" c
  /\ hasValidDate r = match startTime d with Some _ => true | None => false end.

(** Record [r] was pushed for actor [c], whose person is [p], of
    activity [a]. *)
Definition emitted_from (rt : Runtime) (a c p : value) (r : AttendanceRecord) : Prop :=
  exists items,
    get a "ActiviteitActor" = Ok (Arr items) /\ In c items /\
    get c "Persoon" = Ok p /\ truthy p = true /\
    attendance_record a c p (start_of rt a) = Ok r.

(** ** The request handlers *)

(** *** Upstream calls *)

(** What one [fetch(url)] comes to: the promise rejects, or it resolves
    to a response with its [ok], [status], [statusText] and the outcome of
    [response.json()]. *)
Record FetchResponse : Type := {
  ok : bool;
  status : Z;
  statusText : string;
  json : result value
}.

Inductive fetch_outcome : Type :=
| Rejected (e : error)
| Resolved (r : FetchResponse).

(** The upstream service: its answer to a request may depend on the
    requests made before it. *)
Definition Upstream : Type := list string -> string -> fetch_outcome.

(** A handler's computation: it may throw, and it leaves the list of the
    URLs it has fetched, oldest first. *)
Definition io (A : Type) : Type := list string -> result A * list string.

Definition io_ret {A} (a : A) : io A := fun trace => (Ok a, trace).

Definition io_bind {A B} (m : io A) (k : A -> io B) : io B :=
  fun trace =>
    match m trace with
    | (Ok a, trace') => k a trace'
    | (Throw e, trace') => (Throw e, trace')
    end.

Definition io_lift {A} (r : result A) : io A := fun trace => (r, trace).

Definition io_throw {A} (e : error) : io A := fun trace => (Throw e, trace).

Definition io_try {A} (body : io A) (handler : error -> io A) : io A :=
  fun trace =>
    match body trace with
    | (Ok a, trace') => (Ok a, trace')
    | (Throw e, trace') => handler e trace'
    end.

Declare Scope io_scope.
Delimit Scope io_scope with io.
Notation "x <- m ;; k" := (io_bind m (fun x => k))
  (at level 61, m at next level, right associativity) : io_scope.
Notation "m ;;; k" := (io_bind m (fun _ => k))
  (at level 61, right associativity) : io_scope.

(** [await fetch(url)] *)
Definition fetch (up : Upstream) (url : string) : io FetchResponse :=
  fun trace =>
    match up trace url with
    | Rejected e => (Throw e, push trace url)
    | Resolved r => (Ok r, push trace url)
    end.

(** [checkFetch()]; [loaded] tells whether the module variable [fetch]
    has been set. *)
Definition checkFetch (loaded : bool) : result unit :=
  if negb loaded
  then Throw (Error "Fetch module not yet loaded. Please wait and try again.")
  else Ok tt.

(** *** Requests and responses *)

(** The members of [req.query] that the handlers read; [Undefined] for a
    parameter that the request does not carry. *)
Record Query : Type := {
  q_dateFrom : value;
  q_dateTo : value;
  q_activityType : value;
  q_limit : value;
  q_skip : value
}.

(** A destructuring default: [{ x = d } = o]. *)
Definition with_default (v d : value) : value :=
  match v with Undefined => d | _ => v end.

Record Metadata : Type := {
  totalActivities : value;
  totalRegistrations : nat;
  totalCount : value;
  meta_skip : option Z;
  meta_limit : option Z
}.

Record Stats : Type := {
  stats_totalActivities : value;
  sampleRegistrations : nat;
  uniquePeopleInSample : nat;
  uniqueFractionsInSample : nat
}.

(** What a handler sends: a [success: true] body, or status 500 with the
    error caught at the route boundary. *)
Inductive response : Type :=
| AttendanceOk (data : list AttendanceRecord) (metadata : Metadata)
| ActivityOk (data : value)
| StatsOk (stats : Stats)
| ServerError (e : error) (details : option string).

(** What the attendance handler holds when it reaches the count block. *)
Record Primary : Type := {
  p_filters : list string;
  p_limit : value;
  p_skip : value;
  p_data : value;
  p_attendanceData : list AttendanceRecord
}.

(** *** The queries of the routes *)

(** The filter list that the attendance and the statistics route build. *)
Definition route_filters (q : Query) : result (list string) :=
  let filters := ["verwijderd eq false"] in
  filters <-
    (if truthy (q_dateFrom q) then
       s <- to_string (q_dateFrom q) ;;
       Ok (push filters ("aanvangstijd ge " ++ s ++ "T00:00:00Z"))
     else Ok filters) ;;
  filters <-
    (if truthy (q_dateTo q) then
       s <- to_string (q_dateTo q) ;;
       Ok (push filters ("aanvangstijd le " ++ s ++ "T23:59:59Z"))
     else Ok filters) ;;
  (if truthy (q_activityType q) then
     s <- to_string (q_activityType q) ;;
     Ok (push filters ("contains(tolower(onderwerp), tolower('" ++ s ++ "'))"))
   else Ok filters).

Definition attendance_query (filters : list string) (limit skip : value) : result string :=
  buildQuery "Activiteit" filters ["ActiviteitActor($expand=Persoon,Fractie)"]
             [("top", limit); ("skip", skip); ("orderby", Str "aanvangstijd desc")].

Definition attendance_count_query (filters : list string) : result string :=
  buildQuery "Activiteit" filters [] [("count", Str "true")].

Definition activity_query (id : string) : result string :=
  buildQuery ("Activiteit/" ++ id) [] ["ActiviteitActor($expand=Persoon,Fractie)"] [].

Definition stats_count_query (filters : list string) : result string :=
  buildQuery "Activiteit" filters [] [("count", Str "true"); ("top", Num 0)].

Definition stats_sample_query (filters : list string) : result string :=
  buildQuery "Activiteit" filters
             ["ActiviteitActor($filter=relatie eq 'Deelnemer';$expand=Persoon,Fractie)"]
             [("top", Num 100)].

Section Handlers.
Context (rt : Runtime) (loaded : bool) (up : Upstream).

(** [v > 0] *)
Definition exceeds_zero (v : value) : result bool :=
  match v with
  | Num z => Ok (0 <? z)%Z
  | Undefined | Null => Ok false
  | Bool b => Ok b
  | Str s => Ok (string_exceeds_zero rt s)
  | Arr _ | Obj _ => s <- to_string v ;; Ok (string_exceeds_zero rt s)
  end.

(** [v.slice(0, 3)]: arrays and strings have the method. *)
Definition slice_0_3 (v : value) : result value :=
  match v with
  | Arr l => Ok (Arr (firstn 3 l))
  | Str s => Ok (Str (substring 0 3 s))
  | _ => Throw TypeError
  end.

(** [parseInt(v)] *)
Definition parseInt (v : value) : result (option Z) :=
  s <- to_string v ;; Ok (parseInt_string rt s).

(** The console lines about one of the first three activities; what
    they print is not kept, only whether printing it throws. *)
Definition debug_activity (_ : unit) (activity : value) : result unit :=
  id <- get activity "Id" ;;
  _ <- to_string id ;;
  onderwerp <- get activity "Onderwerp" ;;
  _ <- to_string onderwerp ;;
  date <- date_field activity ;;
  _ <- to_string date ;;
  actors <- get activity "ActiviteitActor" ;;
  _ <- (if truthy actors then len <- get actors "length" ;; to_string len
        else to_string (Num 0)) ;;
  (if truthy actors then
     len <- get actors "length" ;;
     _ <- exceeds_zero len ;;
     Ok tt
   else Ok tt).

(** The block that logs the structure of the first activities. *)
Definition debug_block (data : value) : result unit :=
  v <- get data "value" ;;
  if truthy v then
    len <- get v "length" ;;
    some <- exceeds_zero len ;;
    if some then
      _ <- to_string len ;;
      first <- slice_0_3 v ;;
      items <- array_items first ;;
      forEach debug_activity items tt
    else Ok tt
  else Ok tt.

(** [skip === 0 || skip === '0'] *)
Definition wants_count (skip : value) : bool :=
  strict_eq_prim skip (Num 0) || strict_eq_prim skip (Str "0").

Local Open Scope io_scope.

(** The statements of the [if (skip === 0 || skip === '0')] block: the
    value [totalCount] has after it. *)
Definition fetch_total_count (filters : list string) : io value :=
  io_try
    (countQuery <- io_lift (attendance_count_query filters) ;;
     countResponse <- fetch up countQuery ;;
     if ok countResponse then
       countData <- io_lift (json countResponse) ;;
       io_lift (get countData "@odata.count")
     else io_ret Null)
    (fun _ => io_ret Null).

Definition api_request_failed (r : FetchResponse) : error :=
  Error ("API request failed: " ++ string_of_Z (status r) ++ " " ++ statusText r).

(** The attendance handler up to the flattened records: the request
    parameters with their defaults, the filters, the body of the data
    query and the records. *)
Definition attendance_primary (q : Query) : io Primary :=
  io_lift (checkFetch loaded) ;;;
  let limit := with_default (q_limit q) (Num 1000) in
  let skip := with_default (q_skip q) (Num 0) in
  filters <- io_lift (route_filters q) ;;
  query <- io_lift (attendance_query filters limit skip) ;;
  response <- fetch up query ;;
  (if negb (ok response) then io_throw (api_request_failed response) else io_ret tt) ;;;
  data <- io_lift (json response) ;;
  io_lift (debug_block data) ;;;
  v <- io_lift (get data "value") ;;
  attendanceData <- io_lift (processAttendanceData rt (or_else v (Arr []))) ;;
  io_ret {| p_filters := filters; p_limit := limit; p_skip := skip;
            p_data := data; p_attendanceData := attendanceData |}.

(** The body of the success response. *)
Definition attendance_body (p : Primary) (totalCount : value) : result response :=
  (v <- get (p_data p) "value" ;;
   len <- (if is_nullish v then Ok Undefined else get v "length") ;;
   skip' <- parseInt (p_skip p) ;;
   limit' <- parseInt (p_limit p) ;;
   Ok (AttendanceOk (p_attendanceData p)
         {| totalActivities := or_else len (Num 0);
            totalRegistrations := List.length (p_attendanceData p);
            totalCount := totalCount;
            meta_skip := skip';
            meta_limit := limit' |}))%js.

(** [app.get('/api/attendance', ...)] *)
Definition attendance_route (q : Query) : io response :=
  io_try
    (p <- attendance_primary q ;;
     totalCount <- (if wants_count (p_skip p) then fetch_total_count (p_filters p)
                    else io_ret Null) ;;
     io_lift (attendance_body p totalCount))
    (fun e =>
       io_ret (ServerError e (Some "Failed to fetch attendance data from Dutch Parliament API"))).

(** [app.get('/api/activity/:id', ...)] *)
Definition activity_route (id : string) : io response :=
  io_try
    (io_lift (checkFetch loaded) ;;;
     query <- io_lift (activity_query id) ;;
     response <- fetch up query ;;
     (if negb (ok response) then io_throw (api_request_failed response) else io_ret tt) ;;;
     data <- io_lift (json response) ;;
     io_ret (ActivityOk data))
    (fun e => io_ret (ServerError e None)).

(** [new Set(l).size]: primitives are compared by value, and the
    objects and arrays of one parsed body are pairwise distinct. *)
Fixpoint distinct_count (seen : list value) (l : list value) : nat :=
  match l with
  | [] => 0
  | x :: rest =>
      match x with
      | Arr _ | Obj _ => S (distinct_count seen rest)
      | _ =>
          if existsb (strict_eq_prim x) seen then distinct_count seen rest
          else S (distinct_count (x :: seen) rest)
      end
  end.

(** [app.get('/api/stats', ...)] *)
Definition stats_route (q : Query) : io response :=
  io_try
    (io_lift (checkFetch loaded) ;;;
     filters <- io_lift (route_filters q) ;;
     activityCountQuery <- io_lift (stats_count_query filters) ;;
     activityResponse <- fetch up activityCountQuery ;;
     activityData <- io_lift (json activityResponse) ;;
     sampleQuery <- io_lift (stats_sample_query filters) ;;
     sampleResponse <- fetch up sampleQuery ;;
     sampleData <- io_lift (json sampleResponse) ;;
     v <- io_lift (get sampleData "value") ;;
     sampleAttendance <- io_lift (processAttendanceData rt (or_else v (Arr []))) ;;
     count <- io_lift (get activityData "@odata.count") ;;
     io_ret (StatsOk
               {| stats_totalActivities := or_else count (Num 0);
                  sampleRegistrations := List.length sampleAttendance;
                  uniquePeopleInSample := distinct_count [] (map personId sampleAttendance);
                  uniqueFractionsInSample := distinct_count [] (map fraction sampleAttendance) |}))
    (fun e => io_ret (ServerError e None)).

End Handlers.

(** ** A reference host *)

(** A host whose clock is UTC, whose [Date.parse] accepts the two
    interchange forms [YYYY-MM-DD] and [YYYY-MM-DDTHH:mm:ssZ] and whose
    numeric conversions read plain decimal numerals; it serves to run the
    program on concrete inputs. *)
Module UtcHost.
Local Open Scope Z_scope.

Definition digit (c : ascii) : option Z :=
  let n := Z.of_nat (nat_of_ascii c) in
  if (48 <=? n) && (n <=? 57) then Some (n - 48) else None.

Fixpoint digits (acc : Z) (s : string) : option Z :=
  match s with
  | EmptyString => Some acc
  | String c rest =>
      match digit c with
      | Some d => digits (10 * acc + d) rest
      | None => None
      end
  end.

Definition number (s : string) : option Z :=
  match s with EmptyString => None | _ => digits 0 s end.

Definition is_leap (y : Z) : bool :=
  ((y mod 4 =? 0) && negb (y mod 100 =? 0)) || (y mod 400 =? 0).

Definition days_in_month (y m : Z) : Z :=
  if m =? 2 then (if is_leap y then 29 else 28)
  else if (m =? 4) || (m =? 6) || (m =? 9) || (m =? 11) then 30 else 31.

Definition days_from_civil (y m d : Z) : Z :=
  let y := if m <=? 2 then y - 1 else y in
  let era := y / 400 in
  let yoe := y - era * 400 in
  let doy := (153 * (if 2 <? m then m - 3 else m + 9) + 2) / 5 + d - 1 in
  let doe := yoe * 365 + yoe / 4 - yoe / 100 + doy in
  era * 146097 + doe - 719468.

Definition civil_from_days (z : Z) : Z * Z * Z :=
  let z := z + 719468 in
  let era := z / 146097 in
  let doe := z - era * 146097 in
  let yoe := (doe - doe / 1460 + doe / 36524 - doe / 146096) / 365 in
  let doy := doe - (365 * yoe + yoe / 4 - yoe / 100) in
  let mp := (5 * doy + 2) / 153 in
  let d := doy - (153 * mp + 2) / 5 + 1 in
  let m := if mp <? 10 then mp + 3 else mp - 9 in
  let y := yoe + era * 400 + (if m <=? 2 then 1 else 0) in
  (y, m, d).

Definition parse_date (s : string) : option Z :=
  match number (substring 0 4 s), number (substring 5 2 s), number (substring 8 2 s) with
  | Some y, Some m, Some d =>
      if String.eqb (substring 4 1 s) "-" && String.eqb (substring 7 1 s) "-"
         && (1 <=? m) && (m <=? 12) && (1 <=? d) && (d <=? days_in_month y m)
      then Some (days_from_civil y m d * 86400000)
      else None
  | _, _, _ => None
  end.

Definition parse_time (s : string) : option Z :=
  match number (substring 0 2 s), number (substring 3 2 s), number (substring 6 2 s) with
  | Some h, Some mi, Some sec =>
      if String.eqb (substring 2 1 s) ":" && String.eqb (substring 5 1 s) ":"
         && (h <=? 23) && (mi <=? 59) && (sec <=? 59)
      then Some ((h * 60 + mi) * 60000 + sec * 1000)
      else None
  | _, _, _ => None
  end.

Definition parse (s : string) : option Z :=
  if Nat.eqb (String.length s) 10 then parse_date s
  else if Nat.eqb (String.length s) 20
          && String.eqb (substring 10 1 s) "T" && String.eqb (substring 19 1 s) "Z"
  then match parse_date (substring 0 10 s), parse_time (substring 11 8 s) with
       | Some d, Some t => Some (d + t)
       | _, _ => None
       end
  else None.

Definition two_digits (n : Z) : string :=
  if n <? 10 then "0" ++ string_of_Z n else string_of_Z n.

Definition format_date (t : Z) : string :=
  let '(y, m, d) := civil_from_days (t / 86400000) in
  two_digits d ++ "-" ++ two_digits m ++ "-" ++ string_of_Z y.

Definition format_time (t : Z) : string :=
  let ms := t mod 86400000 in
  two_digits (ms / 3600000) ++ ":" ++ two_digits ((ms / 60000) mod 60).

Definition host : Runtime :=
  {| Date_parse := parse;
     toLocaleDateString := format_date;
     toLocaleTimeString := format_time;
     string_exceeds_zero := fun s =>
       match number s with Some n => 0 <? n | None => false end;
     parseInt_string := number |}.
End UtcHost.

(** ** Sample data *)

Definition jan_van_der_berg : value :=
  Obj [("Id", Str "p1"); ("Voornamen", Str "Jan"); ("Tussenvoegsel", Str "van der");
       ("Achternaam", Str "Berg"); ("Initialen", Str "J.")].

Definition jan_berg : value :=
  Obj [("Id", Str "p2"); ("Voornamen", Str "Jan"); ("Tussenvoegsel", Null);
       ("Achternaam", Str "Berg")].

Definition vvd : value := Obj [("Id", Str "f1"); ("NaamNL", Str "VVD")].

Definition sample_activity : value :=
  Obj [("Id", Str "a1"); ("Onderwerp", Str "Debat");
       ("Aanvangstijd", Str "2024-03-15T14:30:00Z");
       ("ActiviteitActor",
        Arr [Obj [("Id", Str "c1"); ("Persoon", jan_van_der_berg); ("Fractie", vvd);
                  ("Functie", Str "Voorzitter")];
             Obj [("Id", Str "c2"); ("Persoon", Null); ("Fractie", vvd)];
             Obj [("Id", Str "c3"); ("Persoon", jan_berg); ("Functie", Str "")]])].

Definition undated_activity : value :=
  Obj [("Id", Str "a2");
       ("ActiviteitActor", Arr [Obj [("Id", Str "c4"); ("Persoon", jan_berg)]])].

Definition misdated_activity : value :=
  Obj [("Id", Str "a3"); ("Onderwerp", Str "Stemmingen");
       ("Aanvangstijd", Str "not-a-date");
       ("ActiviteitActor", Arr [Obj [("Id", Str "c5"); ("Persoon", jan_berg)]])].

Definition empty_activity : value :=
  Obj [("Id", Str "a4"); ("Onderwerp", Str "Procedurevergadering");
       ("ActiviteitActor", Arr [])].

(** The URLs a handler run fetches, and what it answers. *)
Definition fetched {A} (run : io A) : list string := snd (run []).

Definition answer {A} (run : io A) : result A := fst (run []).

(** The base filter opens the filter clause of a query on [Activiteit]. *)
Definition base_filter : string := "verwijderd eq false".

Definition starts_with_base_filter (url : string) : bool :=
  String.prefix (BASE_API_URL ++ "/Activiteit?$filter=" ++ base_filter) url.

(** An upstream that answers every request with the same body. *)
Definition constant_upstream (body : value) : Upstream :=
  fun _ _ => Resolved {| ok := true; status := 200; statusText := "OK"; json := Ok body |}.

Definition sample_body : value :=
  Obj [("@odata.count", Num 42); ("value", Arr [sample_activity; empty_activity])].

Definition no_parameters : Query :=
  {| q_dateFrom := Undefined; q_dateTo := Undefined; q_activityType := Undefined;
     q_limit := Undefined; q_skip := Undefined |}.

Definition second_page : Query :=
  {| q_dateFrom := Str "2024-01-01"; q_dateTo := Undefined; q_activityType := Undefined;
     q_limit := Str "50"; q_skip := Str "50" |}.

Definition sample_batch : list value :=
  [sample_activity; undated_activity; misdated_activity; empty_activity].

(** The records of [sample_activity] on the reference host. *)
Definition sample_rows : list AttendanceRecord :=
  Eval vm_compute in
    match processAttendanceData UtcHost.host (Arr [sample_activity]) with
    | Ok rows => rows
    | Throw _ => []
    end.

Definition row_jan_van_der_berg : AttendanceRecord := nth 0 sample_rows
  {| activityId := Undefined; activityTitle := Undefined; activityDate := "";
     activityTime := ""; activityDateTime := Undefined; personId := Undefined;
     personName := ""; personInitials := Undefined; personFirstName := Undefined;
     personLastName := ""; fraction := Undefined; fractionId := Undefined;
     role := Undefined; actorId := Undefined; hasValidDate := false |}.

Definition row_jan_berg : AttendanceRecord := nth 1 sample_rows row_jan_van_der_berg.


(** ** Further definitions *)

(** [app.get('/api/health', ...)]: the body sent; [now] is what
    [new Date().toISOString()] gives when the request is handled. *)
Record HealthBody : Type := {
  health_success : bool;
  health_message : string;
  health_timestamp : string;
  fetchAvailable : bool
}.

Definition health_route (loaded : bool) (now : string) : HealthBody :=
  {| health_success := true;
     health_message := "Dutch Parliament Attendance API is running";
     health_timestamp := now;
     fetchAvailable := negb (negb loaded) |}.

(** The error that [checkFetch] throws. *)
Definition fetch_not_loaded : error :=
  Error "Fetch module not yet loaded. Please wait and try again.".

Definition attendance_details : option string :=
  Some "Failed to fetch attendance data from Dutch Parliament API".

(** Induction on values, through the arrays and the objects. *)
Section ValueInduction.
Variable P : value -> Prop.
Hypothesis P_Undefined : P Undefined.
Hypothesis P_Null : P Null.
Hypothesis P_Bool : forall b, P (Bool b).
Hypothesis P_Num : forall z, P (Num z).
Hypothesis P_Str : forall s, P (Str s).
Hypothesis P_Arr : forall l, Forall P l -> P (Arr l).
Hypothesis P_Obj : forall ps, Forall (fun kv => P (snd kv)) ps -> P (Obj ps).

Fixpoint value_induction (v : value) : P v :=
  match v with
  | Undefined => P_Undefined
  | Null => P_Null
  | Bool b => P_Bool b
  | Num z => P_Num z
  | Str s => P_Str s
  | Arr l =>
      P_Arr l ((fix all (l : list value) : Forall P l :=
                  match l with
                  | [] => Forall_nil P
                  | x :: rest => Forall_cons x (value_induction x) (all rest)
                  end) l)
  | Obj ps =>
      P_Obj ps ((fix all (ps : list (string * value)) : Forall (fun kv => P (snd kv)) ps :=
                   match ps with
                   | [] => Forall_nil _
                   | kv :: rest =>
                       Forall_cons kv (value_induction (snd kv)) (all rest)
                   end) ps)
  end.
End ValueInduction.

(** Whatever [m] throws is a [TypeError]. *)
Definition throws_only_TypeError {A} (m : result A) : Prop :=
  forall e, m = Throw e -> e = TypeError.

(** The number of occurrences of a character in a string. *)
Fixpoint count_char (c : ascii) (s : string) : nat :=
  match s with
  | EmptyString => 0
  | String a rest => (if Ascii.eqb a c then 1 else 0) + count_char c rest
  end.

(** A request parameter as a plain query string gives it: a text, or
    absent. *)
Definition is_query_text (v : value) : bool :=
  match v with Undefined | Str _ => true | _ => false end.

Definition plain_query (q : Query) : bool :=
  is_query_text (q_dateFrom q) && is_query_text (q_dateTo q)
  && is_query_text (q_activityType q) && is_query_text (q_limit q)
  && is_query_text (q_skip q).

(** The value [totalCount] has after the count block, by what the fetch
    of the count query came to. *)
Definition count_of_outcome (o : fetch_outcome) : value :=
  match o with
  | Rejected _ => Null
  | Resolved r =>
      if ok r then
        match json r with
        | Ok countData =>
            match get countData "@odata.count" with
            | Ok v => v
            | Throw _ => Null
            end
        | Throw _ => Null
        end
      else Null
  end.

(** Two upstreams that answer every request with the same body (or the
    same rejection), whatever status they report. *)
Definition same_bodies (up up' : Upstream) : Prop :=
  forall trace url,
    match up trace url, up' trace url with
    | Rejected e, Rejected e' => e = e'
    | Resolved r, Resolved r' => json r = json r'
    | _, _ => False
    end.

(** An upstream that reports a failure status with every body. *)
Definition failing_upstream (body : value) : Upstream :=
  fun _ _ => Resolved {| ok := false; status := 503;
                         statusText := "Service Unavailable"; json := Ok body |}.

(** An upstream whose connection fails. *)
Definition unreachable_upstream : Upstream :=
  fun _ _ => Rejected (Error "connect ECONNREFUSED").

(** An upstream that serves the data query and fails on the count query. *)
Definition countless_upstream (body : value) : Upstream :=
  fun trace _ =>
    match trace with
    | [] => Resolved {| ok := true; status := 200; statusText := "OK"; json := Ok body |}
    | _ => Rejected (Error "socket hang up")
    end.

(** The records of [sample_batch] on the reference host. *)
Definition batch_rows : list AttendanceRecord :=
  Eval vm_compute in
    match processAttendanceData UtcHost.host (Arr sample_batch) with
    | Ok rows => rows
    | Throw _ => []
    end.

(** The number of "Skipping activity ..." lines on the console. *)
Definition skipping_lines (lines : list console_line) : nat :=
  List.length (filter (fun l => match l with LogSkipping _ _ => true | _ => false end) lines).

(** * Properties *)

(** ** The result monad *)

Lemma bind_Ok_inv {A B} (m : result A) (k : A -> result B) (b : B) :
  bind m k = Ok b -> exists a, m = Ok a /\ k a = Ok b.
Proof.
  destruct m as [a|e]; simpl; intros H; [eauto | discriminate].
Qed.

Ltac bind_inv H :=
  let a := fresh "x" in
  let Ha := fresh "E" in
  apply bind_Ok_inv in H; destruct H as (a & Ha & H).

(** ** Strings *)

Example to_string_num : to_string (Num 1000) = Ok "1000".
Proof. reflexivity. Qed.

Example to_string_zero : to_string (Num 0) = Ok "0".
Proof. reflexivity. Qed.

Example to_string_neg : to_string (Num (-12)) = Ok "-12".
Proof. reflexivity. Qed.

Example to_string_arr : to_string (Arr [Str "a"; Null; Num 3]) = Ok "a,,3".
Proof. reflexivity. Qed.

Example UtcHost_parse : UtcHost.parse "2024-03-15T14:30:00Z" = Some 1710513000000%Z.
Proof. reflexivity. Qed.

Example UtcHost_format :
  (UtcHost.format_date 1710513000000, UtcHost.format_time 1710513000000)
  = ("15-03-2024", "14:30").
Proof. reflexivity. Qed.

Example UtcHost_parse_garbage : UtcHost.parse "not-a-date" = None.
Proof. reflexivity. Qed.

Lemma append_assoc (a b c : string) : (a ++ b) ++ c = a ++ (b ++ c).
Proof. induction a as [|x a IH]; simpl; [reflexivity | now rewrite IH]. Qed.

Lemma append_nil_r (a : string) : a ++ "" = a.
Proof. induction a as [|x a IH]; simpl; [reflexivity | now rewrite IH]. Qed.

(** ** The query builder *)

Lemma lookup_NoDup (ps : list (string * value)) (k : string) (v : value) :
  NoDup (map fst ps) -> In (k, v) ps -> lookup k ps = Some v.
Proof.
  induction ps as [|[k' v'] ps IH]; simpl; intros Hnd Hin; [contradiction|].
  inversion Hnd as [|? ? Hnotin Hnd']; subst.
  destruct Hin as [Heq|Hin].
  - inversion Heq; subst. now rewrite String.eqb_refl.
  - destruct (String.eqb_spec k k') as [->|Hne].
    + exfalso. apply Hnotin. change k' with (fst (k', v)). now apply in_map.
    + now apply IH.
Qed.

Lemma is_nullish_strict (v : value) :
  negb (strict_eq_prim v Undefined) && negb (strict_eq_prim v Null) = negb (is_nullish v).
Proof. now destruct v. Qed.

(** The loop over [Object.keys(options)] pushes the clause of every entry
    whose value is neither [undefined] nor [null], in order. *)
Lemma push_options_entries (options sub : list (string * value)) (params : list string) :
  (forall k v, In (k, v) sub -> lookup k options = Some v) ->
  push_options options (Object_keys sub) params =
  (ops <- mapM option_clause (defined_options sub) ;; Ok (params ++ ops)%list).
Proof.
  revert params.
  induction sub as [|[k v] sub IH]; intros params Hsub; simpl.
  - now rewrite app_nil_r.
  - rewrite (Hsub k v (or_introl eq_refl)), is_nullish_strict.
    assert (Hsub' : forall k' v', In (k', v') sub -> lookup k' options = Some v')
      by (intros; apply Hsub; now right).
    destruct (is_nullish v) eqn:Hn; simpl.
    + now apply IH.
    + unfold option_clause at 1; simpl.
      destruct (to_string v) as [s|e]; simpl; [|reflexivity].
      rewrite IH by assumption. unfold push.
      destruct (mapM option_clause (defined_options sub)); simpl; [|reflexivity].
      now rewrite <- app_assoc.
Qed.

Lemma filter_clause_length (filters : list string) (params : list string) :
  (if (0 <? List.length filters)%nat
   then push params ("$filter=" ++ join_strings " and " filters) else params)
  = (params ++ filter_clause filters)%list.
Proof. destruct filters; simpl; [now rewrite app_nil_r | reflexivity]. Qed.

Lemma expand_clause_length (expands : list string) (params : list string) :
  (if (0 <? List.length expands)%nat
   then push params ("$expand=" ++ join_strings "," expands) else params)
  = (params ++ expand_clause expands)%list.
Proof. destruct expands; simpl; [now rewrite app_nil_r | reflexivity]. Qed.

Lemma query_params_clauses (filters expands : list string) (options : list (string * value)) :
  NoDup (Object_keys options) ->
  query_params filters expands options =
  (ops <- mapM option_clause (defined_options options) ;;
   Ok (filter_clause filters ++ expand_clause expands ++ ops ++ ["$format=json"])%list).
Proof.
  intros Hnd. unfold query_params.
  rewrite filter_clause_length, expand_clause_length.
  rewrite push_options_entries by (intros; now apply lookup_NoDup).
  destruct (mapM option_clause (defined_options options)); simpl; [|reflexivity].
  unfold push. now rewrite <- !app_assoc.
Qed.

Lemma concat_last (sep : string) (l : list string) (x : string) :
  exists front, String.concat sep (l ++ [x])%list = front ++ x.
Proof.
  induction l as [|y l IH]; simpl.
  - now exists "".
  - destruct IH as [front IH]. rewrite IH.
    destruct (l ++ [x])%list eqn:E.
    + now destruct l.
    + exists (y ++ sep ++ front).
      now rewrite !append_assoc.
Qed.

Lemma query_params_last (filters expands : list string) (options : list (string * value))
      (params : list string) :
  query_params filters expands options = Ok params ->
  exists front, params = (front ++ ["$format=json"])%list.
Proof.
  unfold query_params. intros H. bind_inv H. inversion H. unfold push. eauto.
Qed.

Lemma buildQuery_trailing_format (endpoint : string) (filters expands : list string)
      (options : list (string * value)) (url : string) :
  buildQuery endpoint filters expands options = Ok url ->
  exists front, url = front ++ "$format=json".
Proof.
  unfold buildQuery. intros H. bind_inv H.
  destruct (query_params_last _ _ _ _ E) as [front ->].
  destruct (concat_last "&" front "$format=json") as [front' Hc].
  replace (0 <? List.length (front ++ ["$format=json"]))%nat with true in H
    by (rewrite length_app; simpl; symmetry; apply Nat.ltb_lt; lia).
  inversion H. unfold join_strings. rewrite Hc.
  exists (BASE_API_URL ++ "/" ++ endpoint ++ "?" ++ front').
  now rewrite !append_assoc.
Qed.

Lemma buildQuery_closed_form (endpoint : string) (filters expands : list string)
      (options : list (string * value)) :
  NoDup (Object_keys options) ->
  buildQuery endpoint filters expands options =
    (ops <- mapM option_clause (defined_options options) ;;
     Ok (BASE_API_URL ++ "/" ++ endpoint ++ "?" ++
         String.concat "&"
           (filter_clause filters ++ expand_clause expands ++ ops ++ ["$format=json"])%list)).
Proof.
  intros Hnd. unfold buildQuery. rewrite query_params_clauses by assumption.
  destruct (mapM option_clause (defined_options options)) as [ops|e]; simpl; [|reflexivity].
  replace (0 <? List.length (filter_clause filters ++ expand_clause expands
                             ++ ops ++ ["$format=json"]))%nat with true
    by (rewrite !length_app; simpl; symmetry; apply Nat.ltb_lt; lia).
  reflexivity.
Qed.

(** C3. [buildQuery] joins the filters with [" and "], in the order given,
    into one [$filter] clause when there is a filter, comma-joins the
    expansions into one [$expand] clause when there is one, turns every
    option whose value is neither [undefined] nor [null] into one
    parameter [$key=value], in the order of the keys, and puts
    [$format=json] last; the call of the specification's example gives a
    URL with the five parameters [$filter], [$expand], [$top=10],
    [$skip=0], [$format=json], each once. *)
Theorem buildQuery_clauses (endpoint : string) (filters expands : list string)
        (options : list (string * value)) :
  NoDup (Object_keys options) ->
  buildQuery endpoint filters expands options =
    (ops <- mapM option_clause (defined_options options) ;;
     Ok (BASE_API_URL ++ "/" ++ endpoint ++ "?" ++
         String.concat "&"
           (filter_clause filters ++ expand_clause expands ++ ops ++ ["$format=json"])%list))
  /\ (forall url, buildQuery endpoint filters expands options = Ok url ->
                  exists front, url = front ++ "$format=json")
  /\ (exists url,
         buildQuery "Activiteit" ["verwijderd eq false"] ["ActiviteitActor($expand=Persoon)"]
                    [("top", Num 10); ("skip", Num 0)] = Ok url
         /\ url_parameters url =
            ["$filter=verwijderd eq false"; "$expand=ActiviteitActor($expand=Persoon)";
             "$top=10"; "$skip=0"; "$format=json"]
         /\ count_named "$filter" (url_parameters url) = 1%nat
         /\ count_named "$expand" (url_parameters url) = 1%nat
         /\ count_named "$top" (url_parameters url) = 1%nat
         /\ count_named "$skip" (url_parameters url) = 1%nat
         /\ count_named "$format" (url_parameters url) = 1%nat).
Proof.
  intros Hnd. split; [|split].
  - now apply buildQuery_closed_form.
  - intros url. apply buildQuery_trailing_format.
  - eexists. split; [reflexivity|]. repeat split.
Qed.

Lemma buildQuery_clauses_example :
  NoDup (Object_keys [("top", Num 10); ("skip", Num 0); ("orderby", Null)])
  /\ buildQuery "Activiteit" ["verwijderd eq false"; "aanvangstijd ge 2024-01-01T00:00:00Z"]
                ["ActiviteitActor($expand=Persoon,Fractie)"]
                [("top", Num 10); ("skip", Num 0); ("orderby", Null)]
     = Ok ("https://gegevensmagazijn.tweedekamer.nl/OData/v4/2.0/Activiteit"
           ++ "?$filter=verwijderd eq false and aanvangstijd ge 2024-01-01T00:00:00Z"
           ++ "&$expand=ActiviteitActor($expand=Persoon,Fractie)&$top=10&$skip=0&$format=json").
Proof.
  assert (Hnd : NoDup (Object_keys [("top", Num 10); ("skip", Num 0); ("orderby", Null)])).
  { simpl. repeat constructor; simpl; intuition discriminate. }
  split; [exact Hnd|].
  rewrite (proj1 (buildQuery_clauses "Activiteit"
                    ["verwijderd eq false"; "aanvangstijd ge 2024-01-01T00:00:00Z"]
                    ["ActiviteitActor($expand=Persoon,Fractie)"]
                    [("top", Num 10); ("skip", Num 0); ("orderby", Null)] Hnd)).
  reflexivity.
Defined.

(** ** Reading properties *)

Lemma get_field (v : value) (k : string) (x : value) :
  k <> "length" -> get v k = Ok x -> x = field k v.
Proof.
  intros Hk. apply String.eqb_neq in Hk.
  destruct v; simpl; try rewrite Hk; intros H; inversion H; reflexivity.
Qed.

Lemma get_object (ps : list (string * value)) (k : string) :
  get (Obj ps) k = Ok (field k (Obj ps)).
Proof. reflexivity. Qed.

Lemma get_truthy (v : value) (k : string) :
  truthy v = true -> exists x, get v k = Ok x.
Proof. destruct v; simpl; intros H; try discriminate; eauto. Qed.

Lemma to_string_primitive (v : value) :
  is_primitive v = true -> exists s, to_string v = Ok s.
Proof. destruct v as [| |[|]| | | |]; simpl; intros H; try discriminate; eauto. Qed.

Lemma join_elem_primitive (v : value) :
  is_primitive v = true -> exists s, join_elem v = Ok s.
Proof. destruct v as [| |[|]| | | |]; simpl; intros H; try discriminate; eauto. Qed.

Lemma join_primitives (sep : string) (l : list value) :
  forallb is_primitive l = true -> exists s, join sep l = Ok s.
Proof.
  induction l as [|x l IH]; simpl; intros H; [eauto|].
  apply andb_true_iff in H as [Hx Hl].
  destruct (join_elem_primitive x Hx) as [s ->]. simpl.
  destruct (IH Hl) as [r Hr].
  destruct l; [eauto|]. rewrite Hr. simpl. eauto.
Qed.

Lemma forallb_filter {A} (f g : A -> bool) (l : list A) :
  forallb f l = true -> forallb f (filter g l) = true.
Proof.
  induction l as [|x l IH]; simpl; intros H; [reflexivity|].
  apply andb_true_iff in H as [Hx Hl].
  destruct (g x); simpl; [rewrite Hx|]; auto.
Qed.

Lemma filter_truthy_texts (parts : list value) :
  forallb is_text_or_absent parts = true ->
  filter truthy parts = map Str (texts parts).
Proof.
  induction parts as [|v parts IH]; simpl; intros H; [reflexivity|].
  apply andb_true_iff in H as [Hv Hl]. specialize (IH Hl).
  destruct v; simpl in Hv; try discriminate; simpl; try exact IH.
  destruct (String.eqb s ""); simpl; [exact IH | now rewrite IH].
Qed.

Lemma join_strs (sep : string) (l : list string) :
  join sep (map Str l) = Ok (String.concat sep l).
Proof.
  induction l as [|x l IH]; simpl; [reflexivity|].
  destruct l as [|y l]; [reflexivity|].
  change (map Str (y :: l)) with (Str y :: map Str l) in *.
  cbv beta iota. rewrite IH. reflexivity.
Qed.

(** Joining the truthy ones among parts that are strings or missing
    concatenates the non-empty strings. *)
Lemma join_texts (sep : string) (parts : list value) :
  forallb is_text_or_absent parts = true ->
  join sep (filter truthy parts) = Ok (String.concat sep (texts parts)).
Proof.
  intros H. rewrite filter_truthy_texts by assumption. apply join_strs.
Qed.

(** ** The flattener, step by step *)

Lemma forEach_from_index {St A} (f : St -> A -> result St) (l : list A) (i j : nat) (st : St) :
  forEach_from (fun st _ x => f st x) l i st = forEach_from (fun st _ x => f st x) l j st.
Proof.
  revert i j st. induction l as [|x l IH]; intros i j st; simpl; [reflexivity|].
  destruct (f st x); simpl; [apply IH | reflexivity].
Qed.

Lemma forEach_cons {St A} (f : St -> A -> result St) (x : A) (l : list A) (st : St) :
  forEach f (x :: l) st = (st' <- f st x ;; forEach f l st').
Proof.
  unfold forEach. simpl. destruct (f st x); simpl; [|reflexivity].
  apply forEach_from_index.
Qed.

Lemma advanced_refl (st : FlattenState) : advanced st st [] 0.
Proof. unfold advanced. now rewrite app_nil_r, Nat.add_0_r. Qed.

Lemma advanced_trans (st1 st2 st3 : FlattenState) rs rs' n n' :
  advanced st1 st2 rs n -> advanced st2 st3 rs' n' ->
  advanced st1 st3 (rs ++ rs')%list (n + n').
Proof.
  unfold advanced. intros (A1 & B1 & C1) (A2 & B2 & C2).
  rewrite A2, A1, B2, B1, C2, C1, app_assoc. repeat split; lia.
Qed.

Lemma advanced_log (st : FlattenState) (l : console_line) : advanced st (console_log st l) [] 0.
Proof. unfold advanced; simpl. now rewrite app_nil_r, Nat.add_0_r. Qed.

Lemma process_actor_inv (a : value) (d : StartInfo) (st st' : FlattenState) (c : value) :
  process_actor a d st c = Ok st' ->
  exists p, get c "Persoon" = Ok p /\
            ((truthy p = false /\ st' = st) \/
             (truthy p = true /\ exists r, attendance_record a c p d = Ok r
                                           /\ st' = push_record st r)).
Proof.
  unfold process_actor. intros H. bind_inv H. exists x. split; [assumption|].
  destruct (truthy x); [right | left; inversion H; auto].
  bind_inv H. inversion H. eauto.
Qed.

Lemma forEach_actors_rows (a : value) (d : StartInfo) (items : list value) :
  forall st st',
    forEach (process_actor a d) items st = Ok st' ->
    exists rs, actor_rows a d items rs /\ advanced st st' rs 0
               /\ console st' = console st.
Proof.
  induction items as [|c items IH]; intros st st' H.
  - inversion H; subst. exists []. split; [constructor|]. split; [apply advanced_refl | reflexivity].
  - rewrite forEach_cons in H. bind_inv H.
    apply process_actor_inv in E as (p & Hp & [[Hf ->]|[Ht (r & Hr & ->)]]).
    + destruct (IH _ _ H) as (rs & Hrows & Hadv & Hcon).
      exists rs. split; [eapply rows_skip; eauto|]. auto.
    + destruct (IH _ _ H) as (rs & Hrows & Hadv & Hcon).
      exists (r :: rs). split; [eapply rows_emit; eauto|]. split; [|exact Hcon].
      destruct Hadv as (A & B & C). unfold advanced; simpl in *.
      rewrite A. unfold push. rewrite <- app_assoc. auto.
Qed.

Lemma parse_start_info (rt : Runtime) (a : value) (st st1 : FlattenState) (d : StartInfo) :
  parse_start rt a st = Ok (d, st1) ->
  d = start_of rt a /\ advanced st st1 [] 0.
Proof.
  unfold parse_start, start_of.
  destruct (try_parse_start rt a) as [d0|e].
  - intros H; inversion H; subst. split; [reflexivity | apply advanced_refl].
  - intros H. bind_inv H. bind_inv H. inversion H; subst.
    split; [reflexivity | apply advanced_log].
Qed.

Lemma array_items_inv (v : value) (l : list value) :
  array_items v = Ok l -> v = Arr l.
Proof. destruct v; simpl; intros H; inversion H; reflexivity. Qed.

Lemma process_activity_inv (rt : Runtime) (st st' : FlattenState) (i : nat) (a : value) :
  process_activity rt st i a = Ok st' ->
  (has_no_actors a = Ok true /\ advanced st st' [] 1)
  \/ (has_no_actors a = Ok false /\
      exists items rs, get a "ActiviteitActor" = Ok (Arr items)
                       /\ actor_rows a (start_of rt a) items rs
                       /\ advanced st st' rs 0).
Proof.
  unfold process_activity. intros H. bind_inv H. destruct x.
  - left. split; [assumption|].
    assert (Hc : advanced st (count_activity_without_actors st) [] 1).
    { unfold advanced; simpl. rewrite app_nil_r. repeat split; lia. }
    destruct (i <? 5)%nat.
    + do 4 bind_inv H. inversion H; subst.
      apply (advanced_trans _ _ _ _ _ _ _ Hc (advanced_log _ _)).
    + inversion H; subst. exact Hc.
  - right. split; [assumption|].
    bind_inv H. destruct x as [d st1]. 
    apply parse_start_info in E0 as [-> Hadv].
    bind_inv H. bind_inv H. apply array_items_inv in E1. subst.
    apply forEach_actors_rows in H as (rs & Hrows & Hadv' & _).
    exists x0, rs. split; [assumption|]. split; [assumption|].
    apply (advanced_trans _ _ _ _ _ _ _ Hadv Hadv').
Qed.

Lemma forEach_activities_rows (rt : Runtime) (acts : list value) :
  forall i st st',
    forEach_from (process_activity rt) acts i st = Ok st' ->
    exists rs n, activity_rows rt acts rs n /\ advanced st st' rs n.
Proof.
  induction acts as [|a acts IH]; intros i st st' H; simpl in H.
  - inversion H; subst. exists [], 0%nat. split; [constructor | apply advanced_refl].
  - bind_inv H. destruct (IH _ _ _ H) as (rs' & n & Hrows & Hadv).
    apply process_activity_inv in E as [[Hno Ha]|[Hno (items & rs & Hget & Har & Ha)]].
    + exists rs', (S n). split; [now constructor|].
      apply (advanced_trans _ _ _ _ _ _ _ Ha Hadv).
    + exists (rs ++ rs')%list, n. split; [econstructor; eauto|].
      apply (advanced_trans _ _ _ _ _ _ _ Ha Hadv).
Qed.

(** A run that returns has flattened an array of activities. *)
Lemma processAttendanceData_run_rows (rt : Runtime) (v : value) (st : FlattenState) :
  processAttendanceData_run rt v = Ok st ->
  exists acts, v = Arr acts
               /\ activity_rows rt acts (attendanceData st) (activitiesWithoutActors st).
Proof.
  unfold processAttendanceData_run. intros H.
  apply bind_Ok_inv in H as (len & _ & H).
  apply bind_Ok_inv in H as (count & _ & H).
  apply bind_Ok_inv in H as (items & Hitems & H).
  apply bind_Ok_inv in H as (st1 & Hrun & H).
  apply array_items_inv in Hitems. subst v.
  exists items. split; [reflexivity|].
  apply forEach_activities_rows in Hrun as (rs & n & Hrows & (A & B & C)).
  simpl in A, B. rewrite <- A, <- B in Hrows.
  inversion H; subst; clear H.
  destruct (0 <? activitiesWithoutActors st1)%nat; simpl; exact Hrows.
Qed.

Lemma processAttendanceData_rows (rt : Runtime) (v : value) (out : list AttendanceRecord) :
  processAttendanceData rt v = Ok out ->
  exists acts n, v = Arr acts /\ activity_rows rt acts out n.
Proof.
  unfold processAttendanceData. intros H. bind_inv H. inversion H; subst.
  apply processAttendanceData_run_rows in E as (acts & -> & Hrows). eauto.
Qed.

Lemma actor_rows_source (a : value) (d : StartInfo) (items : list value)
      (rs : list AttendanceRecord) (r : AttendanceRecord) :
  actor_rows a d items rs -> In r rs ->
  exists c p, In c items /\ get c "Persoon" = Ok p /\ truthy p = true
              /\ attendance_record a c p d = Ok r.
Proof.
  induction 1 as [|c cs rs p Hp Hf _ IH|c cs rs p r' Hp Ht Hr _ IH]; intros Hin.
  - contradiction.
  - destruct (IH Hin) as (c' & p' & Hc & ?). exists c', p'. split; [now right | assumption].
  - destruct Hin as [<-|Hin].
    + exists c, p. split; [now left | auto].
    + destruct (IH Hin) as (c' & p' & Hc & ?). exists c', p'. split; [now right | assumption].
Qed.

(** Every record comes from an actor that has a person. *)
Lemma activity_rows_source (rt : Runtime) (acts : list value)
      (rs : list AttendanceRecord) (n : nat) (r : AttendanceRecord) :
  activity_rows rt acts rs n -> In r rs ->
  exists a c p, In a acts /\ emitted_from rt a c p r.
Proof.
  induction 1 as [|a acts rs n Hno _ IH|a acts items rs rs' n Hno Hget Har _ IH]; intros Hin.
  - contradiction.
  - destruct (IH Hin) as (a' & c & p & Ha & He). exists a', c, p. split; [now right | assumption].
  - apply in_app_or in Hin as [Hin|Hin].
    + destruct (actor_rows_source _ _ _ _ _ Har Hin) as (c & p & Hc & Hp & Ht & Hr).
      exists a, c, p. split; [now left|]. exists items. auto.
    + destruct (IH Hin) as (a' & c & p & Ha & He). exists a', c, p. split; [now right | assumption].
Qed.

(** ** The pushed record *)

Ltac field_of H :=
  apply get_field in H; [subst | discriminate].

Lemma date_field_value (a x : value) :
  date_field a = Ok x -> x = or_else (field "Aanvangstijd" a) (field "Datum" a).
Proof.
  unfold date_field, or_else. intros H.
  apply bind_Ok_inv in H as (t & Ht & H). field_of Ht.
  destruct (truthy (field "Aanvangstijd" a)).
  - now inversion H.
  - now field_of H.
Qed.

Lemma attendance_record_fields (a c p : value) (d : StartInfo) (r : AttendanceRecord) :
  attendance_record a c p d = Ok r -> record_fields a c p d r.
Proof.
  unfold attendance_record. intros H.
  apply bind_Ok_inv in H as (voornamen & Hv & H). field_of Hv.
  apply bind_Ok_inv in H as (tussenvoegsel & Ht & H). field_of Ht.
  apply bind_Ok_inv in H as (achternaam & Ha & H). field_of Ha.
  apply bind_Ok_inv in H as (fullName & Hfull & H).
  apply bind_Ok_inv in H as (fractie & Hf & H). field_of Hf.
  apply bind_Ok_inv in H as (fractionName & Hfn & H).
  apply bind_Ok_inv in H as (id & Hid & H). field_of Hid.
  apply bind_Ok_inv in H as (onderwerp & Ho & H). field_of Ho.
  apply bind_Ok_inv in H as (dateTime & Hdt & H). apply date_field_value in Hdt. subst.
  apply bind_Ok_inv in H as (pid & Hpid & H). field_of Hpid.
  apply bind_Ok_inv in H as (initialen & Hi & H). field_of Hi.
  apply bind_Ok_inv in H as (lastName & Hlast & H).
  apply bind_Ok_inv in H as (fid & Hfid & H).
  apply bind_Ok_inv in H as (functie & Hfu & H). field_of Hfu.
  apply bind_Ok_inv in H as (aid & Haid & H). field_of Haid.
  inversion H; subst; clear H. unfold record_fields; simpl.
  repeat (split; [first [reflexivity | assumption]|]);
    destruct (truthy (field "Fractie" c)).
  - repeat split; try reflexivity. now field_of Hfn. now field_of Hfid.
  - inversion Hfn. inversion Hfid. repeat split.
Qed.

(** ** The flattener on well-formed records *)

Lemma is_object_inv (v : value) : is_object v = true -> exists ps, v = Obj ps.
Proof. destruct v; simpl; intros H; try discriminate; eauto. Qed.

Lemma primitive_fields_In (ks : list string) (v : value) (k : string) :
  primitive_fields ks v = true -> In k ks -> is_primitive (field k v) = true.
Proof.
  unfold primitive_fields. rewrite forallb_forall. auto.
Qed.

Ltac prim_field H k :=
  apply (primitive_fields_In _ _ k H); simpl; tauto.

Lemma date_field_object (ps : list (string * value)) :
  date_field (Obj ps)
  = Ok (or_else (field "Aanvangstijd" (Obj ps)) (field "Datum" (Obj ps))).
Proof.
  unfold date_field, or_else, field. simpl.
  destruct (truthy _); reflexivity.
Qed.

Lemma attendance_record_total (a c p : value) (d : StartInfo) :
  is_object a = true -> is_object c = true -> is_Persoon p = true ->
  exists r, attendance_record a c p d = Ok r.
Proof.
  intros Ha Hc Hp.
  apply is_object_inv in Ha as [pa ->]. apply is_object_inv in Hc as [pc ->].
  apply andb_true_iff in Hp as [Hp Hprim]. apply is_object_inv in Hp as [pp ->].
  unfold attendance_record. rewrite !get_object. cbv beta delta [bind] iota.
  assert (Hfull : exists s, join " " (filter truthy [field "Voornamen" (Obj pp);
                     field "Tussenvoegsel" (Obj pp); field "Achternaam" (Obj pp)]) = Ok s).
  { apply join_primitives, forallb_filter. cbn [forallb].
    rewrite !andb_true_iff. repeat split;
      first [prim_field Hprim "Voornamen" | prim_field Hprim "Tussenvoegsel"
            | prim_field Hprim "Achternaam"]. }
  assert (Hlast : exists s, join " " (filter truthy [field "Tussenvoegsel" (Obj pp);
                     field "Achternaam" (Obj pp)]) = Ok s).
  { apply join_primitives, forallb_filter. cbn [forallb].
    rewrite !andb_true_iff. repeat split;
      first [prim_field Hprim "Tussenvoegsel" | prim_field Hprim "Achternaam"]. }
  destruct Hfull as [full ->], Hlast as [last ->].
  rewrite date_field_object.
  destruct (truthy (field "Fractie" (Obj pc))) eqn:Hf.
  - destruct (get_truthy _ "NaamNL" Hf) as [n ->], (get_truthy _ "Id" Hf) as [i ->]. eauto.
  - eauto.
Qed.

Lemma process_actor_total (a c : value) (d : StartInfo) (st : FlattenState) :
  is_object a = true -> is_Actor c = true ->
  exists st', process_actor a d st c = Ok st'.
Proof.
  intros Ha Hc. unfold is_Actor in Hc.
  rewrite !andb_true_iff in Hc. destruct Hc as (((Hobj & _) & Hp) & _).
  destruct (is_object_inv _ Hobj) as [pc ->].
  unfold process_actor. rewrite get_object. cbv beta delta [bind] iota.
  destruct (truthy (field "Persoon" (Obj pc))) eqn:Ht; [|eauto].
  unfold optional in Hp. apply orb_true_iff in Hp as [Hn|Hp].
  - destruct (field "Persoon" (Obj pc)); discriminate.
  - destruct (attendance_record_total a (Obj pc) _ d Ha Hobj Hp) as [r ->]. eauto.
Qed.

Lemma forEach_actors_total (a : value) (d : StartInfo) (items : list value) :
  is_object a = true -> forallb is_Actor items = true ->
  forall st, exists st', forEach (process_actor a d) items st = Ok st'.
Proof.
  intros Ha. induction items as [|c items IH]; intros Hall st.
  - exists st. reflexivity.
  - simpl in Hall. apply andb_true_iff in Hall as [Hc Hall].
    rewrite forEach_cons.
    destruct (process_actor_total a c d st Ha Hc) as [st1 ->]. simpl.
    apply IH. exact Hall.
Qed.

Lemma is_Activity_inv (a : value) :
  is_Activity a = true ->
  is_object a = true
  /\ primitive_fields ["Id"; "Onderwerp"; "Aanvangstijd"; "Datum"] a = true
  /\ is_actor_collection (field "ActiviteitActor" a) = true.
Proof.
  unfold is_Activity. rewrite !andb_true_iff. tauto.
Qed.

(** On an activity of the data model the test for "no actors" is the test
    for an absent or empty collection. *)
Lemma has_no_actors_Activity (a : value) :
  is_Activity a = true ->
  has_no_actors a = Ok (no_actor_collection (field "ActiviteitActor" a)).
Proof.
  intros H. apply is_Activity_inv in H as (Hobj & _ & Hcoll).
  apply is_object_inv in Hobj as [ps ->].
  unfold has_no_actors. rewrite get_object. cbv beta delta [bind] iota.
  destruct (field "ActiviteitActor" (Obj ps)) as [| | | | |items|]; try discriminate;
    try reflexivity.
  destruct items; reflexivity.
Qed.

Lemma parse_start_total (rt : Runtime) (a : value) (st : FlattenState) :
  is_Activity a = true ->
  exists st1, parse_start rt a st = Ok (start_of rt a, st1).
Proof.
  intros H. apply is_Activity_inv in H as (Hobj & Hprim & _).
  apply is_object_inv in Hobj as [ps ->].
  unfold parse_start, start_of.
  destruct (try_parse_start rt (Obj ps)); [eauto|].
  rewrite get_object. cbv beta delta [bind] iota.
  assert (Hid : is_primitive (field "Id" (Obj ps)) = true) by prim_field Hprim "Id".
  destruct (to_string_primitive _ Hid) as [s ->]. eauto.
Qed.

Lemma process_activity_total (rt : Runtime) (st : FlattenState) (i : nat) (a : value) :
  is_Activity a = true -> exists st', process_activity rt st i a = Ok st'.
Proof.
  intros H. unfold process_activity.
  rewrite (has_no_actors_Activity a H). cbv beta delta [bind] iota.
  destruct (parse_start_total rt a st H) as [st1 Hstart].
  apply is_Activity_inv in H as (Hobj & Hprim & Hcoll).
  destruct (no_actor_collection (field "ActiviteitActor" a)) eqn:Hno.
  - destruct (i <? 5)%nat; [|eauto].
    destruct (is_object_inv _ Hobj) as [ps ->]. rewrite !get_object.
    cbv beta delta [bind] iota.
    assert (Hid : is_primitive (field "Id" (Obj ps)) = true) by prim_field Hprim "Id".
    assert (Ho : is_primitive (field "Onderwerp" (Obj ps)) = true)
      by prim_field Hprim "Onderwerp".
    destruct (to_string_primitive _ Hid) as [s ->], (to_string_primitive _ Ho) as [t ->].
    eauto.
  - rewrite Hstart. cbv beta delta [bind] iota.
    destruct (is_object_inv _ Hobj) as [ps ->]. rewrite get_object.
    cbv beta delta [bind] iota.
    destruct (field "ActiviteitActor" (Obj ps)) as [| | | | |items|]; try discriminate.
    simpl array_items. cbv beta iota.
    apply forEach_actors_total; [reflexivity | exact Hcoll].
Qed.

Lemma forEach_activities_total (rt : Runtime) (acts : list value) :
  forallb is_Activity acts = true ->
  forall i st, exists st', forEach_from (process_activity rt) acts i st = Ok st'.
Proof.
  induction acts as [|a acts IH]; intros Hall i st; simpl.
  - eauto.
  - simpl in Hall. apply andb_true_iff in Hall as [Ha Hall].
    destruct (process_activity_total rt st i a Ha) as [st1 ->]. simpl.
    apply IH. exact Hall.
Qed.

Lemma processAttendanceData_run_total (rt : Runtime) (acts : list value) :
  forallb is_Activity acts = true ->
  exists st, processAttendanceData_run rt (Arr acts) = Ok st.
Proof.
  intros Hall. unfold processAttendanceData_run.
  simpl get. cbv beta delta [bind] iota. simpl to_string. cbv beta iota.
  simpl array_items. cbv beta iota.
  destruct (forEach_activities_total rt acts Hall 0%nat
              (console_log initial_state
                 (LogProcessing (string_of_Z (Z.of_nat (List.length acts)))))) as [st ->].
  eauto.
Qed.

(** ** Counting *)

Lemma actor_rows_length (a : value) (d : StartInfo) (items : list value)
      (rs : list AttendanceRecord) :
  actor_rows a d items rs -> List.length rs = List.length (filter has_person items).
Proof.
  induction 1 as [|c cs rs p Hp Hf _ IH|c cs rs p r Hp Ht Hr _ IH]; simpl.
  - reflexivity.
  - field_of Hp. unfold has_person. now rewrite Hf.
  - field_of Hp. unfold has_person. rewrite Ht. simpl. now rewrite IH.
Qed.

Lemma has_no_actors_true (a : value) :
  has_no_actors a = Ok true -> actors_of a = [].
Proof.
  unfold has_no_actors, actors_of. intros H.
  apply bind_Ok_inv in H as (v & Hv & H). field_of Hv.
  destruct (field "ActiviteitActor" a) as [| | | | |items|]; try reflexivity.
  destruct items; [reflexivity|]. simpl in H. discriminate.
Qed.

Lemma activity_rows_length (rt : Runtime) (acts : list value)
      (rs : list AttendanceRecord) (n : nat) :
  activity_rows rt acts rs n -> List.length rs = attendance_pairs acts.
Proof.
  unfold attendance_pairs.
  induction 1 as [|a acts rs n Hno _ IH|a acts items rs rs' n Hno Hget Har _ IH]; simpl.
  - reflexivity.
  - now rewrite (has_no_actors_true a Hno).
  - rewrite length_app, IH, (actor_rows_length _ _ _ _ Har).
    field_of Hget. unfold actors_of. now rewrite <- Hget.
Qed.

Lemma activity_rows_skipped (rt : Runtime) (acts : list value)
      (rs : list AttendanceRecord) (n : nat) :
  activity_rows rt acts rs n ->
  forallb is_Activity acts = true ->
  n = List.length (filter (fun a => no_actor_collection (field "ActiviteitActor" a)) acts).
Proof.
  induction 1 as [|a acts rs n Hno _ IH|a acts items rs rs' n Hno Hget Har _ IH];
    simpl; intros Hall.
  - reflexivity.
  - apply andb_true_iff in Hall as [Ha Hall].
    rewrite (has_no_actors_Activity a Ha) in Hno.
    assert (Hno' : no_actor_collection (field "ActiviteitActor" a) = true) by congruence.
    rewrite Hno'. simpl. f_equal. now apply IH.
  - apply andb_true_iff in Hall as [Ha Hall].
    rewrite (has_no_actors_Activity a Ha) in Hno.
    assert (Hno' : no_actor_collection (field "ActiviteitActor" a) = false) by congruence.
    rewrite Hno'. now apply IH.
Qed.

(** ** Dates *)

Lemma get_defined (v : value) (k : string) :
  is_nullish v = false -> k <> "length" -> get v k = Ok (field k v).
Proof.
  intros Hv Hk. apply String.eqb_neq in Hk.
  destruct v; simpl in *; try discriminate; try rewrite Hk; reflexivity.
Qed.

Lemma replace_dashes_same (s : string) : replace_dashes "-" s = s.
Proof.
  induction s as [|c s IH]; simpl; [reflexivity|].
  destruct (Ascii.eqb_spec c "-"%char) as [->|_]; now rewrite IH.
Qed.

Lemma date_field_defined (a : value) :
  is_nullish a = false ->
  date_field a = Ok (or_else (field "Aanvangstijd" a) (field "Datum" a)).
Proof.
  intros Ha. unfold date_field, or_else.
  rewrite (get_defined a "Aanvangstijd" Ha) by discriminate. cbv beta delta [bind] iota.
  destruct (truthy (field "Aanvangstijd" a)); [reflexivity|].
  apply get_defined; [assumption | discriminate].
Qed.

(** No date at all: the variables keep their initial values. *)
Lemma start_of_missing (rt : Runtime) (a : value) :
  truthy (or_else (field "Aanvangstijd" a) (field "Datum" a)) = false ->
  start_of rt a = unknown_start.
Proof.
  intros Hd. unfold start_of, try_parse_start.
  destruct (is_nullish a) eqn:Ha.
  - destruct a; try discriminate; reflexivity.
  - rewrite (date_field_defined a Ha). cbv beta delta [bind] iota. now rewrite Hd.
Qed.

(** A date text that the host parses: both variables are formatted. *)
Lemma start_of_parsed (rt : Runtime) (a : value) (s : string) (t : Z) :
  is_nullish a = false ->
  or_else (field "Aanvangstijd" a) (field "Datum" a) = Str s -> s <> "" ->
  Date_parse rt s = Some t -> (Z.abs t <= 8640000000000000)%Z ->
  start_of rt a =
  {| startTime := Some (ValidDate t);
     start_activityDate := toLocaleDateString rt t;
     start_activityTime := toLocaleTimeString rt t |}.
Proof.
  intros Ha Hd Hs Hp Ht. unfold start_of, try_parse_start.
  rewrite (date_field_defined a Ha), Hd. cbv beta delta [bind] iota.
  apply String.eqb_neq in Hs. simpl truthy. rewrite Hs. simpl negb. cbv iota.
  simpl new_Date. rewrite Hp. unfold date_of_parse, TimeClip.
  apply Z.leb_le in Ht. rewrite Ht. cbv beta iota. simpl.
  now rewrite replace_dashes_same.
Qed.

(** A date text that the host does not parse: the date object is the
    invalid date, which [startTime] then holds. *)
Lemma start_of_unparsed (rt : Runtime) (a : value) (s : string) :
  is_nullish a = false ->
  or_else (field "Aanvangstijd" a) (field "Datum" a) = Str s -> s <> "" ->
  Date_parse rt s = None ->
  start_of rt a =
  {| startTime := Some InvalidDate;
     start_activityDate := "Unknown";
     start_activityTime := "Unknown" |}.
Proof.
  intros Ha Hd Hs Hp. unfold start_of, try_parse_start.
  rewrite (date_field_defined a Ha), Hd. cbv beta delta [bind] iota.
  apply String.eqb_neq in Hs. simpl truthy. rewrite Hs. simpl negb. cbv iota.
  simpl new_Date. rewrite Hp. reflexivity.
Qed.

(** ** Where a record comes from *)

Lemma emitted_from_fields (rt : Runtime) (a c p : value) (r : AttendanceRecord) :
  emitted_from rt a c p r ->
  is_nullish a = false /\ In c (actors_of a) /\ p = field "Persoon" c
  /\ truthy p = true /\ record_fields a c p (start_of rt a) r.
Proof.
  intros (items & Hget & Hin & Hp & Ht & Hr).
  split; [destruct a; simpl in Hget; try discriminate; reflexivity|].
  field_of Hget. field_of Hp. unfold actors_of. rewrite <- Hget.
  split; [assumption|]. split; [reflexivity|]. split; [assumption|].
  now apply attendance_record_fields.
Qed.

(** Every record that [processAttendanceData] returns was pushed for an
    actor of one of the activities, and that actor has a person. *)
Lemma processAttendanceData_source (rt : Runtime) (v : value)
      (out : list AttendanceRecord) (r : AttendanceRecord) :
  processAttendanceData rt v = Ok out -> In r out ->
  exists acts a c,
    v = Arr acts /\ In a acts /\ is_nullish a = false /\ In c (actors_of a)
    /\ has_person c = true
    /\ record_fields a c (field "Persoon" c) (start_of rt a) r.
Proof.
  intros Hrun Hin.
  apply processAttendanceData_rows in Hrun as (acts & n & -> & Hrows).
  destruct (activity_rows_source _ _ _ _ _ Hrows Hin) as (a & c & p & Ha & He).
  apply emitted_from_fields in He as (Hna & Hc & -> & Ht & Hf).
  exists acts, a, c. unfold has_person. tauto.
Qed.

(** ** Activities without actors *)

(** C4. An activity whose actor collection is absent or empty is passed
    over: no record is pushed for it and the count of activities without
    actors goes up by exactly one; an activity with at least one actor
    leaves that count as it is.  Over a whole batch the count ends at the
    number of activities without actors. *)
Theorem activities_without_actors (rt : Runtime) (st : FlattenState) (i : nat)
        (a : value) (acts : list value) :
  is_Activity a = true ->
  forallb is_Activity acts = true ->
  (no_actor_collection (field "ActiviteitActor" a) = true ->
   exists st', process_activity rt st i a = Ok st'
               /\ attendanceData st' = attendanceData st
               /\ activitiesWithoutActors st' = S (activitiesWithoutActors st))
  /\ (no_actor_collection (field "ActiviteitActor" a) = false ->
      exists st', process_activity rt st i a = Ok st'
                  /\ activitiesWithoutActors st' = activitiesWithoutActors st)
  /\ (exists final, processAttendanceData_run rt (Arr acts) = Ok final
                    /\ activitiesWithoutActors final =
                       List.length (filter (fun a => no_actor_collection
                                                       (field "ActiviteitActor" a)) acts)).
Proof.
  intros Ha Hall.
  destruct (process_activity_total rt st i a Ha) as [st' Hstep].
  pose proof (process_activity_inv rt st st' i a Hstep) as Hinv.
  rewrite (has_no_actors_Activity a Ha) in Hinv.
  split; [|split].
  - intros Hno. exists st'. split; [assumption|].
    destruct Hinv as [[_ (A & B & _)]|[Hc _]]; [|congruence].
    rewrite A, B, app_nil_r. split; [reflexivity | lia].
  - intros Hno. exists st'. split; [assumption|].
    destruct Hinv as [[Hc _]|[_ (items & rs & _ & _ & (_ & B & _))]]; [congruence|].
    rewrite B. lia.
  - destruct (processAttendanceData_run_total rt acts Hall) as [final Hrun].
    exists final. split; [assumption|].
    apply processAttendanceData_run_rows in Hrun as (acts' & Heq & Hrows).
    inversion Heq; subst acts'.
    now apply (activity_rows_skipped rt acts _ _ Hrows).
Qed.

Lemma activities_without_actors_sample :
  is_Activity empty_activity = true
  /\ forallb is_Activity sample_batch = true
  /\ no_actor_collection (field "ActiviteitActor" empty_activity) = true
  /\ (exists st', process_activity UtcHost.host initial_state 0 empty_activity = Ok st'
                  /\ attendanceData st' = attendanceData initial_state
                  /\ activitiesWithoutActors st' = S (activitiesWithoutActors initial_state)).
Proof.
  split; [reflexivity|]. split; [reflexivity|]. split; [reflexivity|].
  apply (activities_without_actors UtcHost.host initial_state 0 empty_activity sample_batch);
    reflexivity.
Defined.

(** ** Actors without a person *)

(** C5. An actor without a person leaves the state as it is, whatever
    else the actor carries: no record is pushed and nothing is thrown.
    Every record that the flattener returns therefore belongs to an actor
    with a person, and there are as many records as such actors. *)
Theorem actors_without_person (rt : Runtime) (a : value) (d : StartInfo)
        (st : FlattenState) (c : value) (acts : list value) :
  is_nullish c = false -> has_person c = false ->
  process_actor a d st c = Ok st
  /\ (forall out,
        processAttendanceData rt (Arr acts) = Ok out ->
        (forall r, In r out ->
           exists a' c', In a' acts /\ In c' (actors_of a') /\ has_person c' = true
                         /\ personId r = field "Id" (field "Persoon" c')
                         /\ actorId r = field "Id" c')
        /\ List.length out = attendance_pairs acts).
Proof.
  intros Hc Hp. split.
  - unfold process_actor.
    rewrite (get_defined c "Persoon" Hc) by discriminate.
    cbv beta delta [bind] iota. unfold has_person in Hp. now rewrite Hp.
  - intros out Hrun. split.
    + intros r Hin.
      destruct (processAttendanceData_source rt _ out r Hrun Hin)
        as (acts' & a' & c' & Heq & Ha & _ & Hc' & Hp' & Hf).
      inversion Heq; subst acts'. exists a', c'.
      destruct Hf as (_ & _ & _ & _ & _ & Hpid & _ & _ & _ & _ & _ & _ & _ & Haid & _).
      tauto.
    + apply processAttendanceData_rows in Hrun as (acts' & n & Heq & Hrows).
      inversion Heq; subst acts'. now apply (activity_rows_length rt acts out n).
Qed.

Lemma actors_without_person_sample :
  let c2 := Obj [("Id", Str "c2"); ("Persoon", Null); ("Fractie", vvd)] in
  is_nullish c2 = false /\ has_person c2 = false
  /\ process_actor sample_activity unknown_start initial_state c2 = Ok initial_state
  /\ List.length sample_rows = 2%nat.
Proof.
  intros c2.
  split; [reflexivity|]. split; [reflexivity|].
  destruct (actors_without_person UtcHost.host sample_activity unknown_start initial_state
              c2 [sample_activity] eq_refl eq_refl) as (Hskip & Hruns).
  split; [exact Hskip|].
  destruct (Hruns sample_rows eq_refl) as (_ & Hlen).
  rewrite Hlen. reflexivity.
Defined.

(** ** Names *)

(** C6. In every record the flattener returns, [personName] is the first
    name, the middle-name particle and the last name of the actor's
    person joined with single spaces, and [personLastName] is the
    particle and the last name joined the same way, in both cases leaving
    out the parts that are missing or empty.  The two persons of the
    specification's example come out as "Jan van der Berg" and "Jan
    Berg". *)
Theorem person_names (rt : Runtime) (acts : list value) (out : list AttendanceRecord)
        (r : AttendanceRecord) :
  processAttendanceData rt (Arr acts) = Ok out -> In r out ->
  (exists a c,
      In a acts /\ In c (actors_of a) /\ has_person c = true
      /\ personId r = field "Id" (field "Persoon" c)
      /\ let p := field "Persoon" c in
         let parts := [field "Voornamen" p; field "Tussenvoegsel" p; field "Achternaam" p] in
         forallb is_text_or_absent parts = true ->
         personName r = String.concat " " (texts parts)
         /\ personLastName r = String.concat " " (texts (tl parts)))
  /\ (forall a c d, is_object a = true -> is_object c = true ->
        exists r1 r2,
          attendance_record a c jan_van_der_berg d = Ok r1
          /\ personName r1 = "Jan van der Berg" /\ personLastName r1 = "van der Berg"
          /\ attendance_record a c jan_berg d = Ok r2
          /\ personName r2 = "Jan Berg" /\ personLastName r2 = "Berg"
          /\ includes "  " (personName r2) = false).
Proof.
  intros Hrun Hin. split.
  - destruct (processAttendanceData_source rt _ out r Hrun Hin)
      as (acts' & a & c & Heq & Ha & _ & Hc & Hp & Hf).
    inversion Heq; subst acts'. exists a, c.
    destruct Hf as (_ & _ & _ & _ & _ & Hpid & Hname & _ & _ & Hlast & _).
    repeat (split; [assumption|]).
    intros p parts Htext. subst p parts.
    rewrite (join_texts " " _ Htext) in Hname.
    assert (Htext' : forallb is_text_or_absent
                       [field "Tussenvoegsel" (field "Persoon" c);
                        field "Achternaam" (field "Persoon" c)] = true)
      by (cbn [forallb] in Htext; apply andb_true_iff in Htext as [_ Htext']; exact Htext').
    cbn [tl]. rewrite (join_texts " " _ Htext') in Hlast.
    split; congruence.
  - intros a c d Ha Hc.
    destruct (attendance_record_total a c jan_van_der_berg d Ha Hc eq_refl) as [r1 H1].
    destruct (attendance_record_total a c jan_berg d Ha Hc eq_refl) as [r2 H2].
    exists r1, r2.
    pose proof (attendance_record_fields _ _ _ _ _ H1)
      as (_ & _ & _ & _ & _ & _ & Hn1 & _ & _ & Hl1 & _).
    pose proof (attendance_record_fields _ _ _ _ _ H2)
      as (_ & _ & _ & _ & _ & _ & Hn2 & _ & _ & Hl2 & _).
    vm_compute in Hn1, Hl1, Hn2, Hl2.
    injection Hn1 as Hn1. injection Hl1 as Hl1.
    injection Hn2 as Hn2. injection Hl2 as Hl2.
    repeat split; try first [assumption | symmetry; assumption].
    change (personName r2) with
      (match r2 with {| personName := personName |} => personName end).
    now rewrite <- Hn2.
Qed.

Lemma person_names_sample :
  processAttendanceData UtcHost.host (Arr [sample_activity]) = Ok sample_rows
  /\ In row_jan_berg sample_rows
  /\ exists r1 r2,
      attendance_record sample_activity (Obj []) jan_van_der_berg unknown_start = Ok r1
      /\ personName r1 = "Jan van der Berg" /\ personLastName r1 = "van der Berg"
      /\ attendance_record sample_activity (Obj []) jan_berg unknown_start = Ok r2
      /\ personName r2 = "Jan Berg" /\ personLastName r2 = "Berg"
      /\ includes "  " (personName r2) = false.
Proof.
  assert (Hin : In row_jan_berg sample_rows) by (right; left; reflexivity).
  split; [reflexivity|]. split; [exact Hin|].
  apply (proj2 (person_names UtcHost.host [sample_activity] sample_rows row_jan_berg
                  eq_refl Hin));
    reflexivity.
Defined.

(** ** Role and fraction *)

(** C7. In every record the flattener returns, [role] is the actor's
    functional label when the actor has one and "Participant" otherwise,
    [fraction] is the display name of the actor's fraction when the actor
    has a fraction and "Unknown" otherwise, and [fractionId] is that
    fraction's identifier or [null]. *)
Theorem role_and_fraction (rt : Runtime) (acts : list value) (out : list AttendanceRecord)
        (r : AttendanceRecord) :
  processAttendanceData rt (Arr acts) = Ok out -> In r out ->
  exists a c,
    In a acts /\ In c (actors_of a) /\ actorId r = field "Id" c
    /\ (truthy (field "Functie" c) = true -> role r = field "Functie" c)
    /\ (is_nullish (field "Functie" c) = true -> role r = Str "Participant")
    /\ (truthy (field "Fractie" c) = true ->
        fraction r = field "NaamNL" (field "Fractie" c)
        /\ fractionId r = field "Id" (field "Fractie" c))
    /\ (is_nullish (field "Fractie" c) = true ->
        fraction r = Str "Unknown" /\ fractionId r = Null).
Proof.
  intros Hrun Hin.
  destruct (processAttendanceData_source rt _ out r Hrun Hin)
    as (acts' & a & c & Heq & Ha & _ & Hc & Hp & Hf).
  inversion Heq; subst acts'. exists a, c.
  destruct Hf as (_ & _ & _ & _ & _ & _ & _ & _ & _ & _ & Hfr & Hfid & Hrole & Haid & _).
  repeat (split; [assumption|]). unfold or_else in Hrole.
  split; [|split; [|split]].
  - intros Ht. now rewrite Ht in Hrole.
  - intros Hn. destruct (field "Functie" c); try discriminate; exact Hrole.
  - intros Ht. rewrite Ht in Hfr, Hfid. now split.
  - intros Hn. destruct (field "Fractie" c); try discriminate; now split.
Qed.

Lemma role_and_fraction_sample :
  processAttendanceData UtcHost.host (Arr [sample_activity]) = Ok sample_rows
  /\ In row_jan_van_der_berg sample_rows
  /\ exists a c,
      In a [sample_activity] /\ In c (actors_of a)
      /\ actorId row_jan_van_der_berg = field "Id" c
      /\ (truthy (field "Functie" c) = true -> role row_jan_van_der_berg = field "Functie" c)
      /\ (is_nullish (field "Functie" c) = true ->
          role row_jan_van_der_berg = Str "Participant")
      /\ (truthy (field "Fractie" c) = true ->
          fraction row_jan_van_der_berg = field "NaamNL" (field "Fractie" c)
          /\ fractionId row_jan_van_der_berg = field "Id" (field "Fractie" c))
      /\ (is_nullish (field "Fractie" c) = true ->
          fraction row_jan_van_der_berg = Str "Unknown"
          /\ fractionId row_jan_van_der_berg = Null).
Proof.
  assert (Hin : In row_jan_van_der_berg sample_rows) by (left; reflexivity).
  split; [reflexivity|]. split; [exact Hin|].
  exact (role_and_fraction UtcHost.host [sample_activity] sample_rows
           row_jan_van_der_berg eq_refl Hin).
Defined.

(** ** Defaults *)

(** C10. The flattener also substitutes defaults for values that are
    present but falsy, such as the empty string: [activityTitle] is
    "Unknown Activity" when the activity's subject is missing or empty,
    [personInitials] and [personFirstName] are the empty string when the
    person's initials or first name are, and [role] is "Participant" for
    an empty functional label as for a missing one. *)
Theorem falsy_defaults (rt : Runtime) (acts : list value) (out : list AttendanceRecord)
        (r : AttendanceRecord) :
  processAttendanceData rt (Arr acts) = Ok out -> In r out ->
  exists a c,
    In a acts /\ In c (actors_of a) /\ actorId r = field "Id" c
    /\ (truthy (field "Onderwerp" a) = false -> activityTitle r = Str "Unknown Activity")
    /\ (truthy (field "Onderwerp" a) = true -> activityTitle r = field "Onderwerp" a)
    /\ (truthy (field "Initialen" (field "Persoon" c)) = false -> personInitials r = Str "")
    /\ (truthy (field "Voornamen" (field "Persoon" c)) = false -> personFirstName r = Str "")
    /\ (truthy (field "Functie" c) = false -> role r = Str "Participant")
    /\ (field "Onderwerp" a = Str "" -> activityTitle r = Str "Unknown Activity")
    /\ (field "Functie" c = Str "" -> role r = Str "Participant").
Proof.
  intros Hrun Hin.
  destruct (processAttendanceData_source rt _ out r Hrun Hin)
    as (acts' & a & c & Heq & Ha & _ & Hc & Hp & Hf).
  inversion Heq; subst acts'. exists a, c.
  destruct Hf as (_ & Htitle & _ & _ & _ & _ & _ & Hini & Hfirst & _ & _ & _ & Hrole
                  & Haid & _).
  repeat (split; [assumption|]). unfold or_else in *.
  repeat split; intros H; try rewrite H in *; assumption.
Qed.

Lemma falsy_defaults_sample :
  processAttendanceData UtcHost.host (Arr [sample_activity]) = Ok sample_rows
  /\ In row_jan_berg sample_rows
  /\ role row_jan_berg = Str "Participant"
  /\ personInitials row_jan_berg = Str "".
Proof.
  assert (Hin : In row_jan_berg sample_rows) by (right; left; reflexivity).
  split; [reflexivity|]. split; [exact Hin|].
  destruct (falsy_defaults UtcHost.host [sample_activity] sample_rows row_jan_berg
              eq_refl Hin)
    as (a & c & Ha & Hc & Hid & _ & _ & Hini & _ & _ & _ & Hrole).
  destruct Ha as [<-|[]].
  destruct Hc as [<-|[<-|[<-|[]]]]; try discriminate Hid.
  split; [apply Hrole | apply Hini]; reflexivity.
Defined.

(** ** Totality *)

(** C9. On every batch of activities of the data model the flattener
    returns: nothing is thrown.  It returns one record for each actor
    with a person; an activity without any date gives its records the
    date and time "Unknown" and [hasValidDate = false], an actor without
    a fraction gives its record the fraction "Unknown" with a [null]
    identifier, an actor without a functional label the role
    "Participant", and an actor without a person no record at all. *)
Theorem flattener_total (rt : Runtime) (acts : list value) :
  forallb is_Activity acts = true ->
  exists out,
    processAttendanceData rt (Arr acts) = Ok out
    /\ List.length out = attendance_pairs acts
    /\ forall r, In r out ->
         exists a c,
           In a acts /\ In c (actors_of a) /\ has_person c = true
           /\ actorId r = field "Id" c
           /\ (is_nullish (field "Aanvangstijd" a) = true ->
               is_nullish (field "Datum" a) = true ->
               activityDate r = "Unknown" /\ activityTime r = "Unknown"
               /\ hasValidDate r = false)
           /\ (is_nullish (field "Fractie" c) = true ->
               fraction r = Str "Unknown" /\ fractionId r = Null)
           /\ (is_nullish (field "Functie" c) = true -> role r = Str "Participant").
Proof.
  intros Hall.
  destruct (processAttendanceData_run_total rt acts Hall) as [st Hst].
  assert (Hrun : processAttendanceData rt (Arr acts) = Ok (attendanceData st))
    by (unfold processAttendanceData; now rewrite Hst).
  exists (attendanceData st). split; [exact Hrun|]. split.
  - apply processAttendanceData_rows in Hrun as (acts' & n & Heq & Hrows).
    inversion Heq; subst acts'. now apply (activity_rows_length rt acts _ n).
  - intros r Hin.
    destruct (processAttendanceData_source rt _ _ r Hrun Hin)
      as (acts' & a & c & Heq & Ha & Hna & Hc & Hp & Hf).
    inversion Heq; subst acts'. exists a, c.
    destruct Hf as (_ & _ & Hdate & Htime & _ & _ & _ & _ & _ & _ & Hfr & Hfid & Hrole
                    & Haid & Hvalid).
    repeat (split; [assumption|]).
    split; [|split].
    + intros H1 H2.
      assert (Hd : truthy (or_else (field "Aanvangstijd" a) (field "Datum" a)) = false).
      { unfold or_else.
        destruct (field "Aanvangstijd" a); try discriminate;
          destruct (field "Datum" a); try discriminate; reflexivity. }
      rewrite (start_of_missing rt a Hd) in Hdate, Htime, Hvalid. auto.
    + intros Hn. destruct (field "Fractie" c); try discriminate; now split.
    + intros Hn. unfold or_else in Hrole.
      destruct (field "Functie" c); try discriminate; exact Hrole.
Qed.

Lemma flattener_total_sample :
  forallb is_Activity sample_batch = true
  /\ exists out, processAttendanceData UtcHost.host (Arr sample_batch) = Ok out
                 /\ List.length out = 4%nat.
Proof.
  split; [reflexivity|].
  destruct (flattener_total UtcHost.host sample_batch eq_refl) as (out & Hrun & Hlen & _).
  exists out. split; [exact Hrun | exact Hlen].
Defined.

(** The data model matters: an element that is [null] makes the
    flattener throw. *)
Example flattener_throws_on_null (rt : Runtime) :
  processAttendanceData rt (Arr [Null]) = Throw TypeError.
Proof. reflexivity. Qed.

(** ** Date validity *)

(** C1 (divergence). An activity whose start time is a text that the host
    does not parse gets the date and time "Unknown", as the claim says,
    but [hasValidDate] is [true]: [startTime] holds the invalid date
    object, and [!!startTime] only asks whether it is [null]. *)
Theorem unparsed_date_marked_valid (rt : Runtime) :
  Date_parse rt "not-a-date" = None ->
  exists r,
    processAttendanceData rt (Arr [misdated_activity]) = Ok [r]
    /\ activityDate r = "Unknown" /\ activityTime r = "Unknown"
    /\ hasValidDate r = true.
Proof.
  intros Hparse.
  unfold processAttendanceData, processAttendanceData_run.
  cbn -[process_activity]. unfold process_activity.
  assert (Hstart : parse_start rt misdated_activity
                     (console_log initial_state (LogProcessing "1"))
                   = Ok ({| startTime := Some InvalidDate;
                            start_activityDate := "Unknown";
                            start_activityTime := "Unknown" |},
                         console_log initial_state (LogProcessing "1"))).
  { unfold parse_start, try_parse_start. cbn. rewrite Hparse. reflexivity. }
  change (has_no_actors misdated_activity) with (@Ok bool false).
  cbv beta delta [bind] iota. rewrite Hstart.
  eexists. split; [reflexivity|]. repeat split.
Qed.

Lemma unparsed_date_marked_valid_sample :
  Date_parse UtcHost.host "not-a-date" = None
  /\ exists r,
      processAttendanceData UtcHost.host (Arr [misdated_activity]) = Ok [r]
      /\ activityDate r = "Unknown" /\ activityTime r = "Unknown"
      /\ hasValidDate r = true.
Proof.
  split; [reflexivity|].
  exact (unparsed_date_marked_valid UtcHost.host eq_refl).
Defined.

(** On the reference host the start time of the specification's example
    is formatted, and marked valid. *)
Example sample_dated_row :
  field "Aanvangstijd" sample_activity = Str "2024-03-15T14:30:00Z"
  /\ activityDate row_jan_van_der_berg = "15-03-2024"
  /\ activityTime row_jan_van_der_berg = "14:30"
  /\ hasValidDate row_jan_van_der_berg = true.
Proof. repeat split. Qed.

(** An activity without any date field. *)
Example sample_undated_row :
  exists r,
    processAttendanceData UtcHost.host (Arr [undated_activity]) = Ok [r]
    /\ activityDate r = "Unknown" /\ activityTime r = "Unknown"
    /\ hasValidDate r = false.
Proof. eexists. split; [reflexivity|]. repeat split. Qed.

(** The rest of the date handling is as the claim has it. *)
Lemma dates_missing_or_parsed (rt : Runtime) (acts : list value)
      (out : list AttendanceRecord) (r : AttendanceRecord) :
  processAttendanceData rt (Arr acts) = Ok out -> In r out ->
  exists a,
    In a acts /\ activityId r = field "Id" a
    /\ let date := or_else (field "Aanvangstijd" a) (field "Datum" a) in
       (truthy date = false ->
        activityDate r = "Unknown" /\ activityTime r = "Unknown"
        /\ hasValidDate r = false)
       /\ (forall s t, date = Str s -> s <> "" -> Date_parse rt s = Some t ->
                       (Z.abs t <= 8640000000000000)%Z ->
                       activityDate r = toLocaleDateString rt t
                       /\ activityTime r = toLocaleTimeString rt t
                       /\ hasValidDate r = true)
       /\ (forall s, date = Str s -> s <> "" -> Date_parse rt s = None ->
                     activityDate r = "Unknown" /\ activityTime r = "Unknown"
                     /\ hasValidDate r = true).
Proof.
  intros Hrun Hin.
  destruct (processAttendanceData_source rt _ out r Hrun Hin)
    as (acts' & a & c & Heq & Ha & Hna & Hc & Hp & Hf).
  inversion Heq; subst acts'. exists a.
  destruct Hf as (Hid & _ & Hdate & Htime & _ & _ & _ & _ & _ & _ & _ & _ & _ & _ & Hvalid).
  split; [assumption|]. split; [assumption|].
  cbv zeta. split; [|split].
  - intros Hd. rewrite (start_of_missing rt a Hd) in Hdate, Htime, Hvalid. auto.
  - intros s t Hd Hs Hp' Ht.
    rewrite (start_of_parsed rt a s t Hna Hd Hs Hp' Ht) in Hdate, Htime, Hvalid. auto.
  - intros s Hd Hs Hp'.
    rewrite (start_of_unparsed rt a s Hna Hd Hs Hp') in Hdate, Htime, Hvalid. auto.
Qed.

(** ** The queries of the routes *)

Lemma prefix_append (s t : string) : String.prefix s (s ++ t) = true.
Proof.
  induction s as [|c s IH]; simpl; [now destruct t|].
  destruct (ascii_dec c c); [exact IH | contradiction].
Qed.

Lemma includes_prefix (s t : string) : String.prefix s t = true -> includes s t = true.
Proof. intros H. destruct t; unfold includes; fold includes; rewrite H; reflexivity. Qed.

Lemma route_filters_base (q : Query) (filters : list string) :
  route_filters q = Ok filters -> exists rest, filters = base_filter :: rest.
Proof.
  unfold route_filters, push. intros H.
  apply bind_Ok_inv in H as (f1 & H1 & H).
  apply bind_Ok_inv in H as (f2 & H2 & H).
  assert (E1 : exists r1, f1 = base_filter :: r1).
  { destruct (truthy (q_dateFrom q)).
    - apply bind_Ok_inv in H1 as (s1 & _ & H1). inversion H1. simpl. eauto.
    - inversion H1. eauto. }
  destruct E1 as [r1 ->].
  assert (E2 : exists r2, f2 = base_filter :: r2).
  { destruct (truthy (q_dateTo q)).
    - apply bind_Ok_inv in H2 as (s2 & _ & H2). inversion H2. simpl. eauto.
    - inversion H2. eauto. }
  destruct E2 as [r2 ->].
  destruct (truthy (q_activityType q)).
  - apply bind_Ok_inv in H as (s3 & _ & H). inversion H. simpl. eauto.
  - inversion H. eauto.
Qed.

Lemma push_options_extends (options : list (string * value)) (ks : list string) :
  forall params ps,
    push_options options ks params = Ok ps -> exists more, ps = (params ++ more)%list.
Proof.
  induction ks as [|k ks IH]; intros params ps H; simpl in H.
  - inversion H. exists []. now rewrite app_nil_r.
  - match type of H with (if ?b then _ else _) = _ => destruct b end.
    + apply bind_Ok_inv in H as (s & _ & H).
      destruct (IH _ _ H) as [more ->]. unfold push. rewrite <- app_assoc. eauto.
    + eauto.
Qed.

Lemma query_params_head (f : string) (rest expands : list string)
      (options : list (string * value)) (params : list string) :
  query_params (f :: rest) expands options = Ok params ->
  exists t tail, params = ("$filter=" ++ join_strings " and " (f :: rest)) :: t :: tail.
Proof.
  unfold query_params. change (0 <? List.length (f :: rest))%nat with true. cbv iota.
  intros H. apply bind_Ok_inv in H as (ps & Hps & H).
  apply push_options_extends in Hps as [more ->]. inversion H; subst params; clear H.
  unfold push. destruct (0 <? List.length expands)%nat; simpl.
  - eauto.
  - destruct more; simpl; eauto.
Qed.

(** A query on [Activiteit] whose filter list opens with the base filter
    opens with [$filter=verwijderd eq false]. *)
Lemma buildQuery_base_filter (rest expands : list string)
      (options : list (string * value)) (url : string) :
  buildQuery "Activiteit" (base_filter :: rest) expands options = Ok url ->
  starts_with_base_filter url = true.
Proof.
  unfold buildQuery. intros H.
  apply bind_Ok_inv in H as (params & Hp & H).
  apply query_params_head in Hp as (t & tail & ->).
  assert (Hf : exists more, join_strings " and " (base_filter :: rest) = base_filter ++ more).
  { unfold join_strings. destruct rest; simpl; eauto. exists "". reflexivity. }
  destruct Hf as [more Hf]. rewrite Hf in H.
  change (0 <? List.length (("$filter=" ++ base_filter ++ more) :: t :: tail))%nat
    with true in H.
  cbv iota in H. inversion H; subst url; clear H.
  unfold join_strings. cbn [String.concat].
  unfold starts_with_base_filter.
  match goal with
  | |- String.prefix ?s ?u = true =>
      replace u with (s ++ more ++ "&" ++ String.concat "&" (t :: tail))
        by (unfold base_filter, BASE_API_URL; simpl; rewrite ?append_assoc; reflexivity)
  end.
  apply prefix_append.
Qed.

(** ** What the handlers fetch *)

Lemma attendance_count_query_total (filters : list string) :
  exists cq, attendance_count_query filters = Ok cq.
Proof.
  unfold attendance_count_query.
  rewrite buildQuery_closed_form by (simpl; repeat constructor; simpl; tauto).
  simpl. eauto.
Qed.

(** The count block fetches the count query, once, and never throws. *)
Lemma fetch_total_count_run (up : Upstream) (filters : list string) (trace : list string) :
  exists v cq,
    attendance_count_query filters = Ok cq
    /\ fetch_total_count up filters trace = (Ok v, push trace cq).
Proof.
  destruct (attendance_count_query_total filters) as [cq Hcq].
  unfold fetch_total_count, io_try, io_bind, io_lift, io_ret, fetch.
  rewrite Hcq.
  destruct (up trace cq) as [e|r]; [eauto|].
  destruct (ok r); [|eauto].
  destruct (json r) as [countData|e]; [|eauto].
  destruct (get countData "@odata.count"); eauto.
Qed.

Ltac primary_stops :=
  eexists; split; [first [reflexivity | assumption]|];
  split; [first [reflexivity | assumption]|]; split; [reflexivity|];
  intros ? Hp; discriminate Hp.

(** The first part of the attendance handler fetches nothing when it
    fails before the data query is built, and the data query alone
    otherwise. *)
Lemma attendance_primary_run (rt : Runtime) (loaded : bool) (up : Upstream) (q : Query)
      (trace : list string) :
  (exists e, attendance_primary rt loaded up q trace = (Throw e, trace))
  \/ (exists filters dq res,
         route_filters q = Ok filters
         /\ attendance_query filters (with_default (q_limit q) (Num 1000))
                             (with_default (q_skip q) (Num 0)) = Ok dq
         /\ attendance_primary rt loaded up q trace = (res, push trace dq)
         /\ forall p, res = Ok p ->
                      p_filters p = filters
                      /\ p_skip p = with_default (q_skip q) (Num 0)).
Proof.
  unfold attendance_primary, io_bind, io_lift, io_ret, io_throw, fetch.
  destruct (checkFetch loaded) as [[]|e]; [|left; eauto].
  destruct (route_filters q) as [filters|e] eqn:Hf; [|left; eauto].
  destruct (attendance_query filters _ _) as [dq|e] eqn:Hq; [|left; eauto].
  right. exists filters, dq.
  destruct (up trace dq) as [e|r]; [primary_stops|].
  destruct (ok r); cbn [negb]; [|primary_stops].
  destruct (json r) as [data|e]; [|primary_stops].
  destruct (debug_block rt data) as [[]|e]; [|primary_stops].
  destruct (get data "value") as [v|e]; [|primary_stops].
  destruct (processAttendanceData rt (or_else v (Arr []))) as [rows|e]; [|primary_stops].
  eexists. split; [first [reflexivity | assumption]|].
  split; [first [reflexivity | assumption]|]. split; [reflexivity|].
  intros p Hp; inversion Hp; split; reflexivity.
Qed.

Lemma attendance_body_totalCount (rt : Runtime) (p : Primary) (count : value)
      (data : list AttendanceRecord) (metadata : Metadata) :
  attendance_body rt p count = Ok (AttendanceOk data metadata) ->
  totalCount metadata = count.
Proof.
  unfold attendance_body. intros H.
  apply bind_Ok_inv in H as (v & _ & H). apply bind_Ok_inv in H as (len & _ & H).
  apply bind_Ok_inv in H as (s & _ & H). apply bind_Ok_inv in H as (l & _ & H).
  inversion H. reflexivity.
Qed.

(** The attendance handler, case by case: it fails before any fetch; or
    it fetches the data query and, exactly when [skip] is [0] or ['0'] and
    the records have been flattened, the count query after it. *)
Lemma attendance_route_run (rt : Runtime) (loaded : bool) (up : Upstream) (q : Query) :
  let skip := with_default (q_skip q) (Num 0) in
  let run := attendance_route rt loaded up q in
  (fetched run = [] /\ exists e d, answer run = Ok (ServerError e d))
  \/ exists filters dq,
      route_filters q = Ok filters
      /\ attendance_query filters (with_default (q_limit q) (Num 1000)) skip = Ok dq
      /\ ((fetched run = [dq] /\ exists e d, answer run = Ok (ServerError e d))
          \/ (wants_count skip = false /\ fetched run = [dq]
              /\ exists res, answer run = Ok res
                             /\ forall data metadata, res = AttendanceOk data metadata ->
                                                      totalCount metadata = Null)
          \/ (wants_count skip = true
              /\ exists cq res, attendance_count_query filters = Ok cq
                                /\ fetched run = [dq; cq] /\ answer run = Ok res)).
Proof.
  intros skip run. subst run. unfold fetched, answer, attendance_route, io_try, io_bind.
  destruct (attendance_primary_run rt loaded up q [])
    as [[e He]|(filters & dq & res & Hf & Hq & Hrun & Hp)].
  - left. rewrite He. simpl. eauto.
  - right. exists filters, dq. split; [assumption|]. split; [assumption|].
    rewrite Hrun. destruct res as [p|e]; [|left; simpl; eauto].
    destruct (Hp p eq_refl) as [Hpf Hps]. rewrite Hps, Hpf. fold skip.
    destruct (wants_count skip) eqn:Hw.
    + right. right. split; [reflexivity|].
      destruct (fetch_total_count_run up filters (push [] dq)) as (v & cq & Hcq & Hcount).
      rewrite Hcount. exists cq. unfold io_lift, io_ret.
      destruct (attendance_body rt p v); simpl; eauto.
    + unfold io_ret, io_lift.
      destruct (attendance_body rt p Null) as [res|e] eqn:Hbody; simpl.
      * right. left. split; [reflexivity|]. split; [reflexivity|].
        exists res. split; [reflexivity|]. intros data metadata ->.
        now apply attendance_body_totalCount in Hbody.
      * left. eauto.
Qed.

Lemma wants_count_iff (v : value) :
  wants_count (with_default v (Num 0)) = true <->
  v = Undefined \/ v = Num 0 \/ v = Str "0".
Proof.
  unfold wants_count. destruct v; simpl; split; intros H;
    try discriminate; try tauto;
    try (destruct H as [H|[H|H]]; discriminate).
  - rewrite orb_false_r in H. apply Z.eqb_eq in H. subst. tauto.
  - destruct H as [H|[H|H]]; try discriminate. inversion H. reflexivity.
  - apply String.eqb_eq in H. subst. tauto.
  - destruct H as [H|[H|H]]; try discriminate. inversion H. reflexivity.
Qed.

(** ** The base filter *)

Lemma prefix_inv (s t : string) : String.prefix s t = true -> exists r, t = s ++ r.
Proof.
  revert t. induction s as [|c s IH]; intros t H; [exists t; reflexivity|].
  destruct t as [|c' t]; simpl in H; [discriminate|].
  destruct (ascii_dec c c') as [->|]; [|discriminate].
  destruct (IH t H) as [r ->]. now exists r.
Qed.

Lemma includes_append (s a t : string) : includes s t = true -> includes s (a ++ t) = true.
Proof.
  intros H. induction a as [|c a IH]; [exact H|].
  simpl append. unfold includes; fold includes. rewrite IH. apply orb_true_r.
Qed.

Lemma starts_with_base_filter_includes (url : string) :
  starts_with_base_filter url = true -> includes base_filter url = true.
Proof.
  unfold starts_with_base_filter. intros H.
  apply prefix_inv in H as [r ->].
  rewrite !append_assoc.
  apply includes_append, includes_append, includes_prefix, prefix_append.
Qed.

Lemma attendance_route_fetched (rt : Runtime) (loaded : bool) (up : Upstream) (q : Query)
      (url : string) :
  In url (fetched (attendance_route rt loaded up q)) ->
  exists filters,
    route_filters q = Ok filters
    /\ (attendance_query filters (with_default (q_limit q) (Num 1000))
                         (with_default (q_skip q) (Num 0)) = Ok url
        \/ attendance_count_query filters = Ok url).
Proof.
  pose proof (attendance_route_run rt loaded up q) as Hrun. cbv zeta in Hrun.
  destruct Hrun
    as [(Ht & _)
       |(filters & dq & Hf & Hq &
         [(Ht & _)|[(_ & Ht & _)|(_ & cq & res & Hcq & Ht & _)]])];
    rewrite Ht; simpl; intros Hin.
  - contradiction.
  - destruct Hin as [<-|[]]. eauto.
  - destruct Hin as [<-|[]]. eauto.
  - destruct Hin as [<-|[<-|[]]]; eauto.
Qed.

Lemma stats_route_fetched (rt : Runtime) (loaded : bool) (up : Upstream) (q : Query)
      (url : string) :
  In url (fetched (stats_route rt loaded up q)) ->
  exists filters,
    route_filters q = Ok filters
    /\ (stats_count_query filters = Ok url \/ stats_sample_query filters = Ok url).
Proof.
  unfold fetched, stats_route, io_try, io_bind, io_lift, io_ret, fetch.
  destruct (checkFetch loaded) as [[]|e]; [|simpl; contradiction].
  destruct (route_filters q) as [filters|e]; [|simpl; contradiction].
  destruct (stats_count_query filters) as [u1|e] eqn:H1; [|simpl; contradiction].
  assert (Hfirst : In url [u1] ->
                   exists f, Ok filters = Ok f
                             /\ (stats_count_query f = Ok url \/ stats_sample_query f = Ok url)).
  { intros [<-|[]]. eauto. }
  destruct (up [] u1) as [e|r1]; [exact Hfirst|].
  destruct (json r1) as [d1|e]; [|exact Hfirst].
  destruct (stats_sample_query filters) as [u2|e] eqn:H2; [|exact Hfirst].
  assert (Hboth : In url [u1; u2] ->
                  exists f, Ok filters = Ok f
                            /\ (stats_count_query f = Ok url \/ stats_sample_query f = Ok url)).
  { intros [<-|[<-|[]]]; eauto. }
  destruct (up (push [] u1) u2) as [e|r2]; [exact Hboth|].
  destruct (json r2) as [d2|e]; [|exact Hboth].
  destruct (get d2 "value") as [v|e]; [|exact Hboth].
  destruct (processAttendanceData rt (or_else v (Arr []))) as [rows|e]; [|exact Hboth].
  destruct (get d1 "@odata.count") as [count|e]; exact Hboth.
Qed.

Lemma activity_query_url (id : string) :
  activity_query id
  = Ok (BASE_API_URL ++ "/Activiteit/" ++ id
        ++ "?$expand=ActiviteitActor($expand=Persoon,Fractie)&$format=json").
Proof. reflexivity. Qed.

Lemma activity_route_fetched (loaded : bool) (up : Upstream) (id url : string) :
  In url (fetched (activity_route loaded up id)) -> activity_query id = Ok url.
Proof.
  unfold fetched, activity_route, io_try, io_bind, io_lift, io_ret, io_throw, fetch.
  destruct (checkFetch loaded) as [[]|e]; [|simpl; contradiction].
  rewrite activity_query_url.
  set (u := BASE_API_URL ++ "/Activiteit/" ++ id
            ++ "?$expand=ActiviteitActor($expand=Persoon,Fractie)&$format=json").
  assert (Hone : In url [u] -> Ok u = Ok url) by (intros [<-|[]]; reflexivity).
  destruct (up [] u) as [e|r]; [exact Hone|].
  destruct (ok r); cbn [negb]; [|exact Hone].
  destruct (json r); exact Hone.
Qed.

(** C2 (as amended). Every query that the attendance route and the
    statistics route fetch is a query on [Activiteit] whose filter clause
    opens with the base filter [verwijderd eq false].  The query of the
    single-activity route addresses one activity by its key and has an
    [$expand] and a [$format] parameter only: no filter clause. *)
Theorem base_filter_on_collection_queries (rt : Runtime) (loaded : bool) (up : Upstream)
        (q : Query) (id url : string) :
  (In url (fetched (attendance_route rt loaded up q)) ->
   starts_with_base_filter url = true /\ includes base_filter url = true)
  /\ (In url (fetched (stats_route rt loaded up q)) ->
      starts_with_base_filter url = true /\ includes base_filter url = true)
  /\ (In url (fetched (activity_route loaded up id)) ->
      url = BASE_API_URL ++ "/Activiteit/" ++ id
            ++ "?$expand=ActiviteitActor($expand=Persoon,Fractie)&$format=json")
  /\ query_params [] ["ActiviteitActor($expand=Persoon,Fractie)"] []
     = Ok ["$expand=ActiviteitActor($expand=Persoon,Fractie)"; "$format=json"].
Proof.
  assert (Hboth : forall u, starts_with_base_filter u = true ->
                            starts_with_base_filter u = true /\ includes base_filter u = true)
    by (intros u Hu; split; [exact Hu | now apply starts_with_base_filter_includes]).
  split; [|split; [|split]].
  - intros Hin. apply Hboth.
    apply attendance_route_fetched in Hin as (filters & Hf & Hq).
    apply route_filters_base in Hf as [rest ->].
    destruct Hq as [Hq|Hq]; now apply buildQuery_base_filter in Hq.
  - intros Hin. apply Hboth.
    apply stats_route_fetched in Hin as (filters & Hf & Hq).
    apply route_filters_base in Hf as [rest ->].
    destruct Hq as [Hq|Hq]; now apply buildQuery_base_filter in Hq.
  - intros Hin. apply activity_route_fetched in Hin.
    rewrite activity_query_url in Hin. now inversion Hin.
  - reflexivity.
Qed.

Lemma base_filter_on_collection_queries_sample :
  let up := constant_upstream sample_body in
  let dq := BASE_API_URL
            ++ "/Activiteit?$filter=verwijderd eq false and aanvangstijd ge 2024-01-01T00:00:00Z"
            ++ "&$expand=ActiviteitActor($expand=Persoon,Fractie)&$top=50&$skip=50"
            ++ "&$orderby=aanvangstijd desc&$format=json" in
  In dq (fetched (attendance_route UtcHost.host true up second_page))
  /\ starts_with_base_filter dq = true /\ includes base_filter dq = true.
Proof.
  intros up dq.
  assert (Hin : In dq (fetched (attendance_route UtcHost.host true up second_page)))
    by (left; reflexivity).
  split; [exact Hin|].
  exact (proj1 (base_filter_on_collection_queries UtcHost.host true up second_page
                  "a1" dq) Hin).
Defined.

(** C2 (as stated) fails on the single-activity route: the one query it
    fetches does not contain the base filter. *)
Lemma single_activity_query_unfiltered :
  exists url,
    In url (fetched (activity_route true (constant_upstream sample_activity)
                                    "a7fbfbe6-48ee-4182-b9ed-f49d34be4eab"))
    /\ includes base_filter url = false.
Proof.
  eexists. split; [left; reflexivity|]. reflexivity.
Qed.

(** * Further properties *)

(** ** What is thrown *)

Lemma only_Ok {A} (a : A) : throws_only_TypeError (Ok a).
Proof. intros e H. discriminate. Qed.

Lemma only_Throw {A} : throws_only_TypeError (@Throw A TypeError).
Proof. intros e H. now inversion H. Qed.

Lemma only_bind {A B} (m : result A) (k : A -> result B) :
  throws_only_TypeError m -> (forall a, throws_only_TypeError (k a)) ->
  throws_only_TypeError (bind m k).
Proof.
  intros Hm Hk e. destruct m as [a|e']; simpl.
  - apply Hk.
  - intros H. inversion H; subst. now apply Hm.
Qed.

Lemma only_if {A} (b : bool) (m m' : result A) :
  throws_only_TypeError m -> throws_only_TypeError m' ->
  throws_only_TypeError (if b then m else m').
Proof. now destruct b. Qed.

Lemma only_get (v : value) (k : string) : throws_only_TypeError (get v k).
Proof. destruct v; simpl; first [apply only_Ok | apply only_Throw]. Qed.

Lemma only_array_items (v : value) : throws_only_TypeError (array_items v).
Proof. destruct v; simpl; first [apply only_Ok | apply only_Throw]. Qed.

Lemma only_to_string (v : value) : throws_only_TypeError (to_string v).
Proof.
  induction v as [| |b|z|s|l IH|ps IH] using value_induction;
    try (simpl; apply only_Ok).
  - destruct b; apply only_Ok.
  - simpl. induction IH as [|x l Hx _ IHl]; [apply only_Ok|].
    apply only_bind.
    + destruct x; first [apply only_Ok | exact Hx].
    + intros s. destruct l; [apply only_Ok|].
      apply only_bind; [exact IHl | intros; apply only_Ok].
  - simpl. destruct (has_key "toString" ps); [apply only_Throw | apply only_Ok].
Qed.

Lemma only_join_elem (v : value) : throws_only_TypeError (join_elem v).
Proof. unfold join_elem. destruct v; first [apply only_Ok | apply only_to_string]. Qed.

Lemma only_join (sep : string) (l : list value) : throws_only_TypeError (join sep l).
Proof.
  induction l as [|x l IH]; simpl; [apply only_Ok|].
  apply only_bind; [apply only_join_elem|].
  intros s. destruct l; [apply only_Ok|].
  apply only_bind; [exact IH | intros; apply only_Ok].
Qed.

Lemma only_forEach_from {St A} (f : St -> nat -> A -> result St) (l : list A) :
  (forall st i x, throws_only_TypeError (f st i x)) ->
  forall i st, throws_only_TypeError (forEach_from f l i st).
Proof.
  intros Hf. induction l as [|x l IH]; intros i st; simpl; [apply only_Ok|].
  apply only_bind; [apply Hf | intros; apply IH].
Qed.

Ltac only_TypeError :=
  repeat first
    [ apply only_Ok | apply only_Throw | apply only_get | apply only_to_string
    | apply only_join | apply only_array_items
    | apply only_bind; [|intros ?] | apply only_if ].

Lemma only_date_field (a : value) : throws_only_TypeError (date_field a).
Proof. unfold date_field. only_TypeError. Qed.

Lemma only_new_Date (rt : Runtime) (v : value) : throws_only_TypeError (new_Date rt v).
Proof. destruct v; cbv beta iota delta [new_Date]; only_TypeError. Qed.

Lemma only_parse_start (rt : Runtime) (a : value) (st : FlattenState) :
  throws_only_TypeError (parse_start rt a st).
Proof.
  unfold parse_start. destruct (try_parse_start rt a); only_TypeError.
Qed.

Lemma only_attendance_record (a c p : value) (d : StartInfo) :
  throws_only_TypeError (attendance_record a c p d).
Proof.
  unfold attendance_record.
  repeat first [ apply only_date_field | progress only_TypeError ].
Qed.

Lemma only_process_actor (a : value) (d : StartInfo) (st : FlattenState) (c : value) :
  throws_only_TypeError (process_actor a d st c).
Proof.
  unfold process_actor.
  repeat first [ apply only_attendance_record | progress only_TypeError ].
Qed.

Lemma only_process_activity (rt : Runtime) (st : FlattenState) (i : nat) (a : value) :
  throws_only_TypeError (process_activity rt st i a).
Proof.
  unfold process_activity, has_no_actors.
  apply only_bind; [only_TypeError|]. intros none.
  apply only_if; [only_TypeError|].
  apply only_bind; [apply only_parse_start|]. intros [d st1].
  only_TypeError. unfold forEach. apply only_forEach_from.
  intros; apply only_process_actor.
Qed.

Lemma only_processAttendanceData (rt : Runtime) (v : value) :
  throws_only_TypeError (processAttendanceData rt v).
Proof.
  unfold processAttendanceData, processAttendanceData_run.
  apply only_bind; [|intros; apply only_Ok].
  only_TypeError. apply only_forEach_from. intros; apply only_process_activity.
Qed.

(** ** Malformed batches *)

Lemma get_Ok_defined (v : value) (k : string) (x : value) :
  get v k = Ok x -> is_nullish v = false.
Proof. destruct v; simpl; intros H; try discriminate; reflexivity. Qed.

Lemma actor_rows_defined (a : value) (d : StartInfo) (items : list value)
      (rs : list AttendanceRecord) :
  actor_rows a d items rs -> Forall (fun c => is_nullish c = false) items.
Proof.
  induction 1 as [|c cs rs p Hp _ _ IH|c cs rs p r Hp _ _ _ IH]; constructor;
    try assumption; now apply get_Ok_defined in Hp.
Qed.

Lemma has_no_actors_shape (a : value) (b : bool) :
  has_no_actors a = Ok b ->
  is_nullish a = false
  /\ (b = true ->
      truthy (field "ActiviteitActor" a) = false
      \/ get (field "ActiviteitActor" a) "length" = Ok (Num 0)).
Proof.
  unfold has_no_actors. intros H.
  apply bind_Ok_inv in H as (actors & Hget & H).
  split; [now apply get_Ok_defined in Hget|].
  field_of Hget. intros ->.
  destruct (truthy (field "ActiviteitActor" a)) eqn:Ht; [|now left].
  right. simpl in H. apply bind_Ok_inv in H as (len & Hlen & H).
  injection H as Heq. rewrite Hlen. f_equal.
  destruct len; simpl in Heq; try discriminate.
  apply Z.eqb_eq in Heq. now subst.
Qed.

Lemma activity_rows_shape (rt : Runtime) (acts : list value)
      (rs : list AttendanceRecord) (n : nat) :
  activity_rows rt acts rs n ->
  Forall (fun a =>
            is_nullish a = false
            /\ (truthy (field "ActiviteitActor" a) = false
                \/ get (field "ActiviteitActor" a) "length" = Ok (Num 0)
                \/ exists items, field "ActiviteitActor" a = Arr items
                                 /\ Forall (fun c => is_nullish c = false) items)) acts.
Proof.
  induction 1 as [|a acts rs n Hno _ IH|a acts items rs rs' n Hno Hget Har _ IH];
    constructor; try assumption.
  - apply has_no_actors_shape in Hno as [Ha Hshape]. split; [assumption|].
    destruct (Hshape eq_refl); tauto.
  - split; [now apply get_Ok_defined in Hget|].
    right. right. exists items. field_of Hget.
    split; [now symmetry | now apply actor_rows_defined in Har].
Qed.

(** X1. The flattener is all or nothing.  Whatever it throws is a
    [TypeError]; when it returns, its argument is an array whose elements
    are not [null] or [undefined] and whose actor collections are either
    falsy, of length 0, or arrays of actors that are not [null] or
    [undefined].  So a batch with one [null] activity, or an argument that
    is not an array, gives no records at all. *)
Theorem flattener_all_or_nothing (rt : Runtime) (v : value) :
  throws_only_TypeError (processAttendanceData rt v)
  /\ (forall out,
        processAttendanceData rt v = Ok out ->
        exists acts,
          v = Arr acts
          /\ Forall (fun a =>
                       is_nullish a = false
                       /\ (truthy (field "ActiviteitActor" a) = false
                           \/ get (field "ActiviteitActor" a) "length" = Ok (Num 0)
                           \/ exists items,
                               field "ActiviteitActor" a = Arr items
                               /\ Forall (fun c => is_nullish c = false) items)) acts)
  /\ ((forall acts, v <> Arr acts) -> processAttendanceData rt v = Throw TypeError)
  /\ (forall acts, v = Arr acts -> Exists (fun a => is_nullish a = true) acts ->
                   processAttendanceData rt v = Throw TypeError).
Proof.
  assert (Hshape : forall out,
             processAttendanceData rt v = Ok out ->
             exists acts,
               v = Arr acts
               /\ Forall (fun a =>
                            is_nullish a = false
                            /\ (truthy (field "ActiviteitActor" a) = false
                                \/ get (field "ActiviteitActor" a) "length" = Ok (Num 0)
                                \/ exists items,
                                    field "ActiviteitActor" a = Arr items
                                    /\ Forall (fun c => is_nullish c = false) items)) acts).
  { intros out Hrun.
    apply processAttendanceData_rows in Hrun as (acts & n & -> & Hrows).
    exists acts. split; [reflexivity|]. now apply activity_rows_shape in Hrows. }
  pose proof (only_processAttendanceData rt v) as Honly.
  split; [exact Honly|]. split; [exact Hshape|]. split.
  - intros Hnot. destruct (processAttendanceData rt v) as [out|e] eqn:Hrun.
    + destruct (Hshape out eq_refl) as (acts & Hv & _). now elim (Hnot acts).
    + now rewrite (Honly e eq_refl).
  - intros acts -> Hex. destruct (processAttendanceData rt (Arr acts)) as [out|e] eqn:Hrun.
    + destruct (Hshape out eq_refl) as (acts' & Hv & Hall). inversion Hv; subst acts'.
      apply Exists_exists in Hex as (a & Hin & Hnull).
      rewrite Forall_forall in Hall. destruct (Hall a Hin) as [Hdef _]. congruence.
    + now rewrite (Honly e eq_refl).
Qed.

Lemma flattener_all_or_nothing_sample :
  Exists (fun a => is_nullish a = true) [sample_activity; Null]
  /\ processAttendanceData UtcHost.host (Arr [sample_activity; Null]) = Throw TypeError
  /\ processAttendanceData UtcHost.host (Str "abc") = Throw TypeError.
Proof.
  assert (Hex : Exists (fun a => is_nullish a = true) [sample_activity; Null])
    by (right; left; reflexivity).
  split; [exact Hex|]. split.
  - exact (proj2 (proj2 (proj2
             (flattener_all_or_nothing UtcHost.host (Arr [sample_activity; Null]))))
             _ eq_refl Hex).
  - apply (proj1 (proj2 (proj2 (flattener_all_or_nothing UtcHost.host (Str "abc"))))).
    intros acts H. discriminate.
Defined.

(** ** The order of the records *)

Lemma actor_rows_ids (a : value) (d : StartInfo) (items : list value)
      (rs : list AttendanceRecord) :
  actor_rows a d items rs ->
  map actorId rs = map (field "Id") (filter has_person items)
  /\ map activityId rs = map (fun _ => field "Id" a) (filter has_person items)
  /\ map personId rs
     = map (fun c => field "Id" (field "Persoon" c)) (filter has_person items).
Proof.
  induction 1 as [|c cs rs p Hp Hf _ IH|c cs rs p r Hp Ht Hr _ IH]; simpl.
  - repeat split.
  - field_of Hp. change (has_person c = false) in Hf. rewrite Hf. exact IH.
  - field_of Hp. change (has_person c = true) in Ht. rewrite Ht. simpl.
    apply attendance_record_fields in Hr
      as (Hid & _ & _ & _ & _ & Hpid & _ & _ & _ & _ & _ & _ & _ & Haid & _).
    destruct IH as (I1 & I2 & I3). rewrite I1, I2, I3, Hid, Hpid, Haid. repeat split.
Qed.

(** X2. The records come out in the order of the input: activity by
    activity and, within an activity, actor by actor, with the actors
    that have no person left out. *)
Theorem records_in_input_order (rt : Runtime) (acts : list value)
        (out : list AttendanceRecord) :
  processAttendanceData rt (Arr acts) = Ok out ->
  map actorId out
  = flat_map (fun a => map (field "Id") (filter has_person (actors_of a))) acts
  /\ map activityId out
     = flat_map (fun a => map (fun _ => field "Id" a) (filter has_person (actors_of a))) acts
  /\ map personId out
     = flat_map (fun a => map (fun c => field "Id" (field "Persoon" c))
                              (filter has_person (actors_of a))) acts.
Proof.
  intros Hrun.
  apply processAttendanceData_rows in Hrun as (acts' & n & Heq & Hrows).
  inversion Heq; subst acts'; clear Heq.
  induction Hrows as [|a acts rs n Hno _ IH|a acts items rs rs' n Hno Hget Har _ IH]; simpl.
  - repeat split.
  - now rewrite (has_no_actors_true a Hno).
  - destruct IH as (I1 & I2 & I3).
    destruct (actor_rows_ids _ _ _ _ Har) as (A1 & A2 & A3).
    field_of Hget. unfold actors_of. rewrite <- Hget.
    rewrite !map_app, I1, I2, I3, A1, A2, A3. repeat split.
Qed.

Lemma records_in_input_order_sample :
  processAttendanceData UtcHost.host (Arr sample_batch) = Ok batch_rows
  /\ map actorId batch_rows = [Str "c1"; Str "c3"; Str "c4"; Str "c5"]
  /\ map activityId batch_rows = [Str "a1"; Str "a1"; Str "a2"; Str "a3"].
Proof.
  assert (Hrun : processAttendanceData UtcHost.host (Arr sample_batch) = Ok batch_rows)
    by reflexivity.
  split; [exact Hrun|].
  destruct (records_in_input_order UtcHost.host sample_batch _ Hrun) as (H1 & H2 & _).
  rewrite H1, H2. split; reflexivity.
Defined.

(** ** Flattening page by page *)

Lemma actor_rows_functional (a : value) (d : StartInfo) (items : list value)
      (rs rs' : list AttendanceRecord) :
  actor_rows a d items rs -> actor_rows a d items rs' -> rs = rs'.
Proof.
  intros H. revert rs'.
  induction H as [|c cs rs p Hp Hf _ IH|c cs rs p r Hp Ht Hr _ IH]; intros rs' H';
    inversion H'; subst; try reflexivity.
  - now apply IH.
  - congruence.
  - congruence.
  - assert (p0 = p) by congruence. subst p0.
    assert (r0 = r) by congruence. subst r0.
    f_equal. now apply IH.
Qed.

Lemma activity_rows_functional (rt : Runtime) (acts : list value)
      (rs rs' : list AttendanceRecord) (n n' : nat) :
  activity_rows rt acts rs n -> activity_rows rt acts rs' n' -> rs = rs' /\ n = n'.
Proof.
  intros H. revert rs' n'.
  induction H as [|a acts rs n Hno _ IH|a acts items rs rs1 n Hno Hget Har _ IH];
    intros rs' n' H'; inversion H'; subst; try (split; reflexivity); try congruence.
  - match goal with Hr : activity_rows rt acts _ _ |- _ =>
      destruct (IH _ _ Hr) as [-> ->] end.
    split; reflexivity.
  - assert (items0 = items) by congruence. subst items0.
    match goal with Hr : activity_rows rt acts _ _ |- _ =>
      destruct (IH _ _ Hr) as [-> ->] end.
    match goal with Ha : actor_rows a _ items ?x |- _ =>
      rewrite (actor_rows_functional _ _ _ _ _ Har Ha) end.
    split; reflexivity.
Qed.

Lemma activity_rows_app (rt : Runtime) (xs ys : list value)
      (rx ry : list AttendanceRecord) (nx ny : nat) :
  activity_rows rt xs rx nx -> activity_rows rt ys ry ny ->
  activity_rows rt (xs ++ ys) (rx ++ ry) (nx + ny).
Proof.
  intros Hx Hy.
  induction Hx as [|a acts rs n Hno _ IH|a acts items rs rs1 n Hno Hget Har _ IH]; simpl.
  - exact Hy.
  - now constructor.
  - rewrite <- app_assoc. econstructor; eassumption.
Qed.

(** X3. Flattening distributes over concatenation: the records of two
    pages flattened one after the other are the records of the two pages
    flattened in one call.  On pages of data-model activities all three
    calls return. *)
Theorem flatten_page_by_page (rt : Runtime) (xs ys : list value) :
  (forall rx ry r,
      processAttendanceData rt (Arr xs) = Ok rx ->
      processAttendanceData rt (Arr ys) = Ok ry ->
      processAttendanceData rt (Arr (xs ++ ys)) = Ok r ->
      r = (rx ++ ry)%list)
  /\ (forallb is_Activity (xs ++ ys) = true ->
      exists rx ry,
        processAttendanceData rt (Arr xs) = Ok rx
        /\ processAttendanceData rt (Arr ys) = Ok ry
        /\ processAttendanceData rt (Arr (xs ++ ys)) = Ok (rx ++ ry)%list).
Proof.
  assert (Hglue : forall rx ry r,
             processAttendanceData rt (Arr xs) = Ok rx ->
             processAttendanceData rt (Arr ys) = Ok ry ->
             processAttendanceData rt (Arr (xs ++ ys)) = Ok r ->
             r = (rx ++ ry)%list).
  { intros rx ry r Hx Hy Hxy.
    apply processAttendanceData_rows in Hx as (xs' & nx & Ex & Hx).
    apply processAttendanceData_rows in Hy as (ys' & ny & Ey & Hy).
    apply processAttendanceData_rows in Hxy as (zs & n & Ez & Hxy).
    inversion Ex; inversion Ey; inversion Ez; subst xs' ys' zs.
    pose proof (activity_rows_app _ _ _ _ _ _ _ Hx Hy) as Happ.
    now destruct (activity_rows_functional _ _ _ _ _ _ Hxy Happ). }
  split; [exact Hglue|].
  intros Hall. rewrite forallb_app in Hall. apply andb_true_iff in Hall as [Hxs Hys].
  assert (Hxys : forallb is_Activity (xs ++ ys) = true)
    by (rewrite forallb_app, Hxs, Hys; reflexivity).
  assert (Htotal : forall l, forallb is_Activity l = true ->
                             exists out, processAttendanceData rt (Arr l) = Ok out).
  { intros l Hl. destruct (processAttendanceData_run_total rt l Hl) as [st Hst].
    exists (attendanceData st). unfold processAttendanceData. now rewrite Hst. }
  destruct (Htotal xs Hxs) as [rx Hx], (Htotal ys Hys) as [ry Hy],
           (Htotal _ Hxys) as [r Hr].
  exists rx, ry. rewrite (Hglue rx ry r Hx Hy Hr) in Hr. auto.
Qed.

Lemma flatten_page_by_page_sample :
  forallb is_Activity ([sample_activity] ++ [undated_activity; misdated_activity;
                                             empty_activity]) = true
  /\ exists rx ry,
      processAttendanceData UtcHost.host (Arr [sample_activity]) = Ok rx
      /\ processAttendanceData UtcHost.host
           (Arr [undated_activity; misdated_activity; empty_activity]) = Ok ry
      /\ processAttendanceData UtcHost.host
           (Arr ([sample_activity]
                 ++ [undated_activity; misdated_activity; empty_activity]))
         = Ok (rx ++ ry)%list.
Proof.
  split; [reflexivity|].
  exact (proj2 (flatten_page_by_page UtcHost.host [sample_activity]
                  [undated_activity; misdated_activity; empty_activity]) eq_refl).
Defined.

(** ** The console *)

Lemma skipping_lines_push (lines : list console_line) (l : console_line) :
  skipping_lines (push lines l)
  = (skipping_lines lines
     + match l with LogSkipping _ _ => 1 | _ => 0 end)%nat.
Proof.
  unfold skipping_lines, push. rewrite filter_app, length_app.
  destruct l; reflexivity.
Qed.

Lemma parse_start_console (rt : Runtime) (a : value) (st st1 : FlattenState) (d : StartInfo) :
  parse_start rt a st = Ok (d, st1) ->
  skipping_lines (console st1) = skipping_lines (console st).
Proof.
  unfold parse_start. destruct (try_parse_start rt a) as [d0|e]; intros H.
  - now inversion H.
  - apply bind_Ok_inv in H as (id & _ & H). apply bind_Ok_inv in H as (ids & _ & H).
    inversion H; subst. simpl. rewrite skipping_lines_push. lia.
Qed.

Lemma process_activity_console (rt : Runtime) (st st' : FlattenState) (i : nat) (a : value) :
  process_activity rt st i a = Ok st' ->
  (activitiesWithoutActors st' = S (activitiesWithoutActors st)
   /\ skipping_lines (console st')
      = (skipping_lines (console st) + if (i <? 5)%nat then 1 else 0)%nat)
  \/ (activitiesWithoutActors st' = activitiesWithoutActors st
      /\ skipping_lines (console st') = skipping_lines (console st)).
Proof.
  unfold process_activity. intros H.
  apply bind_Ok_inv in H as (none & _ & H). destruct none.
  - left. destruct (i <? 5)%nat.
    + apply bind_Ok_inv in H as (id & _ & H). apply bind_Ok_inv in H as (ids & _ & H).
      apply bind_Ok_inv in H as (o & _ & H). apply bind_Ok_inv in H as (title & _ & H).
      inversion H; subst. simpl. rewrite skipping_lines_push. split; reflexivity.
    + inversion H; subst. simpl. split; [reflexivity | lia].
  - right. apply bind_Ok_inv in H as ([d st1] & Hstart & H).
    apply bind_Ok_inv in H as (actors & _ & H). apply bind_Ok_inv in H as (items & _ & H).
    apply forEach_actors_rows in H as (rs & _ & (_ & B & _) & Hcon).
    apply parse_start_console in Hstart as Hlines.
    apply parse_start_info in Hstart as (_ & (_ & B1 & _)).
    rewrite Hcon, Hlines, B, B1. split; lia.
Qed.

Lemma forEach_activities_console (rt : Runtime) (acts : list value) :
  forall i st st',
    forEach_from (process_activity rt) acts i st = Ok st' ->
    (skipping_lines (console st') <= skipping_lines (console st) + (5 - i))%nat
    /\ (skipping_lines (console st') + activitiesWithoutActors st
        <= skipping_lines (console st) + activitiesWithoutActors st')%nat.
Proof.
  induction acts as [|a acts IH]; intros i st st' H; simpl in H.
  - inversion H; subst. lia.
  - apply bind_Ok_inv in H as (st1 & Hstep & H).
    destruct (IH _ _ _ H) as [I1 I2].
    apply process_activity_console in Hstep as [[A L]|[A L]]; rewrite A in *; rewrite L in *.
    + destruct (Nat.ltb_spec i 5); lia.
    + lia.
Qed.

(** X4. What a run leaves on the console and in its counters: the
    variable [skippedActivities] is still 0; the last lines are
    "Processed n attendance records" with the number of records returned
    and, only when some activity had no actors, "Skipped m activities
    without actors" with their number; and however many activities were
    passed over, at most five "Skipping activity" lines were written. *)
Theorem run_summary (rt : Runtime) (v : value) (st : FlattenState) :
  processAttendanceData_run rt v = Ok st ->
  skippedActivities st = 0%nat
  /\ (exists earlier,
         console st
         = (earlier ++ LogProcessed (List.length (attendanceData st))
                    :: (if (0 <? activitiesWithoutActors st)%nat
                        then [LogSkippedActivities (activitiesWithoutActors st)]
                        else []))%list)
  /\ (skipping_lines (console st) <= 5)%nat
  /\ (skipping_lines (console st) <= activitiesWithoutActors st)%nat.
Proof.
  unfold processAttendanceData_run. intros H.
  apply bind_Ok_inv in H as (len & _ & H).
  apply bind_Ok_inv in H as (count & _ & H).
  apply bind_Ok_inv in H as (items & _ & H).
  apply bind_Ok_inv in H as (st1 & Hrun & H).
  pose proof (forEach_activities_rows _ _ _ _ _ Hrun) as (rs & n & _ & (_ & _ & Hskipped)).
  apply forEach_activities_console in Hrun as [L1 L2].
  cbn [console console_log initial_state activitiesWithoutActors skippedActivities]
    in Hskipped, L1, L2.
  rewrite skipping_lines_push in L1, L2.
  change (skipping_lines []) with 0%nat in L1, L2.
  inversion H; subst st; clear H.
  destruct (0 <? activitiesWithoutActors st1)%nat eqn:E;
    cbn [console console_log activitiesWithoutActors skippedActivities attendanceData];
    rewrite E, ?skipping_lines_push; (split; [exact Hskipped|]); (split; [|lia]).
  - unfold push. rewrite <- app_assoc. eexists. reflexivity.
  - unfold push. eexists. reflexivity.
Qed.

Lemma run_summary_sample :
  exists st,
    processAttendanceData_run UtcHost.host
      (Arr (repeat empty_activity 7 ++ [sample_activity])) = Ok st
    /\ activitiesWithoutActors st = 7%nat
    /\ skippedActivities st = 0%nat
    /\ (skipping_lines (console st) <= 5)%nat.
Proof.
  eexists. split; [reflexivity|]. split; [reflexivity|].
  match goal with
  | |- skippedActivities ?s = _ /\ _ =>
      destruct (run_summary UtcHost.host
                  (Arr (repeat empty_activity 7 ++ [sample_activity])) s eq_refl)
        as (H0 & _ & H5 & _)
  end.
  split; [exact H0 | exact H5].
Defined.

(** ** The date block *)

Lemma new_Date_primitive (rt : Runtime) (v : value) :
  is_primitive v = true -> exists d, new_Date rt v = Ok d.
Proof. destruct v; simpl; intros H; try discriminate; eauto. Qed.

(** X5. The date handling never fails an activity whose [Id] converts to
    a string: whatever the date fields hold, the handler goes on with the
    activity.  The [catch] block only runs for a date value that is an
    object or an array whose conversion to a string throws; the activity
    then keeps the date "Unknown" with [startTime = null], and one
    warning is written. *)
Theorem date_block_never_fatal (rt : Runtime) (a : value) (st : FlattenState) :
  is_nullish a = false ->
  is_ok (to_string (field "Id" a)) = true ->
  exists st1,
    parse_start rt a st = Ok (start_of rt a, st1)
    /\ (is_ok (try_parse_start rt a) = true -> st1 = st)
    /\ (forall e,
          try_parse_start rt a = Throw e ->
          let date := or_else (field "Aanvangstijd" a) (field "Datum" a) in
          e = TypeError /\ is_primitive date = false
          /\ to_string date = Throw TypeError
          /\ start_of rt a = unknown_start
          /\ exists ids, to_string (field "Id" a) = Ok ids
                         /\ st1 = console_log st (WarnDate ids e)).
Proof.
  intros Ha Hid.
  destruct (to_string (field "Id" a)) as [ids|] eqn:Hids; [|discriminate].
  unfold parse_start, start_of.
  destruct (try_parse_start rt a) as [d|e] eqn:Htry.
  - exists st. split; [reflexivity|]. split; [reflexivity|]. intros e H. discriminate.
  - rewrite (get_defined a "Id" Ha) by discriminate. cbv beta delta [bind] iota.
    rewrite Hids. eexists. split; [reflexivity|]. split; [discriminate|].
    intros e' He'. inversion He'; subst e'. cbv zeta.
    unfold try_parse_start in Htry. rewrite (date_field_defined a Ha) in Htry.
    cbv beta delta [bind] iota in Htry.
    destruct (truthy (or_else (field "Aanvangstijd" a) (field "Datum" a))); [|discriminate].
    destruct (is_primitive (or_else (field "Aanvangstijd" a) (field "Datum" a))) eqn:Hp.
    + destruct (new_Date_primitive rt _ Hp) as [d Hd]. rewrite Hd in Htry.
      simpl in Htry. destruct (isNaN_getTime d); discriminate.
    + assert (Hthrow : to_string (or_else (field "Aanvangstijd" a) (field "Datum" a))
                       = Throw e).
      { destruct (or_else (field "Aanvangstijd" a) (field "Datum" a)) as [| | | | |l|ps];
          try discriminate;
          cbv beta iota delta [new_Date] in Htry;
          match type of Htry with
          | context [to_string ?x] => destruct (to_string x) as [s|e0]
          end;
          cbv beta iota delta [bind] in Htry;
          first [ destruct (isNaN_getTime _); discriminate
                | now inversion Htry ]. }
      assert (He : e = TypeError) by (apply (only_to_string _ e Hthrow)).
      subst e. repeat split; try assumption. eauto.
Qed.

Lemma date_block_never_fatal_sample :
  let a := Obj [("Id", Str "a9"); ("Aanvangstijd", Obj [("toString", Num 1)]);
                ("ActiviteitActor", Arr [Obj [("Id", Str "c9"); ("Persoon", jan_berg)]])] in
  is_nullish a = false
  /\ is_ok (to_string (field "Id" a)) = true
  /\ try_parse_start UtcHost.host a = Throw TypeError
  /\ start_of UtcHost.host a = unknown_start
  /\ exists r, processAttendanceData UtcHost.host (Arr [a]) = Ok [r]
               /\ activityDate r = "Unknown" /\ hasValidDate r = false.
Proof.
  intros a.
  split; [reflexivity|]. split; [reflexivity|]. split; [reflexivity|].
  destruct (date_block_never_fatal UtcHost.host a initial_state eq_refl eq_refl)
    as (st1 & Hstart & _ & Hcatch).
  destruct (Hcatch TypeError eq_refl) as (_ & _ & _ & Hunknown & _).
  split; [exact Hunknown|].
  eexists. split; [reflexivity|]. split; reflexivity.
Defined.

(** ** Before fetch is loaded *)

Lemma only_push_options (options : list (string * value)) (ks : list string) :
  forall params, throws_only_TypeError (push_options options ks params).
Proof.
  induction ks as [|k ks IH]; intros params; simpl; [apply only_Ok|].
  match goal with |- throws_only_TypeError (if ?b then _ else _) => destruct b end.
  - apply only_bind; [apply only_to_string | intros; apply IH].
  - apply IH.
Qed.

Lemma only_buildQuery (endpoint : string) (filters expands : list string)
      (options : list (string * value)) :
  throws_only_TypeError (buildQuery endpoint filters expands options).
Proof.
  unfold buildQuery, query_params.
  apply only_bind; [|intros; apply only_Ok].
  apply only_bind; [apply only_push_options | intros; apply only_Ok].
Qed.

Lemma only_route_filters (q : Query) : throws_only_TypeError (route_filters q).
Proof. unfold route_filters. only_TypeError. Qed.

Lemma fetch_not_loaded_is_no_TypeError : fetch_not_loaded <> TypeError.
Proof. discriminate. Qed.

Lemma attendance_primary_loaded (rt : Runtime) (up : Upstream) (q : Query) :
  attendance_primary rt true up q [] = (Throw TypeError, [])
  \/ exists res dq, attendance_primary rt true up q [] = (res, push [] dq).
Proof.
  unfold attendance_primary, io_bind, io_lift, io_ret, io_throw, fetch.
  simpl checkFetch. cbv beta iota.
  destruct (route_filters q) as [filters|e] eqn:Hf;
    [|left; apply (only_route_filters q e) in Hf; now subst e].
  destruct (attendance_query filters _ _) as [dq|e] eqn:Hq;
    [|left; apply (only_buildQuery _ _ _ _ e) in Hq; now subst e].
  right.
  destruct (up [] dq) as [e|r]; [do 2 eexists; reflexivity|].
  destruct (ok r); cbn [negb]; [|do 2 eexists; reflexivity].
  destruct (json r) as [data|e]; [|do 2 eexists; reflexivity].
  destruct (debug_block rt data) as [[]|e]; [|do 2 eexists; reflexivity].
  destruct (get data "value") as [v|e]; [|do 2 eexists; reflexivity].
  destruct (processAttendanceData rt (or_else v (Arr []))); do 2 eexists; reflexivity.
Qed.

(** X6. Until the fetch module is loaded every API route answers status
    500 with "Fetch module not yet loaded. Please wait and try again."
    and sends nothing upstream, and the health route reports
    [fetchAvailable: false]; once it is loaded the health route reports
    [true] and no route gives that answer without having fetched. *)
Theorem routes_refuse_until_fetch_loaded (rt : Runtime) (loaded : bool) (up : Upstream)
        (q : Query) (id now : string) :
  fetchAvailable (health_route loaded now) = loaded
  /\ (loaded = false ->
      attendance_route rt loaded up q [] = (Ok (ServerError fetch_not_loaded attendance_details), [])
      /\ activity_route loaded up id [] = (Ok (ServerError fetch_not_loaded None), [])
      /\ stats_route rt loaded up q [] = (Ok (ServerError fetch_not_loaded None), []))
  /\ (loaded = true ->
      forall d,
        attendance_route rt loaded up q [] <> (Ok (ServerError fetch_not_loaded d), [])
        /\ activity_route loaded up id [] <> (Ok (ServerError fetch_not_loaded d), [])
        /\ stats_route rt loaded up q [] <> (Ok (ServerError fetch_not_loaded d), [])).
Proof.
  split; [now destruct loaded|]. split.
  - intros ->. repeat split.
  - intros -> d. split; [|split].
    + destruct (attendance_primary_loaded rt up q) as [Hp|(res & dq & Hp)].
      * unfold attendance_route, io_try, io_bind. rewrite Hp. unfold io_ret.
        intros H. discriminate.
      * unfold attendance_route, io_try, io_bind. rewrite Hp.
        destruct res as [p|e]; [|unfold io_ret; intros H; discriminate].
        destruct (wants_count (p_skip p)).
        -- destruct (fetch_total_count_run up (p_filters p) (push [] dq))
             as (v & cq & _ & Hc).
           rewrite Hc. unfold io_lift, io_ret.
           destruct (attendance_body rt p v); intros H; discriminate.
        -- unfold io_ret, io_lift.
           destruct (attendance_body rt p Null); intros H; discriminate.
    + unfold activity_route, io_try, io_bind, io_lift, io_ret, io_throw, fetch.
      simpl checkFetch. cbv beta iota. rewrite activity_query_url.
      match goal with |- context [up [] ?u] => destruct (up [] u) as [e|r] end;
        [intros H; discriminate|].
      destruct (ok r); cbn [negb]; [|intros H; discriminate].
      destruct (json r); intros H; discriminate.
    + unfold stats_route, io_try, io_bind, io_lift, io_ret, fetch.
      simpl checkFetch. cbv beta iota.
      destruct (route_filters q) as [filters|e] eqn:Hf.
      * destruct (stats_count_query filters) as [u1|e] eqn:H1.
        -- destruct (up [] u1) as [e|r1]; [intros H; discriminate|].
           destruct (json r1) as [d1|e]; [|intros H; discriminate].
           destruct (stats_sample_query filters) as [u2|e]; [|intros H; discriminate].
           destruct (up (push [] u1) u2) as [e|r2]; [intros H; discriminate|].
           destruct (json r2) as [d2|e]; [|intros H; discriminate].
           destruct (get d2 "value") as [v|e]; [|intros H; discriminate].
           destruct (processAttendanceData rt (or_else v (Arr [])));
             [|intros H; discriminate].
           destruct (get d1 "@odata.count"); intros H; discriminate.
        -- intros H. inversion H as [He].
           apply (only_buildQuery _ _ _ _ e) in H1. subst e. discriminate.
      * intros H. inversion H as [He].
        apply (only_route_filters q e) in Hf. subst e. discriminate.
Qed.

Lemma routes_refuse_until_fetch_loaded_sample :
  let up := constant_upstream sample_body in
  fetchAvailable (health_route false "2024-03-15T14:30:00.000Z") = false
  /\ attendance_route UtcHost.host false up no_parameters []
     = (Ok (ServerError fetch_not_loaded attendance_details), [])
  /\ attendance_route UtcHost.host true up no_parameters []
     <> (Ok (ServerError fetch_not_loaded attendance_details), []).
Proof.
  intros up.
  destruct (routes_refuse_until_fetch_loaded UtcHost.host false up no_parameters "a1"
              "2024-03-15T14:30:00.000Z") as (Hh & Hoff & _).
  destruct (routes_refuse_until_fetch_loaded UtcHost.host true up no_parameters "a1"
              "2024-03-15T14:30:00.000Z") as (_ & _ & Hon).
  split; [exact Hh|]. split; [exact (proj1 (Hoff eq_refl))|].
  exact (proj1 (Hon eq_refl attendance_details)).
Defined.

(** ** The attendance handler *)

(** All that has happened when the first part of the handler has
    returned. *)
Lemma attendance_primary_ok (rt : Runtime) (loaded : bool) (up : Upstream) (q : Query)
      (trace tr : list string) (p : Primary) :
  attendance_primary rt loaded up q trace = (Ok p, tr) ->
  loaded = true
  /\ exists dq r,
      route_filters q = Ok (p_filters p)
      /\ p_limit p = with_default (q_limit q) (Num 1000)
      /\ p_skip p = with_default (q_skip q) (Num 0)
      /\ attendance_query (p_filters p) (p_limit p) (p_skip p) = Ok dq
      /\ up trace dq = Resolved r /\ ok r = true /\ json r = Ok (p_data p)
      /\ debug_block rt (p_data p) = Ok tt
      /\ processAttendanceData rt (or_else (field "value" (p_data p)) (Arr []))
         = Ok (p_attendanceData p)
      /\ get (p_data p) "value" = Ok (field "value" (p_data p))
      /\ tr = push trace dq.
Proof.
  unfold attendance_primary, io_bind, io_lift, io_ret, io_throw, fetch.
  destruct loaded; simpl checkFetch; cbv beta iota; [|intros H; discriminate].
  destruct (route_filters q) as [filters|e]; [|intros H; discriminate].
  destruct (attendance_query filters _ _) as [dq|e] eqn:Hq; [|intros H; discriminate].
  destruct (up trace dq) as [e|r] eqn:Hup; [intros H; discriminate|].
  destruct (ok r) eqn:Hok; cbn [negb]; [|intros H; discriminate].
  destruct (json r) as [data|e] eqn:Hjson; [|intros H; discriminate].
  destruct (debug_block rt data) as [[]|e] eqn:Hdebug; [|intros H; discriminate].
  destruct (get data "value") as [v|e] eqn:Hv; [|intros H; discriminate].
  destruct (processAttendanceData rt (or_else v (Arr []))) as [rows|e] eqn:Hrows;
    [|intros H; discriminate].
  intros H. inversion H; subst; clear H. simpl.
  split; [reflexivity|]. exists dq, r.
  pose proof Hv as Hv'. field_of Hv'.
  repeat (split; [first [reflexivity | assumption]|]). reflexivity.
Qed.

Lemma attendance_query_converts (filters : list string) (limit skip : value) (dq : string) :
  attendance_query filters limit skip = Ok dq ->
  (exists l, to_string limit = Ok l) /\ (exists s, to_string skip = Ok s).
Proof.
  unfold attendance_query. intros H.
  rewrite buildQuery_closed_form in H
    by (simpl; repeat constructor; simpl; intuition discriminate).
  apply bind_Ok_inv in H as (ops & Hops & _).
  unfold defined_options in Hops. cbn [filter snd] in Hops.
  split.
  - destruct (is_nullish limit) eqn:Hn.
    + destruct limit; try discriminate; simpl; eauto.
    + cbn [negb] in Hops. cbn [mapM] in Hops.
      apply bind_Ok_inv in Hops as (c & Hc & _). unfold option_clause in Hc.
      apply bind_Ok_inv in Hc as (l & Hl & _). simpl in Hl. eauto.
  - destruct (is_nullish skip) eqn:Hn.
    + destruct skip; try discriminate; simpl; eauto.
    + destruct (is_nullish limit); cbn [negb] in Hops; cbn [mapM] in Hops.
      * apply bind_Ok_inv in Hops as (c & Hc & _). unfold option_clause in Hc.
        apply bind_Ok_inv in Hc as (l & Hl & _). simpl in Hl. eauto.
      * apply bind_Ok_inv in Hops as (c0 & _ & Hops).
        apply bind_Ok_inv in Hops as (cs & Hcs & _).
        apply bind_Ok_inv in Hcs as (c & Hc & _). unfold option_clause in Hc.
        apply bind_Ok_inv in Hc as (l & Hl & _). simpl in Hl. eauto.
Qed.

(** Once the records are flattened the body of the response is built
    without a throw. *)
Lemma attendance_body_total (rt : Runtime) (loaded : bool) (up : Upstream) (q : Query)
      (trace tr : list string) (p : Primary) (count : value) :
  attendance_primary rt loaded up q trace = (Ok p, tr) ->
  exists metadata len,
    attendance_body rt p count = Ok (AttendanceOk (p_attendanceData p) metadata)
    /\ totalCount metadata = count
    /\ totalRegistrations metadata = List.length (p_attendanceData p)
    /\ (if is_nullish (field "value" (p_data p)) then Ok Undefined
        else get (field "value" (p_data p)) "length") = Ok len
    /\ totalActivities metadata = or_else len (Num 0).
Proof.
  intros Hp. apply attendance_primary_ok in Hp
    as (_ & dq & r & _ & _ & _ & Hq & _ & _ & _ & _ & _ & Hv & _).
  apply attendance_query_converts in Hq as [[l Hl] [s Hs]].
  unfold attendance_body, parseInt. rewrite Hv, Hl, Hs. cbv beta delta [bind] iota.
  destruct (if is_nullish (field "value" (p_data p)) then Ok Undefined
            else get (field "value" (p_data p)) "length") as [len|e] eqn:Hlen.
  - eexists. exists len. split; [reflexivity|]. repeat split.
  - exfalso. destruct (field "value" (p_data p)); simpl in Hlen; discriminate.
Qed.

Lemma fetch_total_count_outcome (up : Upstream) (filters : list string)
      (trace : list string) (cq : string) :
  attendance_count_query filters = Ok cq ->
  fetch_total_count up filters trace = (Ok (count_of_outcome (up trace cq)), push trace cq).
Proof.
  intros Hcq. unfold fetch_total_count, io_try, io_bind, io_lift, io_ret, fetch,
    count_of_outcome.
  rewrite Hcq. destruct (up trace cq) as [e|r]; [reflexivity|].
  destruct (ok r); [|reflexivity].
  destruct (json r) as [countData|e]; [|reflexivity].
  destruct (get countData "@odata.count"); reflexivity.
Qed.

(** X7. A failure of the count query never fails the request.  Once the
    data query has been answered and the records are flattened, the
    handler answers success with those records whatever becomes of the
    count query: a rejected fetch, a failure status, a body that is not
    JSON or a body without the count only leave [totalCount] at [null]
    (or undefined). *)
Theorem count_failure_is_recovered (rt : Runtime) (loaded : bool) (up : Upstream)
        (q : Query) (p : Primary) (tr : list string) :
  attendance_primary rt loaded up q [] = (Ok p, tr) ->
  exists metadata cq,
    attendance_count_query (p_filters p) = Ok cq
    /\ answer (attendance_route rt loaded up q)
       = Ok (AttendanceOk (p_attendanceData p) metadata)
    /\ totalCount metadata
       = (if wants_count (p_skip p) then count_of_outcome (up tr cq) else Null)
    /\ fetched (attendance_route rt loaded up q)
       = (if wants_count (p_skip p) then push tr cq else tr).
Proof.
  intros Hp.
  destruct (attendance_count_query_total (p_filters p)) as [cq Hcq].
  unfold answer, fetched, attendance_route, io_try, io_bind. rewrite Hp.
  destruct (wants_count (p_skip p)).
  - rewrite (fetch_total_count_outcome up _ tr cq Hcq).
    destruct (attendance_body_total rt loaded up q [] tr p
                (count_of_outcome (up tr cq)) Hp) as (metadata & len & Hb & Hc & _).
    unfold io_lift. rewrite Hb. exists metadata, cq. simpl. auto.
  - unfold io_ret, io_lift.
    destruct (attendance_body_total rt loaded up q [] tr p Null Hp)
      as (metadata & len & Hb & Hc & _).
    rewrite Hb. exists metadata, cq. simpl. auto.
Qed.

Lemma count_failure_is_recovered_sample :
  let up := countless_upstream sample_body in
  exists p tr metadata,
    attendance_primary UtcHost.host true up no_parameters [] = (Ok p, tr)
    /\ wants_count (p_skip p) = true
    /\ answer (attendance_route UtcHost.host true up no_parameters)
       = Ok (AttendanceOk (p_attendanceData p) metadata)
    /\ totalCount metadata = Null
    /\ List.length (fetched (attendance_route UtcHost.host true up no_parameters)) = 2%nat.
Proof.
  intros up.
  destruct (attendance_primary UtcHost.host true up no_parameters []) as [res tr] eqn:Hp.
  vm_compute in Hp. inversion Hp as [[Hres Htr]]. clear Hp.
  eexists. eexists.
  match goal with
  | |- exists m, (Ok ?p, ?t) = _ /\ _ =>
      destruct (count_failure_is_recovered UtcHost.host true up no_parameters p t eq_refl)
        as (metadata & cq & Hcq & Ha & Hc & Hf)
  end.
  exists metadata. split; [reflexivity|]. split; [reflexivity|].
  split; [exact Ha|]. split.
  - rewrite Hc. vm_compute in Hcq. inversion Hcq; subst cq. reflexivity.
  - rewrite Hf. vm_compute in Hcq. inversion Hcq; subst cq. reflexivity.
Defined.

(** X8. A failure of the data query fails the request, and stops it:
    when the fetch is rejected, when the upstream reports a failure
    status, or when the body is not JSON, the handler answers status 500
    with that error (for a failure status, "API request failed: " with
    the status and its text) and the count query is not sent, whatever
    [skip] is. *)
Theorem data_query_failure_answers_500 (rt : Runtime) (up : Upstream) (q : Query)
        (filters : list string) (dq : string) :
  route_filters q = Ok filters ->
  attendance_query filters (with_default (q_limit q) (Num 1000))
                   (with_default (q_skip q) (Num 0)) = Ok dq ->
  let run := attendance_route rt true up q in
  (forall e, up [] dq = Rejected e ->
             run [] = (Ok (ServerError e attendance_details), [dq]))
  /\ (forall r, up [] dq = Resolved r -> ok r = false ->
                run [] = (Ok (ServerError (api_request_failed r) attendance_details), [dq]))
  /\ (forall r e, up [] dq = Resolved r -> ok r = true -> json r = Throw e ->
                  run [] = (Ok (ServerError e attendance_details), [dq])).
Proof.
  intros Hf Hq run. subst run.
  unfold attendance_route, attendance_primary, io_try, io_bind, io_lift, io_ret,
    io_throw, fetch.
  simpl checkFetch. cbv beta iota. rewrite Hf, Hq.
  split; [|split].
  - intros e Hup. rewrite Hup. reflexivity.
  - intros r Hup Hok. rewrite Hup, Hok. reflexivity.
  - intros r e Hup Hok Hjson. rewrite Hup, Hok, Hjson. reflexivity.
Qed.

Lemma data_query_failure_answers_500_sample :
  exists filters dq,
    route_filters no_parameters = Ok filters
    /\ attendance_query filters (with_default (q_limit no_parameters) (Num 1000))
                        (with_default (q_skip no_parameters) (Num 0)) = Ok dq
    /\ attendance_route UtcHost.host true (failing_upstream Null) no_parameters []
       = (Ok (ServerError (Error "API request failed: 503 Service Unavailable")
                          attendance_details), [dq])
    /\ attendance_route UtcHost.host true unreachable_upstream no_parameters []
       = (Ok (ServerError (Error "connect ECONNREFUSED") attendance_details), [dq]).
Proof.
  eexists. eexists. split; [reflexivity|]. split; [reflexivity|]. split.
  - exact (proj1 (proj2 (data_query_failure_answers_500 UtcHost.host
                            (failing_upstream Null) no_parameters _ _ eq_refl eq_refl))
             {| ok := false; status := 503; statusText := "Service Unavailable";
                json := Ok Null |} eq_refl eq_refl).
  - exact (proj1 (data_query_failure_answers_500 UtcHost.host
                     unreachable_upstream no_parameters _ _ eq_refl eq_refl)
             (Error "connect ECONNREFUSED") eq_refl).
Defined.

Lemma attendance_route_success (rt : Runtime) (loaded : bool) (up : Upstream) (q : Query)
      (data : list AttendanceRecord) (metadata : Metadata) :
  answer (attendance_route rt loaded up q) = Ok (AttendanceOk data metadata) ->
  exists p tr count,
    attendance_primary rt loaded up q [] = (Ok p, tr)
    /\ attendance_body rt p count = Ok (AttendanceOk data metadata).
Proof.
  unfold answer, attendance_route, io_try, io_bind.
  destruct (attendance_primary rt loaded up q []) as [[p|e] tr] eqn:Hp;
    [|unfold io_ret; simpl; intros H; discriminate].
  intros H. exists p, tr.
  destruct (wants_count (p_skip p)).
  - destruct (fetch_total_count_run up (p_filters p) tr) as (v & cq & _ & Hc).
    rewrite Hc in H. unfold io_lift, io_ret in H. exists v.
    destruct (attendance_body rt p v); simpl in H; [|discriminate].
    split; [reflexivity|]. now inversion H.
  - unfold io_lift, io_ret in H. exists Null.
    destruct (attendance_body rt p Null); simpl in H; [|discriminate].
    split; [reflexivity|]. now inversion H.
Qed.

(** X9. The metadata of a success response agree with its data and with
    the upstream body: [totalRegistrations] is the number of records in
    [data]; when the body's [value] is an array, [totalActivities] is its
    length and [data] has one record for each of its actors with a
    person; when the body has no (or a falsy) [value], [data] is empty and
    [totalActivities] is 0. *)
Theorem attendance_metadata_consistent (rt : Runtime) (loaded : bool) (up : Upstream)
        (q : Query) (data : list AttendanceRecord) (metadata : Metadata) :
  answer (attendance_route rt loaded up q) = Ok (AttendanceOk data metadata) ->
  totalRegistrations metadata = List.length data
  /\ exists filters dq r body,
      route_filters q = Ok filters
      /\ attendance_query filters (with_default (q_limit q) (Num 1000))
                          (with_default (q_skip q) (Num 0)) = Ok dq
      /\ up [] dq = Resolved r /\ ok r = true /\ json r = Ok body
      /\ processAttendanceData rt (or_else (field "value" body) (Arr [])) = Ok data
      /\ (forall acts, field "value" body = Arr acts ->
                       totalActivities metadata = Num (Z.of_nat (List.length acts))
                       /\ List.length data = attendance_pairs acts)
      /\ (truthy (field "value" body) = false ->
          data = [] /\ totalActivities metadata = Num 0).
Proof.
  intros Ha.
  apply attendance_route_success in Ha as (p & tr & count & Hp & Hbody).
  destruct (attendance_body_total rt loaded up q [] tr p count Hp)
    as (metadata' & len & Hb & _ & Hreg & Hlen & Htot).
  rewrite Hb in Hbody. inversion Hbody; subst data metadata'; clear Hbody.
  split; [exact Hreg|].
  apply attendance_primary_ok in Hp
    as (_ & dq & r & Hf & Hl & Hs & Hq & Hup & Hok & Hjson & _ & Hrows & _ & _).
  rewrite Hl, Hs in Hq.
  exists (p_filters p), dq, r, (p_data p).
  repeat (split; [assumption|]). split.
  - intros acts Hv. rewrite Hv in Hlen, Hrows. simpl in Hlen.
    inversion Hlen; subst len. split.
    + rewrite Htot. unfold or_else. simpl.
      destruct (Z.of_nat (List.length acts) =? 0)%Z eqn:E; simpl; [|reflexivity].
      apply Z.eqb_eq in E. now rewrite E.
    + unfold or_else in Hrows. simpl in Hrows.
      apply processAttendanceData_rows in Hrows as (acts' & n & Heq & Hr).
      inversion Heq; subst acts'. now apply (activity_rows_length rt acts _ n).
  - intros Hv. unfold or_else in Hrows. rewrite Hv in Hrows.
    split; [vm_compute in Hrows; now inversion Hrows|].
    rewrite Htot.
    destruct (field "value" (p_data p)) as [| |b|z|s| |]; simpl in Hv, Hlen;
      try discriminate; inversion Hlen; subst len; try reflexivity.
    apply negb_false_iff, String.eqb_eq in Hv. subst s. reflexivity.
Qed.

Lemma attendance_metadata_consistent_sample :
  exists data metadata,
    answer (attendance_route UtcHost.host true (constant_upstream sample_body) second_page)
    = Ok (AttendanceOk data metadata)
    /\ totalRegistrations metadata = List.length data
    /\ totalActivities metadata = Num 2.
Proof.
  eexists. eexists.
  match goal with
  | |- ?a = Ok (AttendanceOk ?d ?m) /\ _ =>
      assert (Ha : a = Ok (AttendanceOk d m)) by reflexivity
  end.
  split; [exact Ha|].
  destruct (attendance_metadata_consistent _ _ _ _ _ _ Ha)
    as (Hreg & filters & dq & r & body & _ & _ & _ & _ & _ & _ & _ & _).
  split; [exact Hreg | reflexivity].
Defined.

(** ** The diagnostic block *)

Lemma to_string_or_else_primitive (a b : value) :
  is_primitive a = true -> is_primitive b = true -> exists s, to_string (or_else a b) = Ok s.
Proof.
  intros Ha Hb. unfold or_else. destruct (truthy a); now apply to_string_primitive.
Qed.

Lemma debug_activity_total (rt : Runtime) (a : value) :
  is_Activity a = true -> debug_activity rt tt a = Ok tt.
Proof.
  intros H. apply is_Activity_inv in H as (Hobj & Hprim & Hcoll).
  apply is_object_inv in Hobj as [ps ->].
  unfold debug_activity. rewrite !get_object, date_field_object.
  cbv beta delta [bind] iota.
  assert (Hid : is_primitive (field "Id" (Obj ps)) = true) by prim_field Hprim "Id".
  assert (Ho : is_primitive (field "Onderwerp" (Obj ps)) = true)
    by prim_field Hprim "Onderwerp".
  assert (Ha : is_primitive (field "Aanvangstijd" (Obj ps)) = true)
    by prim_field Hprim "Aanvangstijd".
  assert (Hd : is_primitive (field "Datum" (Obj ps)) = true) by prim_field Hprim "Datum".
  destruct (to_string_primitive _ Hid) as [s1 ->], (to_string_primitive _ Ho) as [s2 ->],
           (to_string_or_else_primitive _ _ Ha Hd) as [s3 ->].
  cbv beta iota.
  destruct (field "ActiviteitActor" (Obj ps)) as [| | | | |items|]; try discriminate;
    reflexivity.
Qed.

Lemma forEach_debug_total (rt : Runtime) (l : list value) :
  forallb is_Activity l = true -> forEach (debug_activity rt) l tt = Ok tt.
Proof.
  induction l as [|a l IH]; intros H; [reflexivity|].
  simpl in H. apply andb_true_iff in H as [Ha Hl].
  rewrite forEach_cons, (debug_activity_total rt a Ha). simpl. now apply IH.
Qed.

Lemma forallb_firstn {A} (f : A -> bool) (n : nat) (l : list A) :
  forallb f l = true -> forallb f (firstn n l) = true.
Proof.
  revert l. induction n as [|n IH]; intros [|x l] H; simpl; try reflexivity.
  simpl in H. apply andb_true_iff in H as [Hx Hl]. rewrite Hx. now apply IH.
Qed.

(** The block that logs the first activities does not throw on a body
    whose [value] is an array of activities of the data model. *)
Lemma debug_block_total (rt : Runtime) (body : value) (acts : list value) :
  is_nullish body = false -> field "value" body = Arr acts ->
  forallb is_Activity acts = true -> debug_block rt body = Ok tt.
Proof.
  intros Hb Hv Hall. unfold debug_block.
  rewrite (get_defined body "value" Hb) by discriminate. rewrite Hv.
  cbv beta delta [bind] iota. cbn [truthy get String.eqb Ascii.eqb Bool.eqb exceeds_zero].
  destruct (0 <? Z.of_nat (List.length acts))%Z; [|reflexivity].
  cbn [to_string slice_0_3 array_items]. cbv beta iota.
  apply forEach_debug_total, forallb_firstn, Hall.
Qed.

Lemma plain_query_filters (q : Query) :
  plain_query q = true -> exists filters, route_filters q = Ok filters.
Proof.
  unfold plain_query. rewrite !andb_true_iff. intros ((((H1 & H2) & H3) & _) & _).
  unfold route_filters.
  assert (Hs : forall v, is_query_text v = true -> exists s, to_string v = Ok s)
    by (intros v Hv; destruct v; try discriminate; simpl; eauto).
  destruct (Hs _ H1) as [s1 E1], (Hs _ H2) as [s2 E2], (Hs _ H3) as [s3 E3].
  rewrite E1, E2, E3.
  destruct (truthy (q_dateFrom q)), (truthy (q_dateTo q)), (truthy (q_activityType q));
    simpl; eauto.
Qed.

Lemma plain_query_builds (q : Query) :
  plain_query q = true ->
  exists filters dq,
    route_filters q = Ok filters
    /\ attendance_query filters (with_default (q_limit q) (Num 1000))
                        (with_default (q_skip q) (Num 0)) = Ok dq.
Proof.
  intros H. destruct (plain_query_filters q H) as [filters Hf].
  exists filters. unfold plain_query in H. rewrite !andb_true_iff in H.
  destruct H as ((_ & Hl) & Hs).
  unfold attendance_query.
  rewrite buildQuery_closed_form by (simpl; repeat constructor; simpl; intuition discriminate).
  destruct (q_limit q); try discriminate; destruct (q_skip q); try discriminate;
    simpl; eauto.
Qed.

(** X10. End to end: with the fetch module loaded and request parameters
    that are texts or absent, the handler builds its data query, and when
    the upstream answers it with a success status and a body whose
    [value] is an array of activities of the data model, the handler
    answers success with exactly the records the flattener gives for that
    array. *)
Theorem attendance_route_succeeds (rt : Runtime) (up : Upstream) (q : Query) :
  plain_query q = true ->
  exists filters dq,
    route_filters q = Ok filters
    /\ attendance_query filters (with_default (q_limit q) (Num 1000))
                        (with_default (q_skip q) (Num 0)) = Ok dq
    /\ forall r body acts,
        up [] dq = Resolved r -> ok r = true -> json r = Ok body ->
        is_nullish body = false -> field "value" body = Arr acts ->
        forallb is_Activity acts = true ->
        exists out metadata,
          processAttendanceData rt (Arr acts) = Ok out
          /\ answer (attendance_route rt true up q) = Ok (AttendanceOk out metadata).
Proof.
  intros Hplain. destruct (plain_query_builds q Hplain) as (filters & dq & Hf & Hq).
  exists filters, dq. split; [assumption|]. split; [assumption|].
  intros r body acts Hup Hok Hjson Hb Hv Hall.
  destruct (processAttendanceData_run_total rt acts Hall) as [st Hst].
  assert (Hout : processAttendanceData rt (Arr acts) = Ok (attendanceData st))
    by (unfold processAttendanceData; now rewrite Hst).
  exists (attendanceData st).
  assert (Hp : attendance_primary rt true up q []
               = (Ok {| p_filters := filters;
                        p_limit := with_default (q_limit q) (Num 1000);
                        p_skip := with_default (q_skip q) (Num 0);
                        p_data := body;
                        p_attendanceData := attendanceData st |}, push [] dq)).
  { unfold attendance_primary, io_bind, io_lift, io_ret, io_throw, fetch.
    simpl checkFetch. cbv beta iota. rewrite Hf, Hq, Hup, Hok, Hjson. cbn [negb].
    rewrite (debug_block_total rt body acts Hb Hv Hall).
    rewrite (get_defined body "value" Hb) by discriminate. rewrite Hv.
    change (or_else (Arr acts) (Arr [])) with (Arr acts). rewrite Hout. reflexivity. }
  unfold answer, attendance_route, io_try, io_bind. rewrite Hp.
  cbn [p_skip p_filters].
  destruct (wants_count (with_default (q_skip q) (Num 0))).
  - destruct (fetch_total_count_run up filters (push [] dq)) as (v & cq & _ & Hc).
    rewrite Hc.
    destruct (attendance_body_total rt true up q [] _ _ v Hp) as (metadata & len & Hbody & _).
    unfold io_lift. rewrite Hbody. exists metadata. split; [assumption | reflexivity].
  - unfold io_ret, io_lift.
    destruct (attendance_body_total rt true up q [] _ _ Null Hp)
      as (metadata & len & Hbody & _).
    rewrite Hbody. exists metadata. split; [assumption | reflexivity].
Qed.

Lemma attendance_route_succeeds_sample :
  plain_query second_page = true
  /\ exists out metadata,
      processAttendanceData UtcHost.host (Arr [sample_activity; empty_activity]) = Ok out
      /\ answer (attendance_route UtcHost.host true (constant_upstream sample_body)
                                  second_page)
         = Ok (AttendanceOk out metadata).
Proof.
  split; [reflexivity|].
  destruct (attendance_route_succeeds UtcHost.host (constant_upstream sample_body)
              second_page eq_refl) as (filters & dq & _ & _ & Hrun).
  exact (Hrun {| ok := true; status := 200; statusText := "OK"; json := Ok sample_body |}
              sample_body [sample_activity; empty_activity]
              eq_refl eq_refl eq_refl eq_refl eq_refl eq_refl).
Defined.

(** ** The statistics handler *)

Lemma stats_route_same_bodies (rt : Runtime) (loaded : bool) (up up' : Upstream) (q : Query) :
  same_bodies up up' ->
  stats_route rt loaded up q [] = stats_route rt loaded up' q [].
Proof.
  intros Hsame.
  unfold stats_route, io_try, io_bind, io_lift, io_ret, fetch.
  destruct (checkFetch loaded) as [[]|e]; [|reflexivity].
  destruct (route_filters q) as [filters|e]; [|reflexivity].
  destruct (stats_count_query filters) as [u1|e]; [|reflexivity].
  pose proof (Hsame [] u1) as H1.
  destruct (up [] u1) as [e1|r1], (up' [] u1) as [e1'|r1']; try contradiction;
    [now subst e1'|].
  rewrite <- H1. destruct (json r1) as [d1|e]; [|reflexivity].
  destruct (stats_sample_query filters) as [u2|e]; [|reflexivity].
  pose proof (Hsame (push [] u1) u2) as H2.
  destruct (up (push [] u1) u2) as [e2|r2], (up' (push [] u1) u2) as [e2'|r2'];
    try contradiction; [now subst e2'|].
  rewrite <- H2. reflexivity.
Qed.

(** X11. The statistics handler does not look at the status of the
    upstream responses: two upstreams that send the same bodies give the
    same answer and the same two queries, whatever [ok], [status] and
    [statusText] they report.  (The attendance handler, which tests [ok],
    tells them apart.) *)
Theorem stats_ignore_response_status (rt : Runtime) (loaded : bool) (up up' : Upstream)
        (q : Query) :
  same_bodies up up' ->
  answer (stats_route rt loaded up q) = answer (stats_route rt loaded up' q)
  /\ fetched (stats_route rt loaded up q) = fetched (stats_route rt loaded up' q).
Proof.
  intros Hsame. unfold answer, fetched.
  now rewrite (stats_route_same_bodies rt loaded up up' q Hsame).
Qed.

Lemma stats_ignore_response_status_sample :
  same_bodies (constant_upstream sample_body) (failing_upstream sample_body)
  /\ answer (stats_route UtcHost.host true (failing_upstream sample_body) no_parameters)
     = answer (stats_route UtcHost.host true (constant_upstream sample_body) no_parameters)
  /\ (exists stats,
         answer (stats_route UtcHost.host true (failing_upstream sample_body) no_parameters)
         = Ok (StatsOk stats))
  /\ (exists e d,
         answer (attendance_route UtcHost.host true (failing_upstream sample_body)
                                  no_parameters)
         = Ok (ServerError e d)).
Proof.
  assert (Hsame : same_bodies (constant_upstream sample_body) (failing_upstream sample_body))
    by (intros trace url; reflexivity).
  split; [exact Hsame|]. split.
  - symmetry.
    exact (proj1 (stats_ignore_response_status UtcHost.host true _ _ no_parameters Hsame)).
  - split; eexists; [|eexists]; reflexivity.
Defined.

Lemma distinct_count_bound (seen l : list value) : (distinct_count seen l <= List.length l)%nat.
Proof.
  revert seen. induction l as [|x l IH]; intros seen; simpl; [lia|].
  destruct x; try (destruct (existsb _ seen));
    first [ specialize (IH seen); lia | specialize (IH (Undefined :: seen)); lia
          | specialize (IH (Null :: seen)); lia | idtac ];
    match goal with
    | |- context [distinct_count ?s l] => specialize (IH s); lia
    end.
Qed.

Lemma distinct_count_positive (l : list value) :
  l <> [] -> (0 < distinct_count [] l)%nat.
Proof.
  destruct l as [|x l]; [contradiction|]. intros _. simpl.
  destruct x; simpl; lia.
Qed.

Lemma stats_route_success (rt : Runtime) (loaded : bool) (up : Upstream) (q : Query)
      (stats : Stats) :
  answer (stats_route rt loaded up q) = Ok (StatsOk stats) ->
  exists sample : list AttendanceRecord,
    sampleRegistrations stats = List.length sample
    /\ uniquePeopleInSample stats = distinct_count [] (map personId sample)
    /\ uniqueFractionsInSample stats = distinct_count [] (map fraction sample).
Proof.
  unfold answer, stats_route, io_try, io_bind, io_lift, io_ret, fetch.
  destruct (checkFetch loaded) as [[]|e]; [|intros H; discriminate].
  destruct (route_filters q) as [filters|e]; [|intros H; discriminate].
  destruct (stats_count_query filters) as [u1|e]; [|intros H; discriminate].
  destruct (up [] u1) as [e|r1]; [intros H; discriminate|].
  destruct (json r1) as [d1|e]; [|intros H; discriminate].
  destruct (stats_sample_query filters) as [u2|e]; [|intros H; discriminate].
  destruct (up (push [] u1) u2) as [e|r2]; [intros H; discriminate|].
  destruct (json r2) as [d2|e]; [|intros H; discriminate].
  destruct (get d2 "value") as [v|e]; [|intros H; discriminate].
  destruct (processAttendanceData rt (or_else v (Arr []))) as [sample|e];
    [|intros H; discriminate].
  destruct (get d1 "@odata.count") as [count|e]; [|intros H; discriminate].
  simpl. intros H. inversion H; subst stats. exists sample. repeat split.
Qed.

(** X12. In every answer of the statistics handler the two distinct
    counts are bounded by the number of sampled registrations, and they
    are zero exactly when there is no registration. *)
Theorem stats_counts_bounded (rt : Runtime) (loaded : bool) (up : Upstream) (q : Query)
        (stats : Stats) :
  answer (stats_route rt loaded up q) = Ok (StatsOk stats) ->
  (uniquePeopleInSample stats <= sampleRegistrations stats)%nat
  /\ (uniqueFractionsInSample stats <= sampleRegistrations stats)%nat
  /\ (sampleRegistrations stats = 0%nat <-> uniquePeopleInSample stats = 0%nat)
  /\ (sampleRegistrations stats = 0%nat <-> uniqueFractionsInSample stats = 0%nat).
Proof.
  intros H. apply stats_route_success in H as (sample & -> & -> & ->).
  pose proof (distinct_count_bound [] (map personId sample)) as B1.
  pose proof (distinct_count_bound [] (map fraction sample)) as B2.
  rewrite length_map in B1, B2.
  split; [exact B1|]. split; [exact B2|].
  destruct sample as [|r sample].
  - simpl. tauto.
  - pose proof (distinct_count_positive (map personId (r :: sample))) as P1.
    pose proof (distinct_count_positive (map fraction (r :: sample))) as P2.
    simpl List.length. split; split; intros E; try discriminate;
      first [ specialize (P1 ltac:(discriminate)); lia
            | specialize (P2 ltac:(discriminate)); lia ].
Qed.

Lemma stats_counts_bounded_sample :
  exists stats,
    answer (stats_route UtcHost.host true (constant_upstream sample_body) no_parameters)
    = Ok (StatsOk stats)
    /\ (uniquePeopleInSample stats <= sampleRegistrations stats)%nat
    /\ sampleRegistrations stats = 2%nat.
Proof.
  eexists.
  match goal with
  | |- ?a = Ok (StatsOk ?s) /\ _ => assert (Ha : a = Ok (StatsOk s)) by reflexivity
  end.
  split; [exact Ha|].
  split; [exact (proj1 (stats_counts_bounded _ _ _ _ _ Ha)) | reflexivity].
Defined.

(** ** The single-activity handler *)

(** X13. With the fetch module loaded the single-activity handler sends
    exactly one query, for the activity addressed by its key, and it
    answers success exactly when the upstream reports success with a JSON
    body: the data of the answer is that body as it came, not flattened.
    A failure status is answered with status 500 and "API request
    failed: " with the status and its text. *)
Theorem activity_route_passes_body_through (up : Upstream) (id : string) :
  let url := BASE_API_URL ++ "/Activiteit/" ++ id
             ++ "?$expand=ActiviteitActor($expand=Persoon,Fractie)&$format=json" in
  let run := activity_route true up id in
  fetched run = [url]
  /\ (forall data,
        answer run = Ok (ActivityOk data) <->
        exists r, up [] url = Resolved r /\ ok r = true /\ json r = Ok data)
  /\ (forall r, up [] url = Resolved r -> ok r = false ->
                answer run = Ok (ServerError (api_request_failed r) None)).
Proof.
  intros url run. subst run.
  unfold fetched, answer, activity_route, io_try, io_bind, io_lift, io_ret, io_throw, fetch.
  simpl checkFetch. cbv beta iota. rewrite activity_query_url. fold url.
  destruct (up [] url) as [e|r] eqn:Hup.
  - split; [reflexivity|]. split.
    + intros data. split; [intros H; discriminate | intros (r & Hr & _); discriminate].
    + intros r Hr. discriminate.
  - destruct (ok r) eqn:Hok; cbn [negb].
    + destruct (json r) as [d|e] eqn:Hjson; simpl.
      * split; [reflexivity|]. split.
        -- intros data. split.
           ++ intros H. inversion H; subst. exists r. auto.
           ++ intros (r' & Hr & _ & Hj). inversion Hr; subst r'.
              rewrite Hjson in Hj. now inversion Hj.
        -- intros r' Hr Hok'. inversion Hr; subst r'. congruence.
      * split; [reflexivity|]. split.
        -- intros data. split; [intros H; discriminate|].
           intros (r' & Hr & _ & Hj). inversion Hr; subst r'. congruence.
        -- intros r' Hr Hok'. inversion Hr; subst r'. congruence.
    + simpl. split; [reflexivity|]. split.
      * intros data. split; [intros H; discriminate|].
        intros (r' & Hr & Hok' & _). inversion Hr; subst r'. congruence.
      * intros r' Hr _. inversion Hr; subst r'. reflexivity.
Qed.

Lemma activity_route_passes_body_through_sample :
  let up := failing_upstream Null in
  let url := BASE_API_URL ++ "/Activiteit/" ++ "a1"
             ++ "?$expand=ActiviteitActor($expand=Persoon,Fractie)&$format=json" in
  up [] url = Resolved {| ok := false; status := 503; statusText := "Service Unavailable";
                          json := Ok Null |}
  /\ answer (activity_route true up "a1")
     = Ok (ServerError (Error "API request failed: 503 Service Unavailable") None)
  /\ answer (activity_route true (constant_upstream sample_activity) "a1")
     = Ok (ActivityOk sample_activity).
Proof.
  intros up url. split; [reflexivity|]. split.
  - exact (proj2 (proj2 (activity_route_passes_body_through up "a1")) _ eq_refl eq_refl).
  - apply (proj1 (proj2 (activity_route_passes_body_through
                           (constant_upstream sample_activity) "a1"))).
    eexists. split; [reflexivity|]. split; reflexivity.
Defined.

(** ** Reading a query back *)

Lemma split_on_nonempty (c : ascii) (s : string) : split_on c s <> [].
Proof.
  induction s as [|a s IH]; simpl; [discriminate|].
  destruct (Ascii.eqb a c); [discriminate|].
  destruct (split_on c s); discriminate.
Qed.

Lemma split_on_append (c : ascii) (a b : string) :
  split_on c (a ++ String c b) = (split_on c a ++ split_on c b)%list.
Proof.
  induction a as [|x a IH]; simpl.
  - now rewrite Ascii.eqb_refl.
  - destruct (Ascii.eqb x c); [now rewrite IH|].
    rewrite IH. pose proof (split_on_nonempty c a) as Hne.
    destruct (split_on c a); [contradiction | reflexivity].
Qed.

Lemma split_on_concat (c : ascii) (l : list string) :
  l <> [] ->
  split_on c (String.concat (String c "") l) = flat_map (split_on c) l.
Proof.
  induction l as [|x l IH]; intros Hne; [contradiction|].
  destruct l as [|y l].
  - simpl. now rewrite app_nil_r.
  - change (String.concat (String c "") (x :: y :: l))
      with (x ++ String c (String.concat (String c "") (y :: l))).
    rewrite split_on_append, IH by discriminate. reflexivity.
Qed.

Lemma split_on_length (c : ascii) (s : string) :
  List.length (split_on c s) = S (count_char c s).
Proof.
  induction s as [|a s IH]; simpl; [reflexivity|].
  destruct (Ascii.eqb a c); simpl; [now rewrite IH|].
  pose proof (split_on_nonempty c s) as Hne.
  destruct (split_on c s); [contradiction|]. simpl in *. lia.
Qed.

Lemma split_on_absent (c : ascii) (s : string) :
  count_char c s = 0%nat -> split_on c s = [s].
Proof.
  induction s as [|a s IH]; simpl; [reflexivity|].
  destruct (Ascii.eqb a c); simpl; [discriminate|].
  intros H. now rewrite (IH H).
Qed.

Lemma after_first_append (c : ascii) (a b : string) :
  count_char c a = 0%nat -> after_first c (a ++ String c b) = b.
Proof.
  induction a as [|x a IH]; simpl.
  - now rewrite Ascii.eqb_refl.
  - destruct (Ascii.eqb x c); simpl; [discriminate | exact IH].
Qed.

Lemma count_char_append (c : ascii) (a b : string) :
  count_char c (a ++ b) = (count_char c a + count_char c b)%nat.
Proof. induction a as [|x a IH]; simpl; [reflexivity | rewrite IH; lia]. Qed.

Lemma buildQuery_of_params (endpoint : string) (filters expands : list string)
      (options : list (string * value)) (params : list string) :
  query_params filters expands options = Ok params ->
  params <> []
  /\ buildQuery endpoint filters expands options
     = Ok (BASE_API_URL ++ "/" ++ endpoint ++ "?" ++ String.concat "&" params).
Proof.
  intros H. unfold buildQuery. rewrite H. cbv beta delta [bind] iota.
  destruct (query_params_last _ _ _ _ H) as [front ->].
  split; [intros Hnil; apply app_eq_nil in Hnil as [_ Hnil]; discriminate|].
  replace (0 <? List.length (front ++ ["$format=json"]))%nat with true
    by (rewrite length_app; simpl; symmetry; apply Nat.ltb_lt; lia).
  reflexivity.
Qed.

Lemma url_parameters_of_params (endpoint : string) (params : list string) :
  count_char "?" endpoint = 0%nat -> params <> [] ->
  url_parameters (BASE_API_URL ++ "/" ++ endpoint ++ "?" ++ String.concat "&" params)
  = flat_map (split_on "&") params.
Proof.
  intros He Hne. unfold url_parameters.
  replace (BASE_API_URL ++ "/" ++ endpoint ++ "?" ++ String.concat "&" params)
    with ((BASE_API_URL ++ "/" ++ endpoint) ++ String "?" (String.concat "&" params))
    by (rewrite !append_assoc; reflexivity).
  rewrite after_first_append.
  - now apply split_on_concat.
  - rewrite !count_char_append, He. reflexivity.
Qed.

(** X14. Reading a built URL back gives the clauses that were put in:
    when the endpoint has no ['?'] and no clause contains ['&'], the
    parameters after the ['?'], cut at every ['&'], are exactly the
    clauses [buildQuery] pushed, in order. *)
Theorem url_parameters_round_trip (endpoint : string) (filters expands : list string)
        (options : list (string * value)) (params : list string) :
  query_params filters expands options = Ok params ->
  count_char "?" endpoint = 0%nat ->
  Forall (fun p => count_char "&" p = 0%nat) params ->
  exists url,
    buildQuery endpoint filters expands options = Ok url
    /\ url_parameters url = params.
Proof.
  intros Hp He Hamp.
  destruct (buildQuery_of_params endpoint _ _ _ _ Hp) as [Hne Hurl].
  eexists. split; [exact Hurl|].
  rewrite (url_parameters_of_params endpoint params He Hne).
  clear -Hamp. induction Hamp as [|p params Hp _ IH]; simpl; [reflexivity|].
  now rewrite (split_on_absent _ _ Hp), IH.
Qed.

Lemma url_parameters_round_trip_sample :
  let params := ["$filter=verwijderd eq false"; "$count=true"; "$top=0"; "$format=json"] in
  query_params ["verwijderd eq false"] [] [("count", Str "true"); ("top", Num 0)] = Ok params
  /\ count_char "?" "Activiteit" = 0%nat
  /\ Forall (fun p => count_char "&" p = 0%nat) params
  /\ exists url,
      stats_count_query ["verwijderd eq false"] = Ok url /\ url_parameters url = params.
Proof.
  intros params.
  assert (Hamp : Forall (fun p => count_char "&" p = 0%nat) params)
    by (repeat constructor).
  split; [reflexivity|]. split; [reflexivity|]. split; [exact Hamp|].
  exact (url_parameters_round_trip "Activiteit" ["verwijderd eq false"] []
           [("count", Str "true"); ("top", Num 0)] params eq_refl eq_refl Hamp).
Defined.

(** X15. [buildQuery] does not encode what it is given: every ['&']
    inside a clause cuts that clause in two when the URL is read, so the
    URL carries as many parameters as clauses were pushed plus the number
    of ['&'] characters in them. *)
Theorem ampersands_add_parameters (endpoint : string) (filters expands : list string)
        (options : list (string * value)) (params : list string) :
  query_params filters expands options = Ok params ->
  count_char "?" endpoint = 0%nat ->
  exists url,
    buildQuery endpoint filters expands options = Ok url
    /\ List.length (url_parameters url)
       = (List.length params + list_sum (map (count_char "&") params))%nat.
Proof.
  intros Hp He.
  destruct (buildQuery_of_params endpoint _ _ _ _ Hp) as [Hne Hurl].
  eexists. split; [exact Hurl|].
  rewrite (url_parameters_of_params endpoint params He Hne).
  clear. induction params as [|p params IH]; simpl; [reflexivity|].
  rewrite length_app, split_on_length, IH. lia.
Qed.

Lemma ampersands_add_parameters_sample :
  let q := {| q_dateFrom := Undefined; q_dateTo := Undefined;
              q_activityType := Str "x')&$top=1&$skip=(0"; q_limit := Undefined;
              q_skip := Undefined |} in
  exists filters params url,
    route_filters q = Ok filters
    /\ query_params filters [] [("count", Str "true")] = Ok params
    /\ List.length params = 3%nat
    /\ attendance_count_query filters = Ok url
    /\ List.length (url_parameters url) = 5%nat.
Proof.
  intros q. eexists. eexists.
  match goal with
  | |- exists url, ?f = Ok ?fs /\ ?p = Ok ?ps /\ _ =>
      assert (Hf : f = Ok fs) by reflexivity;
      assert (Hp : p = Ok ps) by reflexivity
  end.
  destruct (ampersands_add_parameters "Activiteit" _ _ _ _ Hp eq_refl)
    as (url & Hurl & Hlen).
  exists url. split; [exact Hf|]. split; [exact Hp|]. split; [reflexivity|].
  split; [exact Hurl|]. rewrite Hlen. reflexivity.
Defined.

(** ** The data query and the count query *)

Lemma attendance_query_url (filters : list string) (limit skip : value) :
  filters <> [] ->
  attendance_query filters limit skip =
  (ops <- mapM option_clause
            (defined_options [("top", limit); ("skip", skip);
                              ("orderby", Str "aanvangstijd desc")]) ;;
   Ok (BASE_API_URL ++ "/Activiteit?" ++
       String.concat "&"
         (("$filter=" ++ String.concat " and " filters)
            :: "$expand=ActiviteitActor($expand=Persoon,Fractie)"
            :: (ops ++ ["$format=json"])%list))).
Proof.
  intros Hne. unfold attendance_query.
  rewrite buildQuery_closed_form by (simpl; repeat constructor; simpl; intuition discriminate).
  destruct filters as [|f rest]; [contradiction|]. reflexivity.
Qed.

Lemma attendance_count_query_url (filters : list string) :
  filters <> [] ->
  attendance_count_query filters =
  Ok (BASE_API_URL ++ "/Activiteit?" ++
      String.concat "&" ["$filter=" ++ String.concat " and " filters;
                         "$count=true"; "$format=json"]).
Proof.
  intros Hne. unfold attendance_count_query.
  rewrite buildQuery_closed_form by (simpl; repeat constructor; simpl; tauto).
  destruct filters as [|f rest]; [contradiction|]. reflexivity.
Qed.

Lemma filter_clause_base (rest : list string) :
  String.prefix ("$filter=" ++ base_filter)
                ("$filter=" ++ String.concat " and " (base_filter :: rest)) = true.
Proof.
  destruct rest as [|f rest].
  - change (String.concat " and " [base_filter]) with base_filter.
    rewrite <- (append_nil_r ("$filter=" ++ base_filter)) at 2.
    apply prefix_append.
  - change (String.concat " and " (base_filter :: f :: rest))
      with (base_filter ++ " and " ++ String.concat " and " (f :: rest)).
    rewrite <- append_assoc. apply prefix_append.
Qed.

(** What a request to the attendance handler comes to: either it fails
    before the records are flattened, having fetched nothing or the data
    query alone, and is answered 500; or it is answered with the records,
    having fetched the data query and, exactly when [skip] is [0] or
    ['0'], the count query after it. *)
Lemma attendance_route_outcome (rt : Runtime) (loaded : bool) (up : Upstream) (q : Query) :
  let limit := with_default (q_limit q) (Num 1000) in
  let skip := with_default (q_skip q) (Num 0) in
  let run := attendance_route rt loaded up q in
  (exists e,
      answer run = Ok (ServerError e attendance_details)
      /\ (fetched run = []
          \/ exists filters dq,
              route_filters q = Ok filters
              /\ attendance_query filters limit skip = Ok dq
              /\ fetched run = [dq]))
  \/ (exists filters dq cq data metadata,
         route_filters q = Ok filters
         /\ attendance_query filters limit skip = Ok dq
         /\ attendance_count_query filters = Ok cq
         /\ answer run = Ok (AttendanceOk data metadata)
         /\ fetched run = (if wants_count skip then [dq; cq] else [dq])
         /\ totalCount metadata
            = (if wants_count skip then count_of_outcome (up [dq] cq) else Null)).
Proof.
  intros limit skip run. subst limit skip run.
  destruct (attendance_primary rt loaded up q []) as [[p|e] tr] eqn:Hp.
  - right.
    pose proof (attendance_primary_ok _ _ _ _ _ _ _ Hp)
      as (_ & dq & r & Hf & Hl & Hs & Hq & _ & _ & _ & _ & _ & _ & Htr).
    destruct (attendance_count_query_total (p_filters p)) as [cq Hcq].
    rewrite Hl, Hs in Hq. change (push [] dq) with [dq] in Htr. subst tr.
    unfold answer, fetched, attendance_route, io_try, io_bind. rewrite Hp, Hs.
    destruct (wants_count (with_default (q_skip q) (Num 0))).
    + rewrite (fetch_total_count_outcome up _ [dq] cq Hcq).
      destruct (attendance_body_total rt loaded up q [] [dq] p
                  (count_of_outcome (up [dq] cq)) Hp) as (metadata & len & Hb & Hc & _).
      unfold io_lift. rewrite Hb.
      exists (p_filters p), dq, cq, (p_attendanceData p), metadata. simpl. auto 10.
    + unfold io_ret, io_lift.
      destruct (attendance_body_total rt loaded up q [] [dq] p Null Hp)
        as (metadata & len & Hb & Hc & _).
      rewrite Hb.
      exists (p_filters p), dq, cq, (p_attendanceData p), metadata. simpl. auto 10.
  - left. exists e.
    unfold answer, fetched, attendance_route, io_try, io_bind. rewrite Hp.
    unfold io_ret. simpl. split; [reflexivity|].
    destruct (attendance_primary_run rt loaded up q [])
      as [[e' He']|(filters & dq & res & Hf & Hq & Hrun & _)].
    + rewrite He' in Hp. inversion Hp. now left.
    + rewrite Hrun in Hp. inversion Hp. right. exists filters, dq. auto.
Qed.

Lemma attendance_count_query_flat (filters : list string) :
  filters <> [] ->
  attendance_count_query filters =
  Ok (BASE_API_URL ++ "/Activiteit?$filter=" ++ String.concat " and " filters
      ++ "&$count=true&$format=json").
Proof.
  intros Hne. rewrite (attendance_count_query_url filters Hne). reflexivity.
Qed.

(** C8 (as amended). The attendance handler fetches the count query
    exactly when the request's [skip] is 0, that is absent, the number 0
    or the text "0", and the data query has succeeded, so that the
    handler answers with the records.  It fetches at most two queries:
    the first is the data query, and the second, when there is one, is
    the count query, built from the filters of the request with
    [$count=true] and nothing else.  With any other [skip] it fetches at
    most the data query and a success response carries
    [totalCount = null].  A request that is not answered with the
    records is answered 500. *)
Theorem count_query_iff_skip_zero (rt : Runtime) (loaded : bool) (up : Upstream) (q : Query) :
  let limit := with_default (q_limit q) (Num 1000) in
  let skip := with_default (q_skip q) (Num 0) in
  let run := attendance_route rt loaded up q in
  (wants_count skip = true <->
   q_skip q = Undefined \/ q_skip q = Num 0 \/ q_skip q = Str "0")
  /\ (List.length (fetched run) <= 2)%nat
  /\ (forall dq, nth_error (fetched run) 0 = Some dq ->
                 exists filters, route_filters q = Ok filters
                                 /\ attendance_query filters limit skip = Ok dq)
  /\ ((exists cq, nth_error (fetched run) 1 = Some cq) <->
      wants_count skip = true
      /\ exists data metadata, answer run = Ok (AttendanceOk data metadata))
  /\ (forall cq, nth_error (fetched run) 1 = Some cq ->
                 exists filters,
                   route_filters q = Ok filters
                   /\ attendance_count_query filters = Ok cq
                   /\ cq = BASE_API_URL ++ "/Activiteit?$filter="
                           ++ String.concat " and " filters
                           ++ "&$count=true&$format=json")
  /\ (wants_count skip = false ->
      (List.length (fetched run) <= 1)%nat
      /\ forall data metadata,
          answer run = Ok (AttendanceOk data metadata) -> totalCount metadata = Null)
  /\ ((exists e, answer run = Ok (ServerError e attendance_details))
      \/ exists data metadata, answer run = Ok (AttendanceOk data metadata)).
Proof.
  intros limit skip run.
  split; [apply wants_count_iff|].
  pose proof (attendance_route_outcome rt loaded up q) as Hout. cbv zeta in Hout.
  fold limit skip run in Hout.
  destruct Hout
    as [(e & Ha & [Ht|(filters & dq & Hf & Hq & Ht)])
       |(filters & dq & cq & data & metadata & Hf & Hq & Hcq & Ha & Ht & Hc)].
  - rewrite Ht, Ha.
    split; [simpl; lia|]. split; [intros dq H; discriminate|].
    split; [split; [intros [cq H]; discriminate
                   |intros (_ & d & m & H); discriminate]|].
    split; [intros cq H; discriminate|].
    split; [intros _; split; [simpl; lia | intros d m H; discriminate]|].
    left. eexists. reflexivity.
  - rewrite Ht, Ha.
    split; [simpl; lia|].
    split; [intros dq' H; inversion H; subst dq'; eauto|].
    split; [split; [intros [cq H]; discriminate
                   |intros (_ & d & m & H); discriminate]|].
    split; [intros cq H; discriminate|].
    split; [intros _; split; [simpl; lia | intros d m H; discriminate]|].
    left. eexists. reflexivity.
  - rewrite Ha. destruct (wants_count skip) eqn:Hw; rewrite Ht.
    + split; [simpl; lia|].
      split; [intros dq' H; inversion H; subst dq'; eauto|].
      split; [split; [intros _; split; [reflexivity | do 2 eexists; reflexivity]
                     |intros _; eexists; reflexivity]|].
      split.
      { intros cq' H. inversion H; subst cq'. exists filters.
        split; [assumption|]. split; [assumption|].
        destruct (route_filters_base q filters Hf) as [rest ->].
        rewrite attendance_count_query_flat in Hcq by discriminate.
        now inversion Hcq. }
      split; [intros H; discriminate|]. right. do 2 eexists. reflexivity.
    + split; [simpl; lia|].
      split; [intros dq' H; inversion H; subst dq'; eauto|].
      split; [split; [intros [cq' H]; discriminate | intros [H _]; discriminate]|].
      split; [intros cq' H; discriminate|].
      split; [|right; do 2 eexists; reflexivity].
      intros _. split; [simpl; lia|]. intros d m H. inversion H; subst d m. exact Hc.
Qed.

Lemma count_query_iff_skip_zero_sample :
  let up := constant_upstream sample_body in
  let first_page := attendance_route UtcHost.host true up no_parameters in
  let later_page := attendance_route UtcHost.host true up second_page in
  let cq := BASE_API_URL ++ "/Activiteit?$filter=verwijderd eq false&$count=true&$format=json" in
  wants_count (with_default (q_skip second_page) (Num 0)) = false
  /\ (List.length (fetched later_page) <= 1)%nat
  /\ (exists data metadata,
         answer later_page = Ok (AttendanceOk data metadata)
         /\ totalCount metadata = Null)
  /\ nth_error (fetched first_page) 1 = Some cq
  /\ wants_count (with_default (q_skip no_parameters) (Num 0)) = true
  /\ (exists data metadata, answer first_page = Ok (AttendanceOk data metadata))
  /\ attendance_count_query [base_filter] = Ok cq.
Proof.
  intros up first_page later_page cq.
  destruct (count_query_iff_skip_zero UtcHost.host true up second_page)
    as (_ & _ & _ & _ & _ & Hno & _).
  destruct (count_query_iff_skip_zero UtcHost.host true up no_parameters)
    as (_ & _ & _ & Hiff & Hcq & _ & _).
  assert (H1 : nth_error (fetched first_page) 1 = Some cq) by reflexivity.
  split; [reflexivity|].
  destruct (Hno eq_refl) as [Hlen Hnull].
  split; [exact Hlen|]. split.
  { eexists. eexists. split; [reflexivity|]. eapply Hnull. reflexivity. }
  split; [exact H1|].
  destruct (proj1 Hiff (ex_intro _ cq H1)) as [Hw Hok].
  split; [exact Hw|]. split; [exact Hok|].
  destruct (Hcq cq H1) as (filters & Hf & Hbuilt & _).
  vm_compute in Hf. inversion Hf; subst filters. exact Hbuilt.
Defined.

(** C8 (as stated) fails when the data query fails: a request without
    [skip], whose [skip] is therefore 0, sent to an upstream that answers
    503, fetches the data query alone and is answered 500; the count
    query is not attempted. *)
Lemma count_query_skipped_when_data_query_fails :
  let q := no_parameters in
  let skip := with_default (q_skip q) (Num 0) in
  let run := attendance_route UtcHost.host true (failing_upstream Null) q in
  q_skip q = Undefined
  /\ wants_count skip = true
  /\ fetched run
     = [BASE_API_URL ++ "/Activiteit?$filter=verwijderd eq false"
        ++ "&$expand=ActiviteitActor($expand=Persoon,Fractie)"
        ++ "&$top=1000&$skip=0&$orderby=aanvangstijd desc&$format=json"]
  /\ answer run
     = Ok (ServerError (Error "API request failed: 503 Service Unavailable")
                       attendance_details)
  /\ ~ (wants_count skip = true <->
        exists cq, In cq (fetched run) /\ attendance_count_query [base_filter] = Ok cq).
Proof.
  intros q skip run.
  split; [reflexivity|]. split; [reflexivity|]. split; [reflexivity|].
  split; [reflexivity|].
  intros [Hattempt _].
  destruct (Hattempt eq_refl) as (cq & Hin & Hcq).
  vm_compute in Hcq. inversion Hcq; subst cq.
  destruct Hin as [Hin|[]]. vm_compute in Hin. discriminate.
Qed.

(** X16. The count query counts what the data query pages through.  Of
    the queries one attendance request fetches, the first is the data
    query and the second, when there is one, the count query, and both
    are built from the filter list of that request: they carry the same
    [$filter] clause, which opens with the base filter.  The data query
    adds the expansion of the actors, the paging parameters and the
    ordering by start time, newest first; the count query adds
    [$count=true] only. *)
Theorem count_query_shares_filter (rt : Runtime) (loaded : bool) (up : Upstream)
        (q : Query) (dq : string) :
  let limit := with_default (q_limit q) (Num 1000) in
  let skip := with_default (q_skip q) (Num 0) in
  let run := attendance_route rt loaded up q in
  nth_error (fetched run) 0 = Some dq ->
  exists filters ops,
    route_filters q = Ok filters
    /\ attendance_query filters limit skip = Ok dq
    /\ let clause := "$filter=" ++ String.concat " and " filters in
       String.prefix ("$filter=" ++ base_filter) clause = true
       /\ mapM option_clause
               (defined_options [("top", limit); ("skip", skip);
                                 ("orderby", Str "aanvangstijd desc")]) = Ok ops
       /\ (forall l s,
              is_nullish limit = false -> is_nullish skip = false ->
              to_string limit = Ok l -> to_string skip = Ok s ->
              ops = ["$top=" ++ l; "$skip=" ++ s; "$orderby=aanvangstijd desc"])
       /\ dq = BASE_API_URL ++ "/Activiteit?" ++
               String.concat "&"
                 (clause :: "$expand=ActiviteitActor($expand=Persoon,Fractie)"
                         :: (ops ++ ["$format=json"])%list)
       /\ (forall cq,
              nth_error (fetched run) 1 = Some cq ->
              attendance_count_query filters = Ok cq
              /\ cq = BASE_API_URL ++ "/Activiteit?" ++
                      String.concat "&" [clause; "$count=true"; "$format=json"]).
Proof.
  intros limit skip run Hdq.
  assert (Hfacts : exists filters,
             route_filters q = Ok filters
             /\ attendance_query filters limit skip = Ok dq
             /\ forall cq, nth_error (fetched run) 1 = Some cq ->
                           attendance_count_query filters = Ok cq).
  { pose proof (attendance_route_outcome rt loaded up q) as Hout. cbv zeta in Hout.
    fold limit skip run in Hout.
    destruct Hout
      as [(e & _ & [Ht|(filters & dq' & Hf & Hq & Ht)])
         |(filters & dq' & cq' & data & metadata & Hf & Hq & Hcq & _ & Ht & _)].
    - rewrite Ht in Hdq. discriminate.
    - rewrite Ht in Hdq |- *. inversion Hdq; subst dq'. exists filters.
      split; [assumption|]. split; [assumption|]. intros cq H. discriminate.
    - rewrite Ht in Hdq |- *. exists filters.
      destruct (wants_count skip); inversion Hdq; subst dq';
        (split; [assumption|]); (split; [assumption|]); intros cq H;
        inversion H; subst; assumption. }
  destruct Hfacts as (filters & Hf & Hq & Hcount).
  pose proof Hf as Hbase. apply route_filters_base in Hbase as [rest ->].
  assert (Hne : base_filter :: rest <> []) by discriminate.
  pose proof Hq as Hurl. rewrite (attendance_query_url _ limit skip Hne) in Hurl.
  apply bind_Ok_inv in Hurl as (ops & Hops & Hurl). injection Hurl as Hdq'.
  exists (base_filter :: rest), ops.
  split; [assumption|]. split; [assumption|]. cbv zeta.
  split; [apply filter_clause_base|]. split; [assumption|]. split; [|split].
  - intros l s Hnl Hns Hl Hs. unfold defined_options in Hops. cbn [filter snd] in Hops.
    rewrite Hnl, Hns in Hops. cbn [negb is_nullish mapM] in Hops.
    unfold option_clause in Hops. cbn [fst snd] in Hops. rewrite Hl, Hs in Hops.
    simpl in Hops. now inversion Hops.
  - symmetry. exact Hdq'.
  - intros cq Hcq. specialize (Hcount cq Hcq). split; [assumption|].
    rewrite (attendance_count_query_url _ Hne) in Hcount. now inversion Hcount.
Qed.

Lemma count_query_shares_filter_sample :
  let run := attendance_route UtcHost.host true (constant_upstream sample_body)
                              {| q_dateFrom := Str "2024-01-01"; q_dateTo := Undefined;
                                 q_activityType := Undefined; q_limit := Str "50";
                                 q_skip := Str "0" |} in
  let clause := "$filter=verwijderd eq false and aanvangstijd ge 2024-01-01T00:00:00Z" in
  let dq := BASE_API_URL ++ "/Activiteit?" ++ clause
            ++ "&$expand=ActiviteitActor($expand=Persoon,Fractie)"
            ++ "&$top=50&$skip=0&$orderby=aanvangstijd desc&$format=json" in
  let cq := BASE_API_URL ++ "/Activiteit?" ++ clause ++ "&$count=true&$format=json" in
  nth_error (fetched run) 0 = Some dq
  /\ nth_error (fetched run) 1 = Some cq
  /\ attendance_count_query ["verwijderd eq false"; "aanvangstijd ge 2024-01-01T00:00:00Z"]
     = Ok cq.
Proof.
  intros run clause dq cq.
  assert (H0 : nth_error (fetched run) 0 = Some dq) by reflexivity.
  assert (H1 : nth_error (fetched run) 1 = Some cq) by reflexivity.
  split; [exact H0|]. split; [exact H1|].
  destruct (count_query_shares_filter UtcHost.host true (constant_upstream sample_body)
              _ dq H0) as (filters & ops & Hf & _ & _ & _ & _ & _ & Hcount).
  vm_compute in Hf. inversion Hf; subst filters.
  exact (proj1 (Hcount cq H1)).
Defined.

(** ** The formatted date *)

(** X17. A start time that the host parses is shown as the host formats
    it: for every record of an activity whose date text (the start time,
    or the date when there is no start time) parses to a time value in
    range, [activityDate] and [activityTime] are the texts of the two
    formatters, character for character (the replacement of ['-'] by
    ['-'] changes nothing), [hasValidDate] is [true], and
    [activityDateTime] is the date text as it came. *)
Theorem parsed_date_is_formatted (rt : Runtime) (acts : list value)
        (out : list AttendanceRecord) (r : AttendanceRecord) :
  processAttendanceData rt (Arr acts) = Ok out -> In r out ->
  (forall text, replace_dashes "-" text = text)
  /\ exists a,
      In a acts /\ activityId r = field "Id" a
      /\ activityDateTime r = or_else (field "Aanvangstijd" a) (field "Datum" a)
      /\ forall s t,
          activityDateTime r = Str s -> s <> "" ->
          Date_parse rt s = Some t -> (Z.abs t <= 8640000000000000)%Z ->
          activityDate r = toLocaleDateString rt t
          /\ activityTime r = toLocaleTimeString rt t
          /\ hasValidDate r = true.
Proof.
  intros Hrun Hin. split; [apply replace_dashes_same|].
  destruct (processAttendanceData_source rt _ out r Hrun Hin)
    as (acts' & a & c & Heq & Ha & Hna & Hc & Hp & Hf).
  inversion Heq; subst acts'. exists a.
  destruct Hf as (Hid & _ & Hdate & Htime & Hraw & _ & _ & _ & _ & _ & _ & _ & _ & _ & Hvalid).
  split; [assumption|]. split; [assumption|]. split; [assumption|].
  intros s t Hs Hne Hparse Ht. rewrite Hraw in Hs.
  rewrite (start_of_parsed rt a s t Hna Hs Hne Hparse Ht) in Hdate, Htime, Hvalid.
  auto.
Qed.

Lemma parsed_date_is_formatted_sample :
  processAttendanceData UtcHost.host (Arr [sample_activity]) = Ok sample_rows
  /\ In row_jan_berg sample_rows
  /\ activityDateTime row_jan_berg = Str "2024-03-15T14:30:00Z"
  /\ Date_parse UtcHost.host "2024-03-15T14:30:00Z" = Some 1710513000000%Z
  /\ activityDate row_jan_berg = "15-03-2024"
  /\ activityTime row_jan_berg = "14:30"
  /\ hasValidDate row_jan_berg = true.
Proof.
  assert (Hin : In row_jan_berg sample_rows) by (right; left; reflexivity).
  split; [reflexivity|]. split; [exact Hin|]. split; [reflexivity|].
  split; [reflexivity|].
  destruct (parsed_date_is_formatted UtcHost.host [sample_activity] sample_rows
              row_jan_berg eq_refl Hin) as (_ & a & _ & _ & _ & Hfmt).
  exact (Hfmt "2024-03-15T14:30:00Z" 1710513000000%Z eq_refl
              ltac:(discriminate) eq_refl ltac:(vm_compute; discriminate)).
Defined.
